(** * Emergency Guardian: execution and signature-quorum coordination

    A shallow embedding of the Python agents

      - [src/ai-agents/src/signature_collector.py]
      - [src/ai-agents/src/execution_coordinator.py]
      - [src/ai-agents/src/emergency_coordinator.py] (guardian notification
        and the guardian response monitor)

    and the properties the specification states about them.

    Conventions of the embedding.

    - Python [int] is [Z]; [float] is the kernel's binary64 [float];
      [str] is [string]; a [dict] with string keys is a [gmap string _];
      a [datetime] is the number of microseconds since the Unix epoch, a [Z]
      inside the range [datetime.min .. datetime.max].
    - An [Enum] class is a module with a type [t] and its [value] function;
      a [@dataclass] is a module with a record [t].
    - A coroutine is a computation in the monad [Async]: it reads and
      writes the [World] (the clock and the objects the coordinators own),
      emits the [Event]s it causes outside the world (payments, spawned
      tasks, escalations) and hands control to the rest of the event loop at
      [asyncio.sleep]. What the rest of the loop does during a suspension is
      the [Scheduler] every coroutine is run against. The clock moves only
      while a coroutine is suspended: two readings of [datetime.now()] with
      no suspension between them agree.
    - A method that never suspends is a function from the state of its
      object to a result and a new state, with the clock reading it makes
      as an argument.
    - A loop that waits takes its number of turns as [fuel] and returns
      [None] when they run out; the lemmas [..._ends] and [..._returns] give
      the fuel that is enough.
    - Logging is not modelled. *)

From Stdlib Require Import ZArith NArith Ascii String HexString.
From Stdlib Require Import Uint63 PrimFloat FloatOps SpecFloat.
From stdpp Require Import base option list gmap strings pretty.

Local Open Scope string_scope.
Local Open Scope list_scope.
Local Open Scope Z_scope.

(** ** Python primitives *)

(** [s[:n]] on a string. *)
Definition str_prefix (n : nat) (s : string) : string := String.substring 0 n s.

(** [f'{n:x}'] for [0 <= n]. *)
Definition format_x (n : N) : string :=
  match n with
  | N0 => "0"
  | Npos p => HexString.Raw.of_pos p ""
  end.

(** [s.rjust(width, '0')], the padding of [f'{n:0{width}x}']. *)
Fixpoint zeros (n : nat) : string :=
  match n with
  | O => ""
  | S n' => String "0" (zeros n')
  end.

Definition zero_pad (width : nat) (s : string) : string :=
  zeros (width - String.length s) +:+ s.

(** [''.join([f'{ord(c):02x}' for c in s])] *)
Fixpoint hex_of_chars (s : string) : string :=
  match s with
  | EmptyString => ""
  | String c s' => zero_pad 2 (format_x (N_of_ascii c)) +:+ hex_of_chars s'
  end.

(** [f"0x{''.join([f'{ord(c):02x}' for c in s[:32]])}"], the stand-in digest
    and transaction hash of the mock mode. *)
Definition mock_hex (s : string) : string := "0x" +:+ hex_of_chars (str_prefix 32 s).

(** [c.lower()] and [s.lower()] on ASCII text (addresses are hexadecimal). *)
Definition lower_ascii (c : ascii) : ascii :=
  let n := N_of_ascii c in
  if ((65 <=? n) && (n <=? 90))%N then ascii_of_N (n + 32) else c.

Fixpoint lower (s : string) : string :=
  match s with
  | EmptyString => ""
  | String c s' => String (lower_ascii c) (lower s')
  end.

(** [str(n)] for an [int]. *)
Definition str_of_int (n : Z) : string := pretty n.

(** [range(n)] *)
Definition range (n : Z) : list Z := (λ i : nat, Z.of_nat i) <$> seq 0 (Z.to_nat n).

(** [len(l)] *)
Definition len {A} (l : list A) : Z := Z.of_nat (length l).

(** *** datetime *)

Definition datetime_min : Z := -62135596800000000.
Definition datetime_max : Z := 253402300799999999.

Definition microseconds_per_second : Z := 1000000.

(** A [timedelta] of [us] microseconds: [OverflowError] ([None]) beyond
    999999999 days. *)
Definition timedelta_min : Z := -86399999913600000000.
Definition timedelta_max : Z := 86399999999999999999.

Definition timedelta (us : Z) : option Z :=
  if (timedelta_min <=? us) && (us <=? timedelta_max) then Some us else None.

(** [timedelta(hours=h)], [timedelta(minutes=m)] *)
Definition timedelta_hours (h : Z) : option Z := timedelta (h * 3600 * microseconds_per_second).
Definition timedelta_minutes (m : Z) : option Z := timedelta (m * 60 * microseconds_per_second).

(** [d + delta]: [OverflowError] ([None]) outside the datetime range. *)
Definition datetime_add (d delta : Z) : option Z :=
  let r := d + delta in
  if (datetime_min <=? r) && (r <=? datetime_max) then Some r else None.

(** [float(n)] for an integer of either sign (exact below [2^53]). *)
Definition float_of_Z (n : Z) : float :=
  if 0 <=? n then PrimFloat.of_uint63 (Uint63.of_Z n)
  else PrimFloat.opp (PrimFloat.of_uint63 (Uint63.of_Z (- n))).

(** [int(x)] for a finite float: truncation towards zero. *)
Definition int_of_float (x : float) : Z :=
  match Prim2SF x with
  | S754_finite s m e =>
      let a := if 0 <=? e then Z.pos m * 2 ^ e else Z.pos m / 2 ^ (- e) in
      if s then - a else a
  | _ => 0
  end.

(** [d.timestamp()] of a naive datetime, the local zone taken as UTC: the
    whole seconds since the epoch plus [d.microsecond / 1e6], added in
    binary64. *)
Definition timestamp (d : Z) : float :=
  PrimFloat.add (float_of_Z (d `div` microseconds_per_second))
                (PrimFloat.div (float_of_Z (d `mod` microseconds_per_second))
                               1000000%float).

(** [int(d.timestamp())]. The sum is rounded to binary64 before it is
    truncated, so this is the whole second of [d] for present-day readings
    but not for every reading: see [timestamp_int_rounds_up]. *)
Definition timestamp_int (d : Z) : Z := int_of_float (timestamp d).

(** ** Enumerations *)

Module SignatureStatus.
Inductive t := PENDING | IN_PROGRESS | COMPLETED | FAILED | EXPIRED | CANCELLED.

Definition value (s : t) : string :=
  match s with
  | PENDING => "pending"
  | IN_PROGRESS => "in_progress"
  | COMPLETED => "completed"
  | FAILED => "failed"
  | EXPIRED => "expired"
  | CANCELLED => "cancelled"
  end.

#[global] Instance signature_status_eq_dec : EqDecision t.
Proof. solve_decision. Defined.
End SignatureStatus.

Module SignatureType.
Inductive t := ETHEREUM | EIP712 | MULTISIG | THRESHOLD.

Definition value (s : t) : string :=
  match s with
  | ETHEREUM => "ethereum"
  | EIP712 => "eip712"
  | MULTISIG => "multisig"
  | THRESHOLD => "threshold"
  end.

#[global] Instance signature_type_eq_dec : EqDecision t.
Proof. solve_decision. Defined.
End SignatureType.

Module ExecutionStatus.
Inductive t :=
  PENDING | IN_PROGRESS | WAITING_SIGNATURES | READY_TO_EXECUTE
| EXECUTING | COMPLETED | FAILED | CANCELLED.

Definition value (s : t) : string :=
  match s with
  | PENDING => "pending"
  | IN_PROGRESS => "in_progress"
  | WAITING_SIGNATURES => "waiting_signatures"
  | READY_TO_EXECUTE => "ready_to_execute"
  | EXECUTING => "executing"
  | COMPLETED => "completed"
  | FAILED => "failed"
  | CANCELLED => "cancelled"
  end.

#[global] Instance execution_status_eq_dec : EqDecision t.
Proof. solve_decision. Defined.
End ExecutionStatus.

Module ExecutionPhase.
Inductive t :=
  PREPARATION | SIGNATURE_COLLECTION | CONTRACT_EXECUTION | VERIFICATION | COMPLETION.

Definition value (p : t) : string :=
  match p with
  | PREPARATION => "preparation"
  | SIGNATURE_COLLECTION => "signature_collection"
  | CONTRACT_EXECUTION => "contract_execution"
  | VERIFICATION => "verification"
  | COMPLETION => "completion"
  end.

#[global] Instance execution_phase_eq_dec : EqDecision t.
Proof. solve_decision. Defined.
End ExecutionPhase.

Module EmergencyType.
Inductive t :=
  MEDICAL_EMERGENCY | FINANCIAL_EMERGENCY | SECURITY_INCIDENT
| ACCIDENT_INSURANCE | FAMILY_SUPPORT | LEGAL_ASSISTANCE | UNKNOWN.

Definition value (e : t) : string :=
  match e with
  | MEDICAL_EMERGENCY => "medical_emergency"
  | FINANCIAL_EMERGENCY => "financial_emergency"
  | SECURITY_INCIDENT => "security_incident"
  | ACCIDENT_INSURANCE => "accident_insurance"
  | FAMILY_SUPPORT => "family_support"
  | LEGAL_ASSISTANCE => "legal_assistance"
  | UNKNOWN => "unknown"
  end.

#[global] Instance emergency_type_eq_dec : EqDecision t.
Proof. solve_decision. Defined.
End EmergencyType.

Module SeverityLevel.
Inductive t := LOW | MEDIUM | HIGH | CRITICAL.

Definition value (s : t) : string :=
  match s with
  | LOW => "low"
  | MEDIUM => "medium"
  | HIGH => "high"
  | CRITICAL => "critical"
  end.

#[global] Instance severity_level_eq_dec : EqDecision t.
Proof. solve_decision. Defined.
End SeverityLevel.

Module GuardianStatus.
Inductive t := UNKNOWN | NOTIFIED | ACKNOWLEDGED | RESPONDED | OFFLINE.

Definition value (s : t) : string :=
  match s with
  | UNKNOWN => "unknown"
  | NOTIFIED => "notified"
  | ACKNOWLEDGED => "acknowledged"
  | RESPONDED => "responded"
  | OFFLINE => "offline"
  end.

#[global] Instance guardian_status_eq_dec : EqDecision t.
Proof. solve_decision. Defined.
End GuardianStatus.

(** ** Data classes *)

(** The values that occur in the dictionaries the agents build and read
    ([to_dict], the mock signature list, the documents of an emergency).
    [PyIso d] stands for the string [d.isoformat()]. *)
Inductive PyValue :=
| PyStr (s : string)
| PyInt (n : Z)
| PyBool (b : bool)
| PyFloat (x : float)
| PyIso (d : Z).

(** [EmergencyData] and [EmergencyAnalysis] carry the attributes the
    coordinators read. *)
Module EmergencyData.
Record t := mk {
  emergency_id : string;
  user_address : string;
  emergency_type : EmergencyType.t;
  institution_name : string;
  institution_address : string;
  documents : list (gmap string PyValue);
  requested_amount : float;
  timestamp : Z
}.
End EmergencyData.

Module EmergencyAnalysis.
Record t := mk {
  severity_level : SeverityLevel.t;
  urgency_score : Z;
  recommended_amount : float;
  confidence_score : float;
  reasoning : string
}.
End EmergencyAnalysis.

Module GuardianSignature.
Record t := mk {
  guardian_address : string;
  signature : string;
  signature_type : SignatureType.t;
  timestamp : Z;
  message_hash : string;
  verified : bool
}.
End GuardianSignature.

Module SignatureCollection.
Record t := mk {
  collection_id : string;
  execution_id : string;
  required_signatures : Z;
  collected_signatures : list GuardianSignature.t;
  status : SignatureStatus.t;
  created_at : Z;
  expires_at : Z;
  message_to_sign : string;
  message_hash : string
}.

(** [len([sig for sig in self.collected_signatures if sig.verified])] *)
Definition collected_count (self : t) : Z :=
  len (filter (λ sig, GuardianSignature.verified sig = true) (collected_signatures self)).

Definition is_complete (self : t) : bool :=
  required_signatures self <=? collected_count self.

(** [datetime.now() > self.expires_at] *)
Definition is_expired (now : Z) (self : t) : bool :=
  expires_at self <? now.

(** [self.status = s] *)
Definition set_status (s : SignatureStatus.t) (self : t) : t :=
  mk (collection_id self) (execution_id self) (required_signatures self)
     (collected_signatures self) s (created_at self) (expires_at self)
     (message_to_sign self) (message_hash self).

(** [self.collected_signatures.append(sig)] *)
Definition append_signature (sig : GuardianSignature.t) (self : t) : t :=
  mk (collection_id self) (execution_id self) (required_signatures self)
     (collected_signatures self ++ [sig]) (status self) (created_at self)
     (expires_at self) (message_to_sign self) (message_hash self).

(** [if self.is_complete: self.status = SignatureStatus.COMPLETED], the
    check that follows every append. *)
Definition complete_if_ready (self : t) : t :=
  if is_complete self then set_status SignatureStatus.COMPLETED self else self.
End SignatureCollection.

(** *** Dictionaries handed to other components *)

(** [GuardianSignature.to_dict] *)
Definition GuardianSignature_to_dict (self : GuardianSignature.t) : gmap string PyValue :=
  list_to_map
    [ ("guardian_address", PyStr (GuardianSignature.guardian_address self));
      ("signature", PyStr (GuardianSignature.signature self));
      ("signature_type", PyStr (SignatureType.value (GuardianSignature.signature_type self)));
      ("timestamp", PyIso (GuardianSignature.timestamp self));
      ("message_hash", PyStr (GuardianSignature.message_hash self));
      ("verified", PyBool (GuardianSignature.verified self)) ].

(** ** External collaborators

    The libraries the agents call but do not contain: [web3]/[eth_account]
    (present or not, [WEB3_AVAILABLE]), and the notification transport. A
    call that raises returns [None]. *)
Class Externals := {
  WEB3_AVAILABLE : bool;
  (** [Web3.keccak(text=message).hex()] *)
  keccak_hex : string → string;
  (** [w3.eth.account.recover_message(encode_defunct(text=message_hash),
      signature=signature)] *)
  recover_message : string → string → option string;
  (** [notification_coordinator.send_emergency_notification(emergency_id,
      emergency_type, severity_level, ...)]: the pair
      [(notifications_sent, total_guardians)] of its result, or the
      exception it re-raises. *)
  send_emergency_notification : string → string → Z → option (Z * Z)
}.

(** ** The signature collector (signature_collector.py) *)

Record SignatureCollector := mkSignatureCollector {
  collections : gmap string SignatureCollection.t;
  mock_guardians : list string
}.

(** [SignatureCollector.__init__] *)
Definition SignatureCollector_init : SignatureCollector :=
  mkSignatureCollector ∅
    [ "0x742d35Cc6634C0532925a3b8D4C9db96590c6C87";
      "0x8ba1f109551bD432803012645Hac136c22C177e9";
      "0x1234567890123456789012345678901234567890";
      "0xabcdefabcdefabcdefabcdefabcdefabcdefabcd";
      "0x9876543210987654321098765432109876543210" ].

(** [self.collections = m] *)
Definition set_collections (m : gmap string SignatureCollection.t)
    (self : SignatureCollector) : SignatureCollector :=
  mkSignatureCollector m (mock_guardians self).

(** A coroutine that holds a [collection] object holds, in this model, its
    key in [self.collections]: [update_collection] is an assignment through
    that reference. Once the entry is deleted the object is out of every
    reader's reach and the assignment is dropped. *)
Definition update_collection (execution_id : string)
    (f : SignatureCollection.t → SignatureCollection.t)
    (self : SignatureCollector) : SignatureCollector :=
  set_collections (alter f execution_id (collections self)) self.

Definition _create_signature_message (execution_id : string) : string :=
  "Emergency Guardian Execution Authorization: " +:+ execution_id.

Definition _hash_message `{Externals} (message : string) : string :=
  if WEB3_AVAILABLE then keccak_hex message else mock_hex message.

Definition initialize_collection `{Externals} (now : Z) (execution_id : string)
    (required_signatures timelock_hours : Z) (self : SignatureCollector)
    : bool * SignatureCollector :=
  let collection_id :=
    "sig_" +:+ execution_id +:+ "_" +:+ str_of_int (timestamp_int now) in
  let message_to_sign := _create_signature_message execution_id in
  let message_hash := _hash_message message_to_sign in
  match timedelta_hours timelock_hours ≫= datetime_add now with
  | None => (false, self)
  | Some expires_at =>
      let collection :=
        SignatureCollection.mk collection_id execution_id required_signatures []
          SignatureStatus.PENDING now expires_at message_to_sign message_hash in
      (true, set_collections (<[execution_id := collection]> (collections self)) self)
  end.

Definition _verify_signature `{Externals} (guardian_address signature message_hash : string)
    (signature_type : SignatureType.t) : bool :=
  if negb WEB3_AVAILABLE then true
  else
    match signature_type with
    | SignatureType.ETHEREUM =>
        match recover_message message_hash signature with
        | Some recovered_address =>
            bool_decide (lower recovered_address = lower guardian_address)
        | None => false
        end
    | SignatureType.EIP712 => true
    | _ => false
    end.

(** [any(existing_sig.guardian_address == guardian_address for ...)], the
    loop that rejects a second signature of a guardian. *)
Definition already_signed (guardian_address : string) (collection : SignatureCollection.t) : bool :=
  existsb (λ existing_sig,
             bool_decide (GuardianSignature.guardian_address existing_sig = guardian_address))
          (SignatureCollection.collected_signatures collection).

Definition add_signature `{Externals} (now : Z) (execution_id guardian_address signature : string)
    (signature_type : SignatureType.t) (self : SignatureCollector)
    : bool * SignatureCollector :=
  match collections self !! execution_id with
  | None => (false, self)
  | Some collection =>
      if SignatureCollection.is_expired now collection then (false, self)
      else if already_signed guardian_address collection then (false, self)
      else
        let is_valid :=
          _verify_signature guardian_address signature
            (SignatureCollection.message_hash collection) signature_type in
        if negb is_valid then (false, self)
        else
          let guardian_signature :=
            GuardianSignature.mk guardian_address signature signature_type now
              (SignatureCollection.message_hash collection) true in
          (true,
           update_collection execution_id
             (λ c, SignatureCollection.complete_if_ready
                     (SignatureCollection.append_signature guardian_signature c))
             self)
  end.

Definition get_collection_status (execution_id : string) (self : SignatureCollector)
    : option SignatureCollection.t :=
  collections self !! execution_id.

Definition get_collected_signatures (execution_id : string) (self : SignatureCollector)
    : list (gmap string PyValue) :=
  match collections self !! execution_id with
  | None => []
  | Some collection =>
      GuardianSignature_to_dict <$>
        filter (λ sig, GuardianSignature.verified sig = true)
               (SignatureCollection.collected_signatures collection)
  end.

Definition cancel_collection (execution_id reason : string) (self : SignatureCollector)
    : bool * SignatureCollector :=
  match collections self !! execution_id with
  | None => (false, self)
  | Some _ =>
      (true,
       update_collection execution_id
         (SignatureCollection.set_status SignatureStatus.CANCELLED) self)
  end.

Definition cleanup_collection (execution_id : string) (self : SignatureCollector)
    : SignatureCollector :=
  set_collections (delete execution_id (collections self)) self.

(** The parts of the collector's coroutines that run between two
    suspension points, each one step of the event loop. *)

(** [start_collection], up to its first [await]: the lookup and
    [collection.status = SignatureStatus.IN_PROGRESS]. *)
Definition mark_in_progress (execution_id : string) (self : SignatureCollector)
    : bool * SignatureCollector :=
  match collections self !! execution_id with
  | None => (false, self)
  | Some _ =>
      (true,
       update_collection execution_id
         (SignatureCollection.set_status SignatureStatus.IN_PROGRESS) self)
  end.

(** [_simulate_guardian_signature], after its [await asyncio.sleep]. *)
Definition append_mock_signature (now : Z) (guardian_address : string)
    (collection : SignatureCollection.t) : SignatureCollection.t :=
  let mock_signature := mock_hex guardian_address in
  let signature :=
    GuardianSignature.mk guardian_address mock_signature SignatureType.ETHEREUM now
      (SignatureCollection.message_hash collection) true in
  SignatureCollection.complete_if_ready
    (SignatureCollection.append_signature signature collection).

(** One turn of the [while] loop of [_monitor_collection]: the collection
    after the turn, and whether the loop goes on to [await
    asyncio.sleep(5)] ([false] when its condition fails or it breaks). *)
Definition monitor_turn (now : Z) (collection : SignatureCollection.t)
    : SignatureCollection.t * bool :=
  if bool_decide (SignatureCollection.status collection = SignatureStatus.IN_PROGRESS) then
    if SignatureCollection.is_expired now collection then
      (SignatureCollection.set_status SignatureStatus.EXPIRED collection, false)
    else if SignatureCollection.is_complete collection then
      (SignatureCollection.set_status SignatureStatus.COMPLETED collection, false)
    else (collection, true)
  else (collection, false).

(** ** Execution plans and results (execution_coordinator.py) *)

Module ExecutionPlan.
Record t := mk {
  execution_id : string;
  emergency_data : EmergencyData.t;
  analysis : EmergencyAnalysis.t;
  operation_type : string;
  steps : list (gmap string PyValue);
  required_signatures : Z;
  timelock_hours : Z;
  recipient_address : string;
  amount : float;
  created_at : Z;
  status : ExecutionStatus.t;
  current_phase : ExecutionPhase.t
}.

(** [self.status = s] *)
Definition set_status (s : ExecutionStatus.t) (self : t) : t :=
  mk (execution_id self) (emergency_data self) (analysis self) (operation_type self)
     (steps self) (required_signatures self) (timelock_hours self)
     (recipient_address self) (amount self) (created_at self) s (current_phase self).

(** [self.current_phase = p] *)
Definition set_current_phase (p : ExecutionPhase.t) (self : t) : t :=
  mk (execution_id self) (emergency_data self) (analysis self) (operation_type self)
     (steps self) (required_signatures self) (timelock_hours self)
     (recipient_address self) (amount self) (created_at self) (status self) p.
End ExecutionPlan.

Module ExecutionResult.
Record t := mk {
  success : bool;
  execution_id : string;
  transaction_hash : option string;
  message : string;
  completed_steps : list string;
  failed_step : option string
}.

Definition success_result (execution_id tx_hash : string) (completed_steps : list string) : t :=
  mk true execution_id (Some tx_hash) "Execution completed successfully" completed_steps None.

Definition error_result (execution_id message : string) (failed_step : option string) : t :=
  mk false execution_id None message [] failed_step.
End ExecutionResult.

(** ** The world of the coroutines *)

(** What the coordinators own and share: the clock that [datetime.now()]
    reads, the execution registry [self.executions], the collector
    [self.signature_collector] ([None] when its import failed), and the
    guardian states kept by the notification coordinator. *)
Record World := mkWorld {
  clock : Z;
  suspensions : nat;
  executions : gmap string ExecutionPlan.t;
  signature_collector : option SignatureCollector;
  guardian_status : gmap string GuardianStatus.t
}.

Definition set_clock (c : Z) (w : World) : World :=
  mkWorld c (suspensions w) (executions w) (signature_collector w) (guardian_status w).

Definition set_suspensions (n : nat) (w : World) : World :=
  mkWorld (clock w) n (executions w) (signature_collector w) (guardian_status w).

Definition set_executions (m : gmap string ExecutionPlan.t) (w : World) : World :=
  mkWorld (clock w) (suspensions w) m (signature_collector w) (guardian_status w).

Definition set_signature_collector (sc : option SignatureCollector) (w : World) : World :=
  mkWorld (clock w) (suspensions w) (executions w) sc (guardian_status w).

(** Background coroutines handed to [asyncio.create_task]. *)
Inductive Task :=
| MonitorCollection (execution_id : string)
| MonitorGuardianResponses (emergency_id : string).

(** What a coroutine does beyond the world. *)
Inductive Event :=
| SmartContractPayment (recipient : string) (amount : float)
    (signatures : list (gmap string PyValue)) (emergency_data : EmergencyData.t)
| CreateTask (task : Task)
| HandleResponseTimeout (emergency_id : string).

(** The rest of the event loop: what happens to the world during the
    [k]-th suspension, asked to last [us] microseconds. *)
Definition Scheduler : Type := nat → Z → World → World.

Definition Async (A : Type) : Type := Scheduler → World → A * list Event * World.

#[global] Instance Async_ret : MRet Async := λ A a _ w, (a, [], w).

#[global] Instance Async_bind : MBind Async := λ A B f m sched w,
  let '(a, ev1, w1) := m sched w in
  let '(b, ev2, w2) := f a sched w1 in
  (b, ev1 ++ ev2, w2).

(** [datetime.now()] *)
Definition datetime_now : Async Z := λ _ w, (clock w, [], w).

(** [await asyncio.sleep(us / 1e6)]: the scheduler runs, and the coroutine
    resumes no earlier than [us] microseconds later. *)
Definition asyncio_sleep (us : Z) : Async unit := λ sched w,
  let w' := sched (suspensions w) us w in
  (tt, [], set_suspensions (S (suspensions w)) (set_clock (Z.max (clock w + us) (clock w')) w')).

Definition emit (e : Event) : Async unit := λ _ w, (tt, [e], w).

Definition gets {A} (f : World → A) : Async A := λ _ w, (f w, [], w).

Definition modify (f : World → World) : Async unit := λ _ w, (tt, [], f w).

(** A call of a method of [self.signature_collector] that does not
    suspend; [default] when there is no collector. *)
Definition collector_call {A} (default : A) (f : SignatureCollector → A * SignatureCollector)
    : Async A := λ _ w,
  match signature_collector w with
  | Some sc => let '(a, sc') := f sc in (a, [], set_signature_collector (Some sc') w)
  | None => (default, [], w)
  end.

(** An assignment to an attribute of the plan object registered under
    [execution_id]. *)
Definition update_plan (execution_id : string) (f : ExecutionPlan.t → ExecutionPlan.t)
    : Async unit :=
  modify (λ w, set_executions (alter f execution_id (executions w)) w).

(** ** The collector's coroutines *)

(** [self.mock_guardians[:n]], with Python's reading of a negative bound. *)
Definition slice_to {A} (n : Z) (l : list A) : list A :=
  if 0 <=? n then take (Z.to_nat n) l else take (length l - Z.to_nat (- n)) l.

Definition _simulate_guardian_signature (guardian_address execution_id : string) : Async unit :=
  collected ← gets (λ w,
    from_option (λ c, len (SignatureCollection.collected_signatures c)) 0
      (signature_collector w ≫= get_collection_status execution_id));
  asyncio_sleep (2000000 + collected * 500000);;
  now ← datetime_now;
  collector_call tt (λ sc,
    (tt, update_collection execution_id (append_mock_signature now guardian_address) sc)).

Definition _send_signature_request_to_guardian (guardian_address execution_id : string)
    (emergency_data : EmergencyData.t) (analysis : EmergencyAnalysis.t) : Async unit :=
  asyncio_sleep 1000000;;
  _simulate_guardian_signature guardian_address execution_id.

Definition _send_signature_requests (execution_id : string)
    (emergency_data : EmergencyData.t) (analysis : EmergencyAnalysis.t) : Async unit :=
  guardians ← gets (λ w,
    match signature_collector w with
    | Some sc =>
        match collections sc !! execution_id with
        | Some collection =>
            slice_to (SignatureCollection.required_signatures collection + 2)
                     (mock_guardians sc)
        | None => []
        end
    | None => []
    end);
  foldr (λ guardian_address rest,
           _send_signature_request_to_guardian guardian_address execution_id
             emergency_data analysis;;
           rest)
        (mret tt) guardians.

Definition start_collection (execution_id : string)
    (emergency_data : EmergencyData.t) (analysis : EmergencyAnalysis.t) : Async bool :=
  found ← collector_call false (mark_in_progress execution_id);
  if found : bool then
    _send_signature_requests execution_id emergency_data analysis;;
    emit (CreateTask (MonitorCollection execution_id));;
    mret true
  else mret false.

(** [_monitor_collection]; [None] when the [fuel] turns do not reach the
    end of the loop. *)
Fixpoint _monitor_collection_loop (fuel : nat) (execution_id : string) : Async (option unit) :=
  match fuel with
  | O => mret None
  | S fuel' =>
      now ← datetime_now;
      goes_on ← collector_call false (λ sc,
        match collections sc !! execution_id with
        | Some collection =>
            ((monitor_turn now collection).2,
             update_collection execution_id (λ c, (monitor_turn now c).1) sc)
        | None => (false, sc)
        end);
      if goes_on : bool then
        asyncio_sleep 5000000;;
        _monitor_collection_loop fuel' execution_id
      else mret (Some tt)
  end.

Definition _monitor_collection (fuel : nat) (execution_id : string) : Async (option unit) :=
  known ← gets (λ w,
    bool_decide (is_Some (signature_collector w ≫= get_collection_status execution_id)));
  if known : bool then _monitor_collection_loop fuel execution_id else mret (Some tt).

(** ** The execution coordinator (execution_coordinator.py)

    [self] is the world: [self.executions] and [self.signature_collector].
    A coroutine that holds an [execution_plan] object holds its key in
    [self.executions]; the attributes it reads from the object (everything
    but [status] and [current_phase]) are never assigned after creation and
    are read from the plan as it was when the coroutine got it. *)

Module ContractResult.
Record t := mk {
  success : bool;
  tx_hash : option string;
  message : string
}.
End ContractResult.

(** The [severity_level: Any] argument: a member of [SeverityLevel], which
    has a [value], or a plain string, which [str] leaves as it is. *)
Inductive SeverityArg :=
| OfSeverityLevel (s : SeverityLevel.t)
| OfStr (s : string).

Definition _calculate_required_signatures (severity_level : SeverityArg) (urgency_score : Z) : Z :=
  let severity_name :=
    match severity_level with
    | OfSeverityLevel s => SeverityLevel.value s
    | OfStr s => s
    end in
  if bool_decide (severity_name = "CRITICAL") || (90 <=? urgency_score) then 1
  else if bool_decide (severity_name = "HIGH") || (75 <=? urgency_score) then 2
  else 3.

Definition _calculate_timelock_hours (urgency_score : Z) : Z :=
  if 90 <=? urgency_score then 1
  else if 75 <=? urgency_score then 3
  else if 50 <=? urgency_score then 6
  else 12.

Definition _map_emergency_to_operation_type (emergency_type : string) : string :=
  if bool_decide (emergency_type = "medical_emergency") then "medical_treatment"
  else if bool_decide (emergency_type = "financial_emergency") then "financial_protection"
  else if bool_decide (emergency_type = "security_incident") then "security_response"
  else if bool_decide (emergency_type = "accident_insurance") then "insurance_claim"
  else if bool_decide (emergency_type = "family_support") then "family_assistance"
  else if bool_decide (emergency_type = "legal_assistance") then "legal_support"
  else "general_emergency".

(** [create_execution_plan]. [operation_steps] is what
    [[step.to_dict() for step in operation_steps]] evaluates to: the steps
    the operation manual returns for the emergency, or no step when the
    coordinator has no operation manual. *)
Definition create_execution_plan (operation_steps : list (gmap string PyValue))
    (emergency_data : EmergencyData.t) (analysis : EmergencyAnalysis.t)
    : Async ExecutionPlan.t :=
  now ← datetime_now;
  let execution_id :=
    "exec_" +:+ EmergencyData.emergency_id emergency_data +:+ "_" +:+
    str_of_int (timestamp_int now) in
  let operation_type :=
    _map_emergency_to_operation_type
      (EmergencyType.value (EmergencyData.emergency_type emergency_data)) in
  let required_signatures :=
    _calculate_required_signatures
      (OfSeverityLevel (EmergencyAnalysis.severity_level analysis))
      (EmergencyAnalysis.urgency_score analysis) in
  let timelock_hours := _calculate_timelock_hours (EmergencyAnalysis.urgency_score analysis) in
  let execution_plan :=
    ExecutionPlan.mk execution_id emergency_data analysis operation_type operation_steps
      required_signatures timelock_hours
      (EmergencyData.institution_address emergency_data)
      (EmergencyAnalysis.recommended_amount analysis)
      now ExecutionStatus.PENDING ExecutionPhase.PREPARATION in
  modify (λ w, set_executions (<[execution_id := execution_plan]> (executions w)) w);;
  mret execution_plan.

Definition _execute_preparation_phase `{Externals} (execution_plan : ExecutionPlan.t) : Async bool :=
  if bool_decide (ExecutionPlan.steps execution_plan = []) then mret false
  else if bool_decide (ExecutionPlan.recipient_address execution_plan = "") then mret false
  else if PrimFloat.leb (ExecutionPlan.amount execution_plan) 0%float then mret false
  else
    now ← datetime_now;
    collector_call false
      (initialize_collection now (ExecutionPlan.execution_id execution_plan)
         (ExecutionPlan.required_signatures execution_plan)
         (ExecutionPlan.timelock_hours execution_plan));;
    mret true.

(** The [while True] loop of [_execute_signature_collection_phase]; [None]
    when the [fuel] turns do not reach a [return]. The elapsed time is
    compared in microseconds. *)
Fixpoint wait_for_signatures (fuel : nat) (execution_id : string)
    (start_time max_wait_time : Z) : Async (option bool) :=
  match fuel with
  | O => mret None
  | S fuel' =>
      collector ← gets signature_collector;
      status_value ←
        match collector with
        | Some sc =>
            mret (from_option (λ c, SignatureStatus.value (SignatureCollection.status c))
                              "completed" (get_collection_status execution_id sc))
        | None =>
            asyncio_sleep 2000000;;
            mret (SignatureStatus.value SignatureStatus.COMPLETED)
        end;
      if bool_decide (status_value = "completed") then
        update_plan execution_id (ExecutionPlan.set_status ExecutionStatus.READY_TO_EXECUTE);;
        mret (Some true)
      else if bool_decide (status_value = "failed") then mret (Some false)
      else
        now ← datetime_now;
        if max_wait_time * microseconds_per_second <=? now - start_time then mret (Some false)
        else
          asyncio_sleep 30000000;;
          wait_for_signatures fuel' execution_id start_time max_wait_time
  end.

Definition _execute_signature_collection_phase (fuel : nat) (execution_plan : ExecutionPlan.t)
    : Async (option bool) :=
  collector ← gets signature_collector;
  collection_result ←
    match collector with
    | Some _ =>
        start_collection (ExecutionPlan.execution_id execution_plan)
          (ExecutionPlan.emergency_data execution_plan) (ExecutionPlan.analysis execution_plan)
    | None => mret true
    end;
  if negb collection_result then mret (Some false)
  else
    let max_wait_time := ExecutionPlan.timelock_hours execution_plan * 3600 in
    start_time ← datetime_now;
    wait_for_signatures fuel (ExecutionPlan.execution_id execution_plan) start_time max_wait_time.

Definition _execute_smart_contract_payment (recipient : string) (amount : float)
    (signatures : list (gmap string PyValue)) (emergency_data : EmergencyData.t) : Async string :=
  emit (SmartContractPayment recipient amount signatures emergency_data);;
  asyncio_sleep 2000000;;
  mret (mock_hex (EmergencyData.emergency_id emergency_data)).

(** [{"guardian": f"0x{i:040x}", "signature": f"0x{i:064x}"}] *)
Definition mock_signature_entry (i : Z) : gmap string PyValue :=
  list_to_map
    [ ("guardian", PyStr ("0x" +:+ zero_pad 40 (format_x (Z.to_N i))));
      ("signature", PyStr ("0x" +:+ zero_pad 64 (format_x (Z.to_N i)))) ].

(** The signatures [_execute_contract_phase] retrieves. *)
Definition retrieved_signatures (execution_plan : ExecutionPlan.t) (w : World)
    : list (gmap string PyValue) :=
  match signature_collector w with
  | Some sc => get_collected_signatures (ExecutionPlan.execution_id execution_plan) sc
  | None => mock_signature_entry <$> range (ExecutionPlan.required_signatures execution_plan)
  end.

Definition _execute_contract_phase (execution_plan : ExecutionPlan.t) : Async ContractResult.t :=
  signatures ← gets (retrieved_signatures execution_plan);
  if len signatures <? ExecutionPlan.required_signatures execution_plan then
    mret (ContractResult.mk false None
            ("Insufficient signatures: " +:+ str_of_int (len signatures) +:+ "/" +:+
             str_of_int (ExecutionPlan.required_signatures execution_plan)))
  else
    tx_hash ← _execute_smart_contract_payment
      (ExecutionPlan.recipient_address execution_plan)
      (ExecutionPlan.amount execution_plan)
      signatures
      (ExecutionPlan.emergency_data execution_plan);
    mret (ContractResult.mk true (Some tx_hash) "Contract execution successful").

Definition _verify_transaction_status (tx_hash : string) : Async bool :=
  asyncio_sleep 1000000;; mret true.

Definition _verify_funds_received (recipient : string) (amount : float) : Async bool :=
  asyncio_sleep 1000000;; mret true.

Definition _execute_verification_phase (execution_plan : ExecutionPlan.t) (tx_hash : string)
    : Async bool :=
  status_ok ← _verify_transaction_status tx_hash;
  if negb status_ok then mret false
  else
    funds_ok ← _verify_funds_received (ExecutionPlan.recipient_address execution_plan)
                                      (ExecutionPlan.amount execution_plan);
    if negb funds_ok then mret false else mret true.

(** Without a collector the call of [cleanup_collection] on [None] raises,
    and the phase returns [False]. *)
Definition _execute_completion_phase (execution_plan : ExecutionPlan.t) : Async bool :=
  collector_call false
    (λ sc, (true, cleanup_collection (ExecutionPlan.execution_id execution_plan) sc)).

(** [execute_plan]; [None] when the [fuel] of the signature wait runs out.
    No call below raises in this model, so the handler that sets
    [ExecutionStatus.FAILED] is never entered. *)
Definition execute_plan `{Externals} (fuel : nat) (execution_id : string)
    : Async (option ExecutionResult.t) :=
  found ← gets (λ w, executions w !! execution_id);
  match found with
  | None =>
      mret (Some (ExecutionResult.error_result execution_id "Execution plan not found" None))
  | Some execution_plan =>
      update_plan execution_id (ExecutionPlan.set_status ExecutionStatus.IN_PROGRESS);;
      update_plan execution_id (ExecutionPlan.set_current_phase ExecutionPhase.PREPARATION);;
      preparation_result ← _execute_preparation_phase execution_plan;
      if negb preparation_result then
        mret (Some (ExecutionResult.error_result execution_id
                      "Preparation phase failed" (Some "preparation")))
      else
      update_plan execution_id
        (ExecutionPlan.set_current_phase ExecutionPhase.SIGNATURE_COLLECTION);;
      update_plan execution_id (ExecutionPlan.set_status ExecutionStatus.WAITING_SIGNATURES);;
      signature_result ← _execute_signature_collection_phase fuel execution_plan;
      match signature_result with
      | None => mret None
      | Some false =>
          mret (Some (ExecutionResult.error_result execution_id
                        "Signature collection failed" (Some "signature_collection")))
      | Some true =>
      update_plan execution_id
        (ExecutionPlan.set_current_phase ExecutionPhase.CONTRACT_EXECUTION);;
      update_plan execution_id (ExecutionPlan.set_status ExecutionStatus.EXECUTING);;
      contract_result ← _execute_contract_phase execution_plan;
      match ContractResult.success contract_result, ContractResult.tx_hash contract_result with
      | true, Some tx_hash =>
      update_plan execution_id (ExecutionPlan.set_current_phase ExecutionPhase.VERIFICATION);;
      verification_result ← _execute_verification_phase execution_plan tx_hash;
      if negb verification_result then
        mret (Some (ExecutionResult.error_result execution_id
                      "Verification failed" (Some "verification")))
      else
      update_plan execution_id (ExecutionPlan.set_current_phase ExecutionPhase.COMPLETION);;
      update_plan execution_id (ExecutionPlan.set_status ExecutionStatus.COMPLETED);;
      _execute_completion_phase execution_plan;;
      mret (Some (ExecutionResult.success_result execution_id tx_hash
                    ["preparation"; "signature_collection"; "contract_execution";
                     "verification"; "completion"]))
      | _, _ =>
          mret (Some (ExecutionResult.error_result execution_id
                        (ContractResult.message contract_result) (Some "contract_execution")))
      end
      end
  end.

Definition get_execution_status (execution_id : string) : Async (option (gmap string PyValue)) :=
  found ← gets (λ w, executions w !! execution_id);
  match found with
  | None => mret None
  | Some execution_plan =>
      signature_status ← gets (λ w, signature_collector w ≫= get_collection_status execution_id);
      mret (Some (list_to_map
        [ ("execution_id", PyStr execution_id);
          ("status", PyStr (ExecutionStatus.value (ExecutionPlan.status execution_plan)));
          ("current_phase",
            PyStr (ExecutionPhase.value (ExecutionPlan.current_phase execution_plan)));
          ("operation_type", PyStr (ExecutionPlan.operation_type execution_plan));
          ("required_signatures", PyInt (ExecutionPlan.required_signatures execution_plan));
          ("collected_signatures",
            PyInt (from_option SignatureCollection.collected_count 0 signature_status));
          ("amount", PyFloat (ExecutionPlan.amount execution_plan));
          ("recipient", PyStr (ExecutionPlan.recipient_address execution_plan));
          ("created_at", PyIso (ExecutionPlan.created_at execution_plan));
          ("timelock_hours", PyInt (ExecutionPlan.timelock_hours execution_plan)) ]))
  end.

Definition cancel_execution (execution_id reason : string) : Async bool :=
  found ← gets (λ w, executions w !! execution_id);
  match found with
  | None => mret false
  | Some execution_plan =>
      if bool_decide (ExecutionPlan.status execution_plan = ExecutionStatus.COMPLETED)
         || bool_decide (ExecutionPlan.status execution_plan = ExecutionStatus.EXECUTING)
      then mret false
      else
        update_plan execution_id (ExecutionPlan.set_status ExecutionStatus.CANCELLED);;
        collector_call false (cancel_collection execution_id reason);;
        mret true
  end.

(** ** Guardian notification and the response monitor
       (emergency_coordinator.py) *)

(** [emergency_type_map.get(emergency_data.emergency_type, 'medical')] *)
Definition notification_type_of (e : EmergencyType.t) : string :=
  match e with
  | EmergencyType.MEDICAL_EMERGENCY => "medical"
  | EmergencyType.FINANCIAL_EMERGENCY => "financial"
  | EmergencyType.SECURITY_INCIDENT => "security"
  | _ => "medical"
  end.

(** [severity_level_map.get(analysis.severity_level, 2)] *)
Definition severity_level_int_of (s : SeverityLevel.t) : Z :=
  match s with
  | SeverityLevel.LOW => 1
  | SeverityLevel.MEDIUM => 2
  | SeverityLevel.HIGH => 3
  | SeverityLevel.CRITICAL => 3
  end.

(** The loop of [_notify_guardians_of_emergency] over
    [emergency_data.documents]: for a document with a ['description'] it
    evaluates ['...' in doc['description']] and [description +=
    doc['description'] + " "], which raise [TypeError] unless the description
    is a string. [true] when the loop runs to its end. *)
Definition descriptions_are_strings (documents : list (gmap string PyValue)) : bool :=
  forallb (λ doc : gmap string PyValue,
             match doc !! "description" with
             | None | Some (PyStr _) | Some (PyIso _) => true
             | Some _ => false
             end)
          documents.

(** [_notify_guardians_of_emergency]: an exception, of the loop over the
    documents or of the awaited notification, ends the coroutine in its
    handler, before the monitor is created. *)
Definition _notify_guardians_of_emergency `{Externals}
    (emergency_data : EmergencyData.t) (analysis : EmergencyAnalysis.t) : Async unit :=
  if negb (descriptions_are_strings (EmergencyData.documents emergency_data)) then mret tt
  else
    let notification_type :=
      notification_type_of (EmergencyData.emergency_type emergency_data) in
    let severity_level_int :=
      severity_level_int_of (EmergencyAnalysis.severity_level analysis) in
    asyncio_sleep 0;;
    match send_emergency_notification (EmergencyData.emergency_id emergency_data)
            notification_type severity_level_int with
    | Some results =>
        if 80 <=? EmergencyAnalysis.urgency_score analysis then
          emit (CreateTask (MonitorGuardianResponses (EmergencyData.emergency_id emergency_data)))
        else mret tt
    | None => mret tt
    end.

(** [sum(1 for status in guardian_status.values()
          if status.value in ['acknowledged', 'responded'])] *)
Definition responded_count (guardian_status : gmap string GuardianStatus.t) : Z :=
  len (filter (λ kv, bool_decide (GuardianStatus.value kv.2 = "acknowledged")
                     || bool_decide (GuardianStatus.value kv.2 = "responded") = true)
              (map_to_list guardian_status)).

(** [len(guardian_status)] *)
Definition total_count (guardian_status : gmap string GuardianStatus.t) : Z :=
  Z.of_nat (size guardian_status).

(** [float(n)] for a count [n] (exact below [2^53]). *)
Definition float_of_int (n : Z) : float := PrimFloat.of_uint63 (Uint63.of_Z n).

(** [responded_count >= total_count * 0.7], in binary64 as Python computes
    it; [0x1.6666666666666p-1] is the double the literal [0.7] denotes. *)
Definition sufficient_responses (responded total : Z) : bool :=
  PrimFloat.leb (PrimFloat.mul (float_of_int total) 0x1.6666666666666p-1%float)
                (float_of_int responded).

Definition _handle_response_timeout (emergency_id : string) : Async unit :=
  emit (HandleResponseTimeout emergency_id).

(** The [while datetime.now() < timeout_time] loop of
    [_monitor_guardian_responses]; [None] when the [fuel] turns do not
    reach its end. *)
Fixpoint response_loop (fuel : nat) (timeout_time : Z) : Async (option unit) :=
  match fuel with
  | O => mret None
  | S fuel' =>
      now ← datetime_now;
      if now <? timeout_time then
        guardian_status ← gets guardian_status;
        if sufficient_responses (responded_count guardian_status) (total_count guardian_status)
        then mret (Some tt)
        else
          asyncio_sleep 60000000;;
          response_loop fuel' timeout_time
      else mret (Some tt)
  end.

(** [_monitor_guardian_responses(emergency_id, timeout_minutes)]; an
    overflow of [start_time + timedelta(minutes=timeout_minutes)] ends it
    in the handler. *)
Definition _monitor_guardian_responses (fuel : nat) (emergency_id : string)
    (timeout_minutes : Z) : Async (option unit) :=
  start_time ← datetime_now;
  match timedelta_minutes timeout_minutes ≫= datetime_add start_time with
  | None => mret (Some tt)
  | Some timeout_time =>
      looped ← response_loop fuel timeout_time;
      match looped with
      | None => mret None
      | Some _ =>
          now ← datetime_now;
          if timeout_time <=? now then
            _handle_response_timeout emergency_id;;
            mret (Some tt)
          else mret (Some tt)
      end
  end.

(** The default [timeout_minutes = 30] of the monitor. *)
Definition default_timeout_minutes : Z := 30.

(** A property of collections (and of the clock reading) holds of every
    collection of a collector. *)
Definition holds_in (P : Z → SignatureCollection.t → Prop) (now : Z)
    (sc : SignatureCollector) : Prop :=
  ∀ execution_id collection,
    collections sc !! execution_id = Some collection → P now collection.

(** ** The specification's reading of the quorum policy *)

(** Section 4.1 of the specification: the required signature count from the
    severity tier and the urgency score, raised by one (up to 5) for an
    amount over the large-payment [threshold]. *)
Definition spec_base_signatures (severity : SeverityLevel.t) (urgency_score : Z) : Z :=
  if bool_decide (severity = SeverityLevel.CRITICAL) || (90 <=? urgency_score) then 1
  else if bool_decide (severity = SeverityLevel.HIGH) || (75 <=? urgency_score) then 2
  else 3.

Definition spec_required_signatures (threshold : float) (severity : SeverityLevel.t)
    (urgency_score : Z) (amount : float) : Z :=
  let base := spec_base_signatures severity urgency_score in
  if PrimFloat.ltb threshold amount then Z.min (base + 1) 5 else base.

(** What a submission that passes every check does to its collection. *)
Definition with_signature (sig : GuardianSignature.t) (collection : SignatureCollection.t)
    : SignatureCollection.t :=
  SignatureCollection.mk
    (SignatureCollection.collection_id collection)
    (SignatureCollection.execution_id collection)
    (SignatureCollection.required_signatures collection)
    (SignatureCollection.collected_signatures collection ++ [sig])
    (if SignatureCollection.required_signatures collection
          <=? SignatureCollection.collected_count collection
              + (if GuardianSignature.verified sig then 1 else 0)
     then SignatureStatus.COMPLETED else SignatureCollection.status collection)
    (SignatureCollection.created_at collection)
    (SignatureCollection.expires_at collection)
    (SignatureCollection.message_to_sign collection)
    (SignatureCollection.message_hash collection).

(** ** Runs of the collector

    One step of the event loop on the collector, at clock reading [now]: a
    call of its interface, or the stretch of one of its coroutines between
    two suspension points. *)
Inductive collector_step `{Externals} (now : Z) : SignatureCollector → SignatureCollector → Prop :=
| step_initialize_collection execution_id required_signatures timelock_hours sc :
    collector_step now sc
      (initialize_collection now execution_id required_signatures timelock_hours sc).2
| step_start_collection execution_id sc :
    collector_step now sc (mark_in_progress execution_id sc).2
| step_simulate_guardian_signature guardian_address execution_id sc :
    collector_step now sc
      (update_collection execution_id (append_mock_signature now guardian_address) sc)
| step_monitor_collection execution_id sc :
    collector_step now sc
      (update_collection execution_id (λ c, (monitor_turn now c).1) sc)
| step_add_signature execution_id guardian_address signature signature_type sc :
    collector_step now sc
      (add_signature now execution_id guardian_address signature signature_type sc).2
| step_cancel_collection execution_id reason sc :
    collector_step now sc (cancel_collection execution_id reason sc).2
| step_cleanup_collection execution_id sc :
    collector_step now sc (cleanup_collection execution_id sc).

(** The collectors a run can reach by clock reading [now]; the clock does
    not go back. *)
Inductive reachable_at `{Externals} : Z → SignatureCollector → Prop :=
| reachable_init now : reachable_at now SignatureCollector_init
| reachable_step now now' sc sc' :
    reachable_at now sc → now ≤ now' → collector_step now' sc sc' → reachable_at now' sc'.

(** ** Concrete runs

    The mock mode of the agents (no [web3]), and a collector after a few
    calls, used where a statement is exercised on an input. *)
Definition mock_mode : Externals :=
  {| WEB3_AVAILABLE := false;
     keccak_hex := mock_hex;
     recover_message := λ _ _, None;
     send_emergency_notification := λ _ _ _, Some (0, 0) |}.

(** One collection for ["exec_1"], one signature required, created at
    clock reading 0 with a time lock of one hour. *)
Definition demo_pending : SignatureCollector :=
  (@initialize_collection mock_mode 0 "exec_1" 1 1 SignatureCollector_init).2.

(** ... after a first guardian has signed, at clock reading 10. *)
Definition demo_completed : SignatureCollector :=
  (@add_signature mock_mode 10 "exec_1" "0xA1" "0x01" SignatureType.ETHEREUM demo_pending).2.

Definition demo_completed_collection : SignatureCollection.t :=
  SignatureCollection.mk "sig_exec_1_0" "exec_1" 1
    [GuardianSignature.mk "0xA1" "0x01" SignatureType.ETHEREUM 10
       (mock_hex (_create_signature_message "exec_1")) true]
    SignatureStatus.COMPLETED 0 3600000000
    (_create_signature_message "exec_1") (mock_hex (_create_signature_message "exec_1")).

(** ... or after the collection was started and its monitor woke up past
    the expiry time. *)
Definition demo_expired : SignatureCollector :=
  update_collection "exec_1" (λ c, (monitor_turn 3600000001 c).1)
    (mark_in_progress "exec_1" demo_pending).2.

Definition demo_expired_collection : SignatureCollection.t :=
  SignatureCollection.mk "sig_exec_1_0" "exec_1" 1 []
    SignatureStatus.EXPIRED 0 3600000000
    (_create_signature_message "exec_1") (mock_hex (_create_signature_message "exec_1")).

(** A scheduler that runs nothing else: a sleeping coroutine wakes up
    exactly on time, in an unchanged world. *)
Definition idle : Scheduler := λ _ _ w, w.

Definition demo_emergency : EmergencyData.t :=
  EmergencyData.mk "emerg_002" "0x742d35Cc6634C0532925a3b8D4C9db96590c6C87"
    EmergencyType.MEDICAL_EMERGENCY "Shanghai First Hospital"
    "0x1234567890123456789012345678901234567890" [] 80%float 0.

Definition demo_analysis : EmergencyAnalysis.t :=
  EmergencyAnalysis.mk SeverityLevel.CRITICAL 95 75%float 0x1.e666666666666p-1%float
    "life-threatening".

(** A plan for that emergency without steps, as a coordinator without
    operation manual creates them ([operation_steps = []]). *)
Definition demo_plan : ExecutionPlan.t :=
  ExecutionPlan.mk "exec_1" demo_emergency demo_analysis "medical_treatment" []
    (_calculate_required_signatures
       (OfSeverityLevel (EmergencyAnalysis.severity_level demo_analysis))
       (EmergencyAnalysis.urgency_score demo_analysis))
    (_calculate_timelock_hours (EmergencyAnalysis.urgency_score demo_analysis))
    (EmergencyData.institution_address demo_emergency)
    (EmergencyAnalysis.recommended_amount demo_analysis)
    0 ExecutionStatus.PENDING ExecutionPhase.PREPARATION.

Definition demo_world : World :=
  mkWorld 0 0 {[ "exec_1" := demo_plan ]} (Some demo_pending) ∅.

(** A scheduler under which no other task touches the execution registry. *)
Definition keeps_executions (sched : Scheduler) : Prop :=
  ∀ k us w, executions (sched k us w) = executions w.

(** A coroutine that leaves the execution registry as it found it. *)
Definition preserves_executions {A} (m : Async A) : Prop :=
  ∀ sched w, keeps_executions sched → executions (m sched w).2 = executions w.

(** A plan with one step that asks for six signatures within one hour, of
    a roster of five guardians. *)
Definition demo_plan_six : ExecutionPlan.t :=
  ExecutionPlan.mk "exec_2" demo_emergency demo_analysis "medical_treatment"
    [list_to_map [("step_id", PyStr "verify_identity")]]
    6 1 (EmergencyData.institution_address demo_emergency)
    (EmergencyAnalysis.recommended_amount demo_analysis)
    0 ExecutionStatus.PENDING ExecutionPhase.PREPARATION.

Definition demo_world_six : World :=
  mkWorld 0 0 {[ "exec_2" := demo_plan_six ]} (Some SignatureCollector_init) ∅.

(** ** Rounds of the guardian response monitor *)

(** Whether the guardian states of a world pass the test of the monitor. *)
Definition threshold_reached (w : World) : bool :=
  sufficient_responses (responded_count (guardian_status w))
                       (total_count (guardian_status w)).

(** The world the monitor finds at the start of its [n]-th polling round,
    when it gets that far: every earlier round ended in
    [await asyncio.sleep(60)]. *)
Fixpoint world_at_round (sched : Scheduler) (w : World) (n : nat) : World :=
  match n with
  | O => w
  | S n' => (asyncio_sleep 60000000 sched (world_at_round sched w n')).2
  end.

(** An emergency with a document whose description is a number. *)
Definition demo_emergency_numbered : EmergencyData.t :=
  EmergencyData.mk "emerg_003" "0x742d35Cc6634C0532925a3b8D4C9db96590c6C87"
    EmergencyType.MEDICAL_EMERGENCY "Shanghai First Hospital"
    "0x1234567890123456789012345678901234567890"
    [list_to_map [("type", PyStr "report"); ("description", PyInt 404)]] 80%float 0.

(** Four guardians, three of whom have answered. *)
Definition demo_world_answered : World :=
  mkWorld 0 0 ∅ None
    (list_to_map [ ("guardian_1", GuardianStatus.RESPONDED);
                   ("guardian_2", GuardianStatus.ACKNOWLEDGED);
                   ("guardian_3", GuardianStatus.RESPONDED);
                   ("guardian_4", GuardianStatus.NOTIFIED) ]).

(** Four guardians, one of whom has answered. *)
Definition demo_world_silent : World :=
  mkWorld 0 0 ∅ None
    (list_to_map [ ("guardian_1", GuardianStatus.RESPONDED);
                   ("guardian_2", GuardianStatus.NOTIFIED);
                   ("guardian_3", GuardianStatus.OFFLINE);
                   ("guardian_4", GuardianStatus.NOTIFIED) ]).

(** The example plan once its collection holds the quorum. *)
Definition demo_world_completed : World :=
  mkWorld 20 0 {[ "exec_1" := demo_plan ]} (Some demo_completed) ∅.

(** The assessment [_parse_gemini_response] falls back to when the
    response of the risk assessor cannot be parsed: no amount recommended. *)
Definition fallback_analysis : EmergencyAnalysis.t :=
  EmergencyAnalysis.mk SeverityLevel.MEDIUM 50 0%float 0x1.3333333333333p-2%float
    "Failed to parse Gemini analysis".

(** A coordinator with a collector and no plan yet, at clock reading 0,
    and the plan it creates for the example emergency under the fallback
    assessment, with one step of the operation manual. *)
Definition fresh_world : World := mkWorld 0 0 ∅ (Some SignatureCollector_init) ∅.

Definition fallback_world : World :=
  (create_execution_plan [list_to_map [("step_id", PyStr "verify_identity")]]
     demo_emergency fallback_analysis idle fresh_world).2.

(** ... and the plan for the example assessment (Critical, urgency 95). *)
Definition critical_world : World :=
  (create_execution_plan [list_to_map [("step_id", PyStr "verify_identity")]]
     demo_emergency demo_analysis idle fresh_world).2.

(** ** Further notions used in the statements *)

(** The guardians whose signatures a collection stores, in order. *)
Definition guardians_of (collection : SignatureCollection.t) : list string :=
  GuardianSignature.guardian_address <$> SignatureCollection.collected_signatures collection.

(** Whether [now + timedelta(hours=h)] is a datetime. *)
Definition expiry_in_range (now h : Z) : Prop :=
  timedelta_min ≤ h * 3600000000 ≤ timedelta_max
  ∧ datetime_min ≤ now + h * 3600000000 ≤ datetime_max.

(** A second mode for the examples: [web3] is there, and every message is
    recovered to one and the same address. *)
Definition one_key_mode : Externals :=
  {| WEB3_AVAILABLE := true;
     keccak_hex := mock_hex;
     recover_message := λ _ _, Some "0xAbCdEf";
     send_emergency_notification := λ _ _ _, Some (0, 0) |}.

(** The payment calls among the events of a run. *)
Definition is_payment (e : Event) : bool :=
  match e with
  | SmartContractPayment _ _ _ _ => true
  | _ => false
  end.

Definition payments (events : list Event) : list Event :=
  filter (λ e, is_payment e = true) events.

(** A coroutine that makes no payment call. *)
Definition pays_nothing {A} (m : Async A) : Prop :=
  ∀ sched w, payments (m sched w).1.2 = [].

(** The plans of [critical_world] and [fallback_world]. *)
Definition critical_plan : ExecutionPlan.t :=
  (create_execution_plan [list_to_map [("step_id", PyStr "verify_identity")]]
     demo_emergency demo_analysis idle fresh_world).1.1.

Definition fallback_plan : ExecutionPlan.t :=
  (create_execution_plan [list_to_map [("step_id", PyStr "verify_identity")]]
     demo_emergency fallback_analysis idle fresh_world).1.1.


(** ** The notification coordinator (notification_coordinator.py) *)

Module NotificationChannel.
Inductive t := EMAIL | SMS | PUSH | WEBHOOK.

Definition value (c : t) : string :=
  match c with
  | EMAIL => "email"
  | SMS => "sms"
  | PUSH => "push"
  | WEBHOOK => "webhook"
  end.
End NotificationChannel.

Module NotificationPriority.
Inductive t := LOW | NORMAL | HIGH | CRITICAL.

Definition value (p : t) : Z :=
  match p with
  | LOW => 1
  | NORMAL => 2
  | HIGH => 3
  | CRITICAL => 4
  end.

#[global] Instance notification_priority_eq_dec : EqDecision t.
Proof. solve_decision. Defined.
End NotificationPriority.

(** [d.time()]: the time of day, in microseconds after midnight. *)
Definition microseconds_per_day : Z := 86400 * microseconds_per_second.

Definition datetime_time (d : Z) : Z := d `mod` microseconds_per_day.

(** The time [datetime.strptime(s, '%H:%M').time()] of a string that reads
    [h:m]. *)
Definition time_hm (h m : Z) : Z := (h * 60 + m) * 60 * microseconds_per_second.

(** The preferences dictionary of a guardian, by the keys the coordinator
    reads; [None] for a key that is absent. [quiet_hours] holds the two
    times its ['start'] and ['end'] parse to, and is [None] as well when the
    entry is empty or does not parse: [_is_quiet_hours] answers [False] in
    all these cases. *)
Module Preferences.
Record t := mk {
  channels : option (list string);
  priority_threshold : option Z;
  quiet_hours : option (Z * Z)
}.

(** [{}] *)
Definition empty : t := mk None None None.

(** The preferences [register_guardian] stores when none are given. *)
Definition default : t :=
  mk (Some [NotificationChannel.value NotificationChannel.EMAIL;
            NotificationChannel.value NotificationChannel.SMS])
     (Some (NotificationPriority.value NotificationPriority.NORMAL))
     (Some (time_hm 22 0, time_hm 8 0)).
End Preferences.

(** An entry of [guardian_contacts], by the keys the coordinator reads. *)
Module ContactInfo.
Record t := mk {
  email : option string;
  phone : option string;
  push_token : option string;
  preferences : option Preferences.t
}.
End ContactInfo.

(** A dictionary whose order of insertion matters, as the list of its
    items. *)
Fixpoint dict_get {A} (k : string) (d : list (string * A)) : option A :=
  match d with
  | [] => None
  | (k', v) :: d' => if bool_decide (k' = k) then Some v else dict_get k d'
  end.

(** [d[k] = v]: in place for a key that is present, at the end otherwise. *)
Fixpoint dict_set {A} (k : string) (v : A) (d : list (string * A)) : list (string * A) :=
  match d with
  | [] => [(k, v)]
  | (k', v') :: d' => if bool_decide (k' = k) then (k, v) :: d' else (k', v') :: dict_set k v d'
  end.

(** [list(d.keys())] *)
Definition dict_keys {A} (d : list (string * A)) : list string := d.*1.

(** The delivery services. Each [_delivers] function stands for the [try]
    block of the sender: [true] when the service accepted the message,
    [false] when it did not or when the call raised. *)
Class Gateways := {
  sendgrid_enabled : bool;
  twilio_enabled : bool;
  firebase_enabled : bool;
  sendgrid_delivers : string → gmap string string → string → string → bool;
  twilio_delivers : string → gmap string string → bool;
  firebase_delivers : string → gmap string string → string → string → bool
}.

(** What [_send_to_guardian] returns: [{'success': False, 'reason': r}],
    [{'success': len(successful) > 0, 'successful_channels': ...,
    'failed_channels': ..., 'guardian_id': g}], or
    [{'success': False, 'error': str(e), 'guardian_id': g}]. *)
Module GuardianResult.
Inductive t :=
| Held (reason : string)
| Sent (successful_channels failed_channels : list string) (guardian_id : string)
| Errored (guardian_id : string).

(** [result.get('success', False)] *)
Definition success (r : t) : bool :=
  match r with
  | Sent successful _ _ => 0 <? len successful
  | _ => false
  end.

(** [result.get('successful_channels', [])] *)
Definition successful_channels (r : t) : list string :=
  match r with
  | Sent successful _ _ => successful
  | _ => []
  end.

(** [result.get('failed_channels', [])] *)
Definition failed_channels (r : t) : list string :=
  match r with
  | Sent _ failed _ => failed
  | _ => []
  end.
End GuardianResult.

(** The [results] dictionary of [send_emergency_notification]. *)
Module NotificationResults.
Record t := mk {
  emergency_id : string;
  total_guardians : Z;
  notifications_sent : Z;
  successful_channels : list string;
  failed_channels : list string;
  guardian_results : list (string * GuardianResult.t)
}.
End NotificationResults.

Module NotificationCoordinator.
Record t := mk {
  guardian_status : gmap string GuardianStatus.t;
  guardian_contacts : list (string * ContactInfo.t)
}.

Definition set_guardian_status (gs : gmap string GuardianStatus.t) (self : t) : t :=
  mk gs (guardian_contacts self).

Definition _send_email `{Gateways} (email : string) (content : gmap string string)
    (guardian_id emergency_id : string) : bool :=
  if negb sendgrid_enabled then false
  else sendgrid_delivers email content guardian_id emergency_id.

Definition _send_sms `{Gateways} (phone : string) (content : gmap string string)
    (guardian_id emergency_id : string) : bool :=
  if negb twilio_enabled then false
  else twilio_delivers phone content.

Definition _send_push `{Gateways} (push_token : string) (content : gmap string string)
    (guardian_id emergency_id : string) : bool :=
  if negb firebase_enabled then false
  else firebase_delivers push_token content guardian_id emergency_id.

Definition _determine_priority (severity_level : Z) (emergency_type : string)
    : NotificationPriority.t :=
  if 3 <=? severity_level then NotificationPriority.CRITICAL
  else if bool_decide (severity_level = 2) then NotificationPriority.HIGH
  else if bool_decide (emergency_type ∈ ["medical"; "security"]) then NotificationPriority.HIGH
  else NotificationPriority.NORMAL.

Definition _is_quiet_hours (now : Z) (preferences : Preferences.t) : bool :=
  match Preferences.quiet_hours preferences with
  | None => false
  | Some (start_time, end_time) =>
      let now := datetime_time now in
      if start_time <=? end_time then (start_time <=? now) && (now <=? end_time)
      else (start_time <=? now) || (now <=? end_time)
  end.

(** [contact_info[key]] when [channel == name and key in contact_info] *)
Definition address_for (channel : string) (name : NotificationChannel.t)
    (address : option string) : option string :=
  if bool_decide (channel = NotificationChannel.value name) then address else None.

(** One turn of the loop over the enabled channels: [Some] outcome of the
    sender called, [None] when the channel is not one of the three or the
    guardian has no address for it. *)
Definition send_on_channel `{Gateways} (contact_info : ContactInfo.t)
    (content : gmap string string) (guardian_id emergency_id channel : string) : option bool :=
  match address_for channel NotificationChannel.EMAIL (ContactInfo.email contact_info) with
  | Some email => Some (_send_email email content guardian_id emergency_id)
  | None =>
  match address_for channel NotificationChannel.SMS (ContactInfo.phone contact_info) with
  | Some phone => Some (_send_sms phone content guardian_id emergency_id)
  | None =>
  match address_for channel NotificationChannel.PUSH (ContactInfo.push_token contact_info) with
  | Some push_token => Some (_send_push push_token content guardian_id emergency_id)
  | None => None
  end end end.

(** The loop over [enabled_channels], with the two lists it appends to. *)
Fixpoint send_on_channels `{Gateways} (contact_info : ContactInfo.t)
    (content : gmap string string) (guardian_id emergency_id : string)
    (enabled_channels successful_channels failed_channels : list string)
    : list string * list string :=
  match enabled_channels with
  | [] => (successful_channels, failed_channels)
  | channel :: rest =>
      match send_on_channel contact_info content guardian_id emergency_id channel with
      | Some true =>
          send_on_channels contact_info content guardian_id emergency_id rest
            (successful_channels ++ [channel]) failed_channels
      | Some false =>
          send_on_channels contact_info content guardian_id emergency_id rest
            successful_channels (failed_channels ++ [channel])
      | None =>
          send_on_channels contact_info content guardian_id emergency_id rest
            successful_channels failed_channels
      end
  end.

(** [_send_to_guardian]; it awaits only the three senders, which do not
    suspend, and so runs in one piece at the clock reading [now]. *)
Definition _send_to_guardian `{Gateways} (now : Z) (guardian_id : string)
    (content : gmap string string) (priority : NotificationPriority.t)
    (emergency_id : string) (self : t) : GuardianResult.t * t :=
  match dict_get guardian_id (guardian_contacts self) with
  | None => (GuardianResult.Errored guardian_id, self)
  | Some contact_info =>
      let preferences :=
        default Preferences.empty (ContactInfo.preferences contact_info) in
      if NotificationPriority.value priority
         <? default (NotificationPriority.value NotificationPriority.NORMAL)
                    (Preferences.priority_threshold preferences)
      then (GuardianResult.Held "Below priority threshold", self)
      else if _is_quiet_hours now preferences
              && negb (bool_decide (priority = NotificationPriority.CRITICAL))
      then (GuardianResult.Held "Quiet hours", self)
      else
        let enabled_channels :=
          default [NotificationChannel.value NotificationChannel.EMAIL]
                  (Preferences.channels preferences) in
        let '(successful_channels, failed_channels) :=
          send_on_channels contact_info content guardian_id emergency_id
            enabled_channels [] [] in
        (GuardianResult.Sent successful_channels failed_channels guardian_id,
         if 0 <? len successful_channels
         then set_guardian_status
                (<[guardian_id := GuardianStatus.NOTIFIED]> (guardian_status self)) self
         else self)
  end.

(** The tasks [send_emergency_notification] hands to [asyncio.gather]: one
    for every target that has contacts, run in that order. *)
Fixpoint send_to_guardians `{Gateways} (now : Z) (content : gmap string string)
    (priority : NotificationPriority.t) (emergency_id : string)
    (tasks : list string) (self : t) : list GuardianResult.t * t :=
  match tasks with
  | [] => ([], self)
  | guardian_id :: rest =>
      let '(result, self1) :=
        _send_to_guardian now guardian_id content priority emergency_id self in
      let '(results, self2) :=
        send_to_guardians now content priority emergency_id rest self1 in
      (result :: results, self2)
  end.

(** The loop [for i, result in enumerate(guardian_results)], where
    [guardian_id = target_guardians[i]]; no result is an exception, since
    [_send_to_guardian] catches all of them. *)
Fixpoint collect_results (guardian_results : list GuardianResult.t)
    (target_guardians : list string) (results : NotificationResults.t)
    : NotificationResults.t :=
  match guardian_results, target_guardians with
  | result :: guardian_results', guardian_id :: target_guardians' =>
      collect_results guardian_results' target_guardians'
        (NotificationResults.mk
           (NotificationResults.emergency_id results)
           (NotificationResults.total_guardians results)
           (if GuardianResult.success result
            then NotificationResults.notifications_sent results + 1
            else NotificationResults.notifications_sent results)
           (if GuardianResult.success result
            then NotificationResults.successful_channels results
                 ++ GuardianResult.successful_channels result
            else NotificationResults.successful_channels results)
           (NotificationResults.failed_channels results
            ++ GuardianResult.failed_channels result)
           (dict_set guardian_id result (NotificationResults.guardian_results results)))
  | _, _ => results
  end.

(** [send_emergency_notification]. [content] is what
    [_generate_notification_content] returns for the message; that function
    raises [KeyError] for a severity level other than 1, 2 and 3, and the
    exception is raised again ([None]). The tasks run back to back at the
    clock reading [now]; the statistics and the history, which the results
    do not depend on, are left out. *)
Definition send_emergency_notification `{Gateways} (now : Z) (emergency_id : string)
    (emergency_type : string) (severity_level : Z) (content : gmap string string)
    (target_guardians : option (list string)) (self : t)
    : option NotificationResults.t * t :=
  let target_guardians := default (dict_keys (guardian_contacts self)) target_guardians in
  let priority := _determine_priority severity_level emergency_type in
  if negb (bool_decide (severity_level ∈ [1; 2; 3])) then (None, self)
  else
    let tasks :=
      filter (λ guardian_id, is_Some (dict_get guardian_id (guardian_contacts self)))
             target_guardians in
    let '(guardian_results, self') :=
      send_to_guardians now content priority emergency_id tasks self in
    (Some (collect_results guardian_results target_guardians
             (NotificationResults.mk emergency_id (len target_guardians) 0 [] [] [])),
     self').

(** [update_guardian_status] *)
Definition update_guardian_status (guardian_id : string) (status : GuardianStatus.t)
    (self : t) : t :=
  if bool_decide (is_Some (guardian_status self !! guardian_id))
  then set_guardian_status (<[guardian_id := status]> (guardian_status self)) self
  else self.

(** [get_guardian_status] *)
Definition get_guardian_status (guardian_id : string) (self : t) : option GuardianStatus.t :=
  guardian_status self !! guardian_id.

(** [get_all_guardian_status] *)
Definition get_all_guardian_status (self : t) : gmap string GuardianStatus.t :=
  guardian_status self.

(** [l[-n:]] for a positive [n] *)
Definition last_items {A} (n : nat) (l : list A) : list A := drop (length l - n) l.

(** [_record_notification_history], on [self.notification_history]; an
    entry is the triple of its timestamp, emergency id and results. *)
Definition _record_notification_history {R} (now : Z) (emergency_id : string) (results : R)
    (notification_history : list (Z * string * R)) : list (Z * string * R) :=
  let notification_history := notification_history ++ [(now, emergency_id, results)] in
  if 1000 <? len notification_history then last_items 500 notification_history
  else notification_history.
End NotificationCoordinator.

(** [status_map.get(status)] of [EmergencyCoordinator.update_guardian_status] *)
Definition status_map (status : string) : option GuardianStatus.t :=
  if bool_decide (status = "acknowledged") then Some GuardianStatus.ACKNOWLEDGED
  else if bool_decide (status = "responded") then Some GuardianStatus.RESPONDED
  else if bool_decide (status = "offline") then Some GuardianStatus.OFFLINE
  else if bool_decide (status = "notified") then Some GuardianStatus.NOTIFIED
  else None.

(** [EmergencyCoordinator.update_guardian_status] (emergency_coordinator.py) *)
Definition update_guardian_status (guardian_id status : string)
    (notification_coordinator : NotificationCoordinator.t) : NotificationCoordinator.t :=
  match status_map status with
  | Some mapped_status =>
      NotificationCoordinator.update_guardian_status guardian_id mapped_status
        notification_coordinator
  | None => notification_coordinator
  end.

(** 1 for a status the response monitor counts as an answer, 0 otherwise. *)
Definition answered (status : GuardianStatus.t) : Z :=
  if bool_decide (GuardianStatus.value status = "acknowledged")
     || bool_decide (GuardianStatus.value status = "responded")
  then 1 else 0.

(** The notification the emergency coordinator sends for an emergency of
    a type and an assessed severity, as one guardian receives it. *)
Definition notify_guardian `{Gateways} (now : Z) (emergency_type : EmergencyType.t)
    (severity_level : SeverityLevel.t) (guardian_id : string) (content : gmap string string)
    (emergency_id : string) (self : NotificationCoordinator.t)
    : GuardianResult.t * NotificationCoordinator.t :=
  NotificationCoordinator._send_to_guardian now guardian_id content
    (NotificationCoordinator._determine_priority
       (severity_level_int_of severity_level) (notification_type_of emergency_type))
    emergency_id self.

(** A scheduler under which no other task touches the signature collector. *)
Definition keeps_collector (sched : Scheduler) : Prop :=
  ∀ k us w, signature_collector (sched k us w) = signature_collector w.

(** The guardians whose signatures a collection holds, in the order of
    their arrival. *)
Definition signers (collection : SignatureCollection.t) : list string :=
  GuardianSignature.guardian_address <$> SignatureCollection.collected_signatures collection.

(** What the mock signatures of [guardians] make of a collection. *)
Definition signed_by (guardians : list string) (before after : SignatureCollection.t) : Prop :=
  signers after = signers before ++ guardians
  ∧ SignatureCollection.collected_count after
    = SignatureCollection.collected_count before + len guardians
  ∧ SignatureCollection.required_signatures after
    = SignatureCollection.required_signatures before
  ∧ SignatureCollection.status after
    = if bool_decide (guardians ≠ [])
         && (SignatureCollection.required_signatures before
             <=? SignatureCollection.collected_count before + len guardians)
      then SignatureStatus.COMPLETED
      else SignatureCollection.status before.

(** The collection of [demo_pending]. *)
Definition demo_pending_collection : SignatureCollection.t :=
  SignatureCollection.mk "sig_exec_1_0" "exec_1" 1 [] SignatureStatus.PENDING 0 3600000000
    (_create_signature_message "exec_1") (mock_hex (_create_signature_message "exec_1")).

(** Another task that releases the collection of [execution_id] during the
    first suspension of the run, as the completion phase of a second run
    of the same plan does ([cleanup_collection]); it acts at no other
    suspension. *)
Definition cleanup_by_other_task (execution_id : string) : Scheduler :=
  λ k _ w,
    match k with
    | O => set_signature_collector
             (cleanup_collection execution_id <$> signature_collector w) w
    | S _ => w
    end.

(** ** Theorems *)

(** *** Quorum policy *)

(** The count depends on the urgency score alone for a member of
    [SeverityLevel]: its values are lower-case, the names compared against
    are upper-case. *)
Lemma required_signatures_of_level (severity : SeverityLevel.t) (urgency_score : Z) :
  _calculate_required_signatures (OfSeverityLevel severity) urgency_score =
  if 90 <=? urgency_score then 1 else if 75 <=? urgency_score then 2 else 3.
Proof. by destruct severity. Qed.

(** The upper-case names do select the tier. *)
Lemma required_signatures_of_name (urgency_score : Z) :
  _calculate_required_signatures (OfStr "CRITICAL") urgency_score = 1 ∧
  _calculate_required_signatures (OfStr "HIGH") urgency_score =
    (if 90 <=? urgency_score then 1 else 2).
Proof.
  split; unfold _calculate_required_signatures; simpl; by destruct (90 <=? urgency_score).
Qed.

(** A [CRITICAL] assessment with a middling urgency score still asks for
    three signatures. *)
Example required_signatures_critical_50 :
  _calculate_required_signatures (OfSeverityLevel SeverityLevel.CRITICAL) 50 = 3.
Proof. reflexivity. Qed.

(** Over the threshold the specification always asks for one signature
    more than its base count, which the code never does. *)
Lemma spec_raises_over_threshold threshold severity urgency_score amount :
  PrimFloat.ltb threshold amount = true →
  spec_required_signatures threshold severity urgency_score amount
  = spec_base_signatures severity urgency_score + 1.
Proof.
  intros Hover. unfold spec_required_signatures. rewrite Hover.
  unfold spec_base_signatures.
  destruct (_ || _); [done|]. by destruct (_ || _).
Qed.

(** C2, as stated, fails: for a LOW assessment of urgency 50 and an amount
    of 101 over a large-payment threshold of 100, the specification asks for
    4 signatures and the code derives 3; it reads no amount. *)
Lemma C2_counterexample :
  _calculate_required_signatures (OfSeverityLevel SeverityLevel.LOW) 50 = 3 ∧
  spec_required_signatures 100%float SeverityLevel.LOW 50 101%float = 4.
Proof. split; reflexivity. Qed.

(** C2, amended: the derived count takes no account of the amount; it is the
    specification's count before the large-payment increase (1 if Critical
    or urgency >= 90, 2 if High or urgency >= 75, else 3) whenever the
    urgency score is at least 90, or at least 75 with a severity other than
    Critical, or the severity is Low or Medium; hence it is the
    specification's full count there for every amount that does not exceed
    the threshold. *)
Theorem C2_required_signatures_amended (severity : SeverityLevel.t) (urgency_score : Z) :
  90 ≤ urgency_score
  ∨ (severity ≠ SeverityLevel.CRITICAL ∧ 75 ≤ urgency_score)
  ∨ severity = SeverityLevel.LOW ∨ severity = SeverityLevel.MEDIUM →
  _calculate_required_signatures (OfSeverityLevel severity) urgency_score
    = spec_base_signatures severity urgency_score
  ∧ ∀ threshold amount : float,
      PrimFloat.ltb threshold amount = false →
      _calculate_required_signatures (OfSeverityLevel severity) urgency_score
        = spec_required_signatures threshold severity urgency_score amount.
Proof.
  intros Htier.
  assert (_calculate_required_signatures (OfSeverityLevel severity) urgency_score
          = spec_base_signatures severity urgency_score) as Hbase.
  { rewrite required_signatures_of_level. unfold spec_base_signatures.
    destruct (Z.leb_spec 90 urgency_score) as [H90|H90];
      [by rewrite orb_true_r|rewrite orb_false_r].
    destruct (Z.leb_spec 75 urgency_score) as [H75|H75].
    - rewrite orb_true_r.
      destruct severity; simpl; try done.
      destruct Htier as [?|[[Hne _]|[?|?]]]; try done; lia.
    - rewrite orb_false_r.
      destruct severity; simpl; try done;
        destruct Htier as [?|[[_ ?]|[?|?]]]; try done; lia. }
  split; [done|].
  intros threshold amount Hle. unfold spec_required_signatures. by rewrite Hle.
Qed.

Lemma C2_required_signatures_amended_witness :
  _calculate_required_signatures (OfSeverityLevel SeverityLevel.HIGH) 85
    = spec_base_signatures SeverityLevel.HIGH 85
  ∧ ∀ threshold amount : float,
      PrimFloat.ltb threshold amount = false →
      _calculate_required_signatures (OfSeverityLevel SeverityLevel.HIGH) 85
        = spec_required_signatures threshold SeverityLevel.HIGH 85 amount.
Proof.
  apply (C2_required_signatures_amended SeverityLevel.HIGH 85).
  right; left. split; [discriminate | lia].
Defined.

(** C8: the time lock is 1 hour from urgency 90, 3 hours from 75, 6 hours
    from 50 and 12 hours below, hence one of 1, 3, 6, 12; it and the
    required-signature count are functions of their arguments alone: equal
    arguments give equal results. *)
Theorem C8_timelock_hours (urgency_score : Z) :
  ( (90 ≤ urgency_score ∧ _calculate_timelock_hours urgency_score = 1)
    ∨ (75 ≤ urgency_score < 90 ∧ _calculate_timelock_hours urgency_score = 3)
    ∨ (50 ≤ urgency_score < 75 ∧ _calculate_timelock_hours urgency_score = 6)
    ∨ (urgency_score < 50 ∧ _calculate_timelock_hours urgency_score = 12) )
  ∧ _calculate_timelock_hours urgency_score ∈ [1; 3; 6; 12]
  ∧ (∀ urgency_score', urgency_score' = urgency_score →
       _calculate_timelock_hours urgency_score' = _calculate_timelock_hours urgency_score)
  ∧ (∀ severity_level severity_level' urgency_score',
       severity_level' = severity_level → urgency_score' = urgency_score →
       _calculate_required_signatures severity_level' urgency_score'
         = _calculate_required_signatures severity_level urgency_score).
Proof.
  unfold _calculate_timelock_hours.
  split; [|split; [|split]].
  - destruct (Z.leb_spec 90 urgency_score); [by left|].
    destruct (Z.leb_spec 75 urgency_score); [right; left; split; [lia|done]|].
    destruct (Z.leb_spec 50 urgency_score); [right; right; left; split; [lia|done]|].
    right; right; right. split; [lia|done].
  - destruct (90 <=? urgency_score); [set_solver|].
    destruct (75 <=? urgency_score); [set_solver|].
    destruct (50 <=? urgency_score); set_solver.
  - by intros ? ->.
  - by intros ? ? ? -> ->.
Qed.

(** *** The collector: lookups after an update *)

Lemma lookup_update_collection execution_id f (self : SignatureCollector) execution_id' :
  collections (update_collection execution_id f self) !! execution_id' =
  if decide (execution_id = execution_id') then f <$> collections self !! execution_id
  else collections self !! execution_id'.
Proof. unfold update_collection; simpl. apply lookup_alter. Qed.

Lemma update_collection_insert execution_id (f : SignatureCollection.t → SignatureCollection.t)
    (sc : SignatureCollector) collection :
  collections sc !! execution_id = Some collection →
  collections (update_collection execution_id f sc)
    = <[execution_id := f collection]> (collections sc).
Proof.
  intros Hin. apply map_eq; intros j.
  rewrite lookup_update_collection, lookup_insert.
  case_decide; [by rewrite Hin|done].
Qed.

Lemma update_collection_id execution_id f (sc : SignatureCollector) :
  (∀ collection, collections sc !! execution_id = Some collection → f collection = collection) →
  update_collection execution_id f sc = sc.
Proof.
  intros Hid. destruct sc as [m g]. unfold update_collection, set_collections; simpl in *.
  f_equal. apply map_eq; intros j. rewrite lookup_alter.
  case_decide as Hj; [subst j|done].
  destruct (m !! execution_id) eqn:Hm; simpl; [by rewrite (Hid _ eq_refl)|done].
Qed.

(** *** Counting verified signatures *)

Lemma collected_count_append sig (collection : SignatureCollection.t) :
  SignatureCollection.collected_count (SignatureCollection.append_signature sig collection)
  = SignatureCollection.collected_count collection
    + (if GuardianSignature.verified sig then 1 else 0).
Proof.
  unfold SignatureCollection.collected_count, len; simpl.
  rewrite filter_app, length_app, Nat2Z.inj_add. f_equal.
  rewrite filter_cons, filter_nil.
  destruct (GuardianSignature.verified sig); by case_decide.
Qed.

Lemma collected_count_set_status s (collection : SignatureCollection.t) :
  SignatureCollection.collected_count (SignatureCollection.set_status s collection)
  = SignatureCollection.collected_count collection.
Proof. done. Qed.

Lemma collected_count_all_verified (collection : SignatureCollection.t) :
  Forall (λ sig, GuardianSignature.verified sig = true)
         (SignatureCollection.collected_signatures collection) →
  filter (λ sig, GuardianSignature.verified sig = true)
         (SignatureCollection.collected_signatures collection)
  = SignatureCollection.collected_signatures collection.
Proof.
  induction 1 as [|sig l Hsig _ IH]; [done|].
  rewrite filter_cons. case_decide; [by rewrite IH|done].
Qed.

(** *** Submitting a signature *)

Lemma already_signed_spec guardian_address (collection : SignatureCollection.t) :
  already_signed guardian_address collection = true ↔
  ∃ sig, sig ∈ SignatureCollection.collected_signatures collection
         ∧ GuardianSignature.guardian_address sig = guardian_address.
Proof.
  unfold already_signed. rewrite existsb_exists. split.
  - intros (sig & Hin & Heq). exists sig. split; [by apply list_elem_of_In|].
    by apply bool_decide_eq_true in Heq.
  - intros (sig & Hin & Heq). exists sig. split; [by apply list_elem_of_In|].
    by apply bool_decide_eq_true.
Qed.

Lemma complete_if_ready_append sig (collection : SignatureCollection.t) :
  SignatureCollection.complete_if_ready (SignatureCollection.append_signature sig collection)
  = with_signature sig collection.
Proof.
  unfold SignatureCollection.complete_if_ready, SignatureCollection.is_complete, with_signature.
  rewrite collected_count_append. simpl.
  by destruct (_ <=? _).
Qed.

(** The two outcomes of [add_signature]. *)
Lemma add_signature_rejected `{Externals} now execution_id guardian_address signature
    signature_type (self : SignatureCollector) :
  (add_signature now execution_id guardian_address signature signature_type self).1 = false →
  (add_signature now execution_id guardian_address signature signature_type self).2 = self.
Proof.
  unfold add_signature.
  destruct (collections self !! execution_id) as [collection|]; [|done].
  destruct (SignatureCollection.is_expired now collection); [done|].
  destruct (already_signed guardian_address collection); [done|].
  by destruct (_verify_signature _ _ _ _).
Qed.

Lemma add_signature_accepted `{Externals} now execution_id guardian_address signature
    signature_type (self : SignatureCollector) :
  (add_signature now execution_id guardian_address signature signature_type self).1 = true →
  ∃ collection,
    collections self !! execution_id = Some collection
    ∧ SignatureCollection.is_expired now collection = false
    ∧ already_signed guardian_address collection = false
    ∧ _verify_signature guardian_address signature
        (SignatureCollection.message_hash collection) signature_type = true
    ∧ mock_guardians
        (add_signature now execution_id guardian_address signature signature_type self).2
      = mock_guardians self
    ∧ collections
        (add_signature now execution_id guardian_address signature signature_type self).2
      = <[execution_id :=
            with_signature
              (GuardianSignature.mk guardian_address signature signature_type now
                 (SignatureCollection.message_hash collection) true)
              collection]> (collections self).
Proof.
  unfold add_signature.
  destruct (collections self !! execution_id) as [collection|] eqn:Hlookup; [|done].
  destruct (SignatureCollection.is_expired now collection) eqn:Hexp; [done|].
  destruct (already_signed guardian_address collection) eqn:Hdup; [done|].
  destruct (_verify_signature guardian_address signature
              (SignatureCollection.message_hash collection) signature_type) eqn:Hver; [|done].
  cbn [fst snd negb]. intros _. exists collection. repeat (split; [done|]).
  rewrite (update_collection_insert _ _ _ collection) by done.
  by rewrite complete_if_ready_append.
Qed.

(** C4: [add_signature] fails exactly when there is no collection for the
    execution id, or the collection is past its expiry time, or a signature
    of the guardian is already stored, or the verifier rejects the signature
    against the stored digest; a failing call leaves the collector as it
    was; every other call appends exactly one signature of that guardian,
    marked verified, and sets the status to Completed if the verified count
    now meets the required count (and leaves the status alone otherwise). *)
Theorem C4_add_signature `{Externals} (now : Z)
    (execution_id guardian_address signature : string)
    (signature_type : SignatureType.t) (self : SignatureCollector) :
  let result :=
    add_signature now execution_id guardian_address signature signature_type self in
  (result.1 = false ↔
     collections self !! execution_id = None
     ∨ ∃ collection,
         collections self !! execution_id = Some collection
         ∧ (SignatureCollection.expires_at collection < now
            ∨ (∃ sig, sig ∈ SignatureCollection.collected_signatures collection
                      ∧ GuardianSignature.guardian_address sig = guardian_address)
            ∨ _verify_signature guardian_address signature
                (SignatureCollection.message_hash collection) signature_type = false))
  ∧ (result.1 = false → result.2 = self)
  ∧ (result.1 = true →
       ∃ collection,
         collections self !! execution_id = Some collection
         ∧ mock_guardians result.2 = mock_guardians self
         ∧ collections result.2 =
             <[execution_id :=
                 with_signature
                   (GuardianSignature.mk guardian_address signature signature_type now
                      (SignatureCollection.message_hash collection) true)
                   collection]> (collections self)).
Proof.
  cbn zeta. split; [|split].
  - unfold add_signature.
    destruct (collections self !! execution_id) as [collection|] eqn:Hlookup;
      [|split; [by left|done]].
    unfold SignatureCollection.is_expired.
    destruct (Z.ltb_spec (SignatureCollection.expires_at collection) now) as [Hexp|Hexp].
    { split; [|done]. intros _. right. exists collection. auto. }
    destruct (already_signed guardian_address collection) eqn:Hdup.
    { split; [|done]. intros _. right. exists collection.
      split; [done|]. right; left. by apply already_signed_spec. }
    destruct (_verify_signature guardian_address signature
                (SignatureCollection.message_hash collection) signature_type) eqn:Hver;
      cbn [fst negb].
    + split; [done|]. intros [Hnone|(c & Hc & Hcase)]; [done|].
      injection Hc as <-. destruct Hcase as [?|[Hsig|?]]; [lia| |congruence].
      apply already_signed_spec in Hsig. congruence.
    + split; [|done]. intros _. right. exists collection. auto.
  - apply add_signature_rejected.
  - intros Hok. apply add_signature_accepted in Hok as (c & Hc & _ & _ & _ & Hg & Hmap).
    by exists c.
Qed.

(** *** Invariants of the reachable collectors *)

Section Invariants.
Context `{Externals}.

(** A property of collections, possibly of the clock reading too, that
    every fresh collection has and every mutation of the collector keeps. *)
Variable P : Z → SignatureCollection.t → Prop.

Hypothesis P_later : ∀ now now' collection,
  now ≤ now' → P now collection → P now' collection.
Hypothesis P_fresh : ∀ now collection_id execution_id required expires message digest,
  P now (SignatureCollection.mk collection_id execution_id required []
           SignatureStatus.PENDING now expires message digest).
Hypothesis P_in_progress : ∀ now collection,
  P now collection → P now (SignatureCollection.set_status SignatureStatus.IN_PROGRESS collection).
Hypothesis P_cancelled : ∀ now collection,
  P now collection → P now (SignatureCollection.set_status SignatureStatus.CANCELLED collection).
Hypothesis P_mock : ∀ now guardian_address collection,
  P now collection → P now (append_mock_signature now guardian_address collection).
Hypothesis P_monitor : ∀ now collection,
  P now collection → P now (monitor_turn now collection).1.
Hypothesis P_submit : ∀ now guardian_address signature signature_type collection,
  SignatureCollection.is_expired now collection = false →
  P now collection →
  P now (with_signature
           (GuardianSignature.mk guardian_address signature signature_type now
              (SignatureCollection.message_hash collection) true)
           collection).

Lemma holds_in_update now execution_id f (sc : SignatureCollector) :
  (∀ collection, collections sc !! execution_id = Some collection →
                 P now collection → P now (f collection)) →
  holds_in P now sc → holds_in P now (update_collection execution_id f sc).
Proof.
  intros Hf Hsc j c. rewrite lookup_update_collection.
  case_decide as Hj; [subst j|by apply Hsc].
  destruct (collections sc !! execution_id) as [c0|] eqn:Hc0; [|done].
  simpl. intros [= <-]. apply Hf; [done|]. by apply (Hsc execution_id).
Qed.

Lemma collector_step_preserves now (sc sc' : SignatureCollector) :
  collector_step now sc sc' → holds_in P now sc → holds_in P now sc'.
Proof.
  intros Hstep Hsc.
  destruct Hstep as [id required hours sc|id sc|guardian id sc|id sc
                    |id guardian signature signature_type sc|id reason sc|id sc].
  - unfold initialize_collection.
    destruct (timedelta_hours hours ≫= datetime_add now); [|done].
    intros j c. simpl. rewrite lookup_insert.
    case_decide; [intros [= <-]; apply P_fresh|by apply Hsc].
  - unfold mark_in_progress. destruct (collections sc !! id); [|done].
    apply holds_in_update; [|done]. intros; by apply P_in_progress.
  - apply holds_in_update; [|done]. intros; by apply P_mock.
  - apply holds_in_update; [|done]. intros; by apply P_monitor.
  - destruct (add_signature now id guardian signature signature_type sc).1 eqn:Hadd.
    + apply add_signature_accepted in Hadd as (c & Hc & Hexp & _ & _ & _ & Hmap).
      intros j c'. rewrite Hmap, lookup_insert.
      case_decide; [intros [= <-]|by apply Hsc].
      apply P_submit; [done|]. by apply (Hsc id).
    + apply add_signature_rejected in Hadd. by rewrite Hadd.
  - unfold cancel_collection. destruct (collections sc !! id); [|done].
    apply holds_in_update; [|done]. intros; by apply P_cancelled.
  - intros j c. unfold cleanup_collection; simpl.
    intros Hj. apply lookup_delete_Some in Hj as [_ Hj]. by apply (Hsc j).
Qed.

Lemma reachable_at_holds now (sc : SignatureCollector) :
  reachable_at now sc → holds_in P now sc.
Proof.
  induction 1 as [now|now now' sc sc' _ IH Hle Hstep]; [done|].
  apply (collector_step_preserves now' sc); [done|].
  intros j c Hj. apply (P_later now); [done|]. by apply (IH j).
Qed.

End Invariants.

(** *** The runs of the examples *)

Lemma demo_completed_reachable : @reachable_at mock_mode 10 demo_completed.
Proof.
  apply (@reachable_step mock_mode 0 10 demo_pending); [|lia|].
  - apply (@reachable_step mock_mode 0 0 SignatureCollector_init); [|lia|].
    + apply reachable_init.
    + apply (@step_initialize_collection mock_mode 0 "exec_1" 1 1).
  - apply (@step_add_signature mock_mode 10 "exec_1" "0xA1" "0x01" SignatureType.ETHEREUM).
Defined.

Lemma demo_completed_lookup :
  collections demo_completed !! "exec_1" = Some demo_completed_collection.
Proof. vm_compute. reflexivity. Defined.

Lemma demo_expired_reachable : @reachable_at mock_mode 3600000001 demo_expired.
Proof.
  apply (@reachable_step mock_mode 0 3600000001 (mark_in_progress "exec_1" demo_pending).2);
    [|lia|].
  - apply (@reachable_step mock_mode 0 0 demo_pending); [|lia|].
    + apply (@reachable_step mock_mode 0 0 SignatureCollector_init); [|lia|].
      * apply reachable_init.
      * apply (@step_initialize_collection mock_mode 0 "exec_1" 1 1).
    + apply (@step_start_collection mock_mode 0 "exec_1").
  - apply (@step_monitor_collection mock_mode 3600000001 "exec_1").
Defined.

Lemma demo_expired_lookup :
  collections demo_expired !! "exec_1" = Some demo_expired_collection.
Proof. vm_compute. reflexivity. Defined.

(** *** Completion and verified signatures *)

Lemma collected_count_with_signature sig (collection : SignatureCollection.t) :
  SignatureCollection.collected_count (with_signature sig collection)
  = SignatureCollection.collected_count collection
    + (if GuardianSignature.verified sig then 1 else 0).
Proof.
  rewrite <- complete_if_ready_append.
  unfold SignatureCollection.complete_if_ready.
  destruct (SignatureCollection.is_complete _);
    [rewrite collected_count_set_status|]; apply collected_count_append.
Qed.

Lemma append_mock_signature_eq now guardian_address (collection : SignatureCollection.t) :
  append_mock_signature now guardian_address collection
  = with_signature
      (GuardianSignature.mk guardian_address (mock_hex guardian_address)
         SignatureType.ETHEREUM now (SignatureCollection.message_hash collection) true)
      collection.
Proof. unfold append_mock_signature. apply complete_if_ready_append. Qed.

(** A collection is marked Completed only with its quorum of verified
    signatures: the property of C3, kept by every step. *)
Lemma completed_has_quorum_holds `{Externals} now (sc : SignatureCollector) :
  reachable_at now sc →
  holds_in (λ _ collection,
              SignatureCollection.status collection = SignatureStatus.COMPLETED →
              SignatureCollection.required_signatures collection
                ≤ SignatureCollection.collected_count collection) now sc.
Proof.
  apply reachable_at_holds.
  - done.
  - done.
  - done.
  - done.
  - intros t g c IH. rewrite append_mock_signature_eq.
    rewrite collected_count_with_signature. simpl.
    destruct (Z.leb_spec (SignatureCollection.required_signatures c)
                (SignatureCollection.collected_count c + 1)); [done|].
    intros Hc. specialize (IH Hc). lia.
  - intros t c IH. unfold monitor_turn.
    case_bool_decide as Hst; [|done].
    destruct (SignatureCollection.is_expired t c); [done|].
    unfold SignatureCollection.is_complete.
    destruct (Z.leb_spec (SignatureCollection.required_signatures c)
                (SignatureCollection.collected_count c)); simpl; [done|].
    rewrite Hst. done.
  - intros t g sg ty c _ IH. rewrite collected_count_with_signature. simpl.
    destruct (Z.leb_spec (SignatureCollection.required_signatures c)
                (SignatureCollection.collected_count c + 1)); [done|].
    intros Hc. specialize (IH Hc). lia.
Qed.

(** Every stored signature is marked verified: the property of C10. *)
Lemma all_verified_holds `{Externals} now (sc : SignatureCollector) :
  reachable_at now sc →
  holds_in (λ _ collection,
              Forall (λ sig, GuardianSignature.verified sig = true)
                     (SignatureCollection.collected_signatures collection)) now sc.
Proof.
  apply reachable_at_holds.
  - done.
  - intros. by apply Forall_nil.
  - done.
  - done.
  - intros t g c IH. rewrite append_mock_signature_eq. simpl.
    apply Forall_app. split; [done|]. by apply Forall_singleton.
  - intros t c IH. unfold monitor_turn.
    case_bool_decide; [|done].
    destruct (SignatureCollection.is_expired t c); [done|].
    by destruct (SignatureCollection.is_complete c).
  - intros t g sg ty c _ IH. simpl.
    apply Forall_app. split; [done|]. by apply Forall_singleton.
Qed.

(** Along a run whose clock does not go back, an Expired collection is
    past its expiry time, and so refuses every later submission. *)
Lemma expired_is_past_holds `{Externals} now (sc : SignatureCollector) :
  reachable_at now sc →
  holds_in (λ now collection,
              SignatureCollection.status collection = SignatureStatus.EXPIRED →
              SignatureCollection.expires_at collection < now) now sc.
Proof.
  apply reachable_at_holds.
  - intros t t' c Hle IH Hst. specialize (IH Hst). lia.
  - done.
  - done.
  - done.
  - intros t g c IH. rewrite append_mock_signature_eq. simpl.
    by destruct (_ <=? _).
  - intros t c IH. unfold monitor_turn.
    case_bool_decide as Hst; [|done].
    unfold SignatureCollection.is_expired.
    destruct (Z.ltb_spec (SignatureCollection.expires_at c) t); [done|].
    destruct (SignatureCollection.is_complete c); [done|].
    simpl. by rewrite Hst.
  - intros t g sg ty c _ IH. simpl. by destruct (_ <=? _).
Qed.

(** C3: in every collector a run can reach, a collection whose status is
    Completed holds at least [required_signatures] signatures marked
    verified. *)
Theorem C3_completed_has_quorum `{Externals} (now : Z) (sc : SignatureCollector)
    (execution_id : string) (collection : SignatureCollection.t) :
  reachable_at now sc →
  collections sc !! execution_id = Some collection →
  SignatureCollection.status collection = SignatureStatus.COMPLETED →
  SignatureCollection.required_signatures collection
    ≤ SignatureCollection.collected_count collection.
Proof.
  intros Hreach Hlookup. by apply (completed_has_quorum_holds now sc Hreach execution_id).
Qed.

Lemma C3_completed_has_quorum_witness :
  SignatureCollection.required_signatures demo_completed_collection
    ≤ SignatureCollection.collected_count demo_completed_collection.
Proof.
  apply (@C3_completed_has_quorum mock_mode 10 demo_completed "exec_1"
           demo_completed_collection).
  - exact demo_completed_reachable.
  - exact demo_completed_lookup.
  - reflexivity.
Defined.

(** C10: in every collector a run can reach, every stored signature is
    marked verified; so the count of verified signatures is the number of
    stored signatures, and [get_collected_signatures] returns every stored
    entry. *)
Theorem C10_all_stored_verified `{Externals} (now : Z) (sc : SignatureCollector)
    (execution_id : string) (collection : SignatureCollection.t) :
  reachable_at now sc →
  collections sc !! execution_id = Some collection →
  Forall (λ sig, GuardianSignature.verified sig = true)
         (SignatureCollection.collected_signatures collection)
  ∧ SignatureCollection.collected_count collection
      = len (SignatureCollection.collected_signatures collection)
  ∧ get_collected_signatures execution_id sc
      = GuardianSignature_to_dict <$> SignatureCollection.collected_signatures collection.
Proof.
  intros Hreach Hlookup.
  pose proof (all_verified_holds now sc Hreach execution_id collection Hlookup) as Hall.
  simpl in Hall. split; [done|].
  unfold SignatureCollection.collected_count, get_collected_signatures.
  rewrite Hlookup. by rewrite collected_count_all_verified.
Qed.

Lemma C10_all_stored_verified_witness :
  Forall (λ sig, GuardianSignature.verified sig = true)
         (SignatureCollection.collected_signatures demo_completed_collection)
  ∧ SignatureCollection.collected_count demo_completed_collection
      = len (SignatureCollection.collected_signatures demo_completed_collection)
  ∧ get_collected_signatures "exec_1" demo_completed
      = GuardianSignature_to_dict
          <$> SignatureCollection.collected_signatures demo_completed_collection.
Proof.
  apply (@C10_all_stored_verified mock_mode 10 demo_completed "exec_1"
           demo_completed_collection).
  - exact demo_completed_reachable.
  - exact demo_completed_lookup.
Defined.

(** *** Terminal collections *)



Lemma cancel_collection_cancelled execution_id reason (sc : SignatureCollector) collection :
  collections sc !! execution_id = Some collection →
  SignatureCollection.status collection = SignatureStatus.CANCELLED →
  cancel_collection execution_id reason sc = (true, sc).
Proof.
  intros Hlookup Hst. unfold cancel_collection. rewrite Hlookup. f_equal.
  apply update_collection_id. intros c Hc.
  assert (c = collection) as -> by congruence.
  destruct collection; simpl in *. by subst.
Qed.


(** *** The settlement phase *)

Lemma len_get_collected_signatures execution_id (sc : SignatureCollector) collection :
  collections sc !! execution_id = Some collection →
  len (get_collected_signatures execution_id sc)
  = SignatureCollection.collected_count collection.
Proof.
  intros Hlookup. unfold get_collected_signatures, SignatureCollection.collected_count, len.
  rewrite Hlookup. by rewrite length_fmap.
Qed.

(** C1: the contract phase invokes the payment only with a quorum. When
    the signatures it retrieved for the plan are fewer than
    [required_signatures], it returns a failure whose message reads
    "Insufficient signatures: n/m" and makes no call; otherwise it makes
    exactly one payment call, with the plan's recipient and amount and the
    retrieved signatures, and reports success. With a collector, the
    retrieved signatures are those of [get_collected_signatures], as many
    as the collection counts verified. *)
Theorem C1_payment_requires_quorum (execution_plan : ExecutionPlan.t)
    (sched : Scheduler) (w : World) :
  let signatures := retrieved_signatures execution_plan w in
  let required := ExecutionPlan.required_signatures execution_plan in
  let run := _execute_contract_phase execution_plan sched w in
  (if len signatures <? required then
     ContractResult.success run.1.1 = false
     ∧ ContractResult.message run.1.1
       = "Insufficient signatures: " +:+ str_of_int (len signatures) +:+ "/" +:+
         str_of_int required
     ∧ run.1.2 = []
   else
     ContractResult.success run.1.1 = true
     ∧ run.1.2
       = [SmartContractPayment (ExecutionPlan.recipient_address execution_plan)
            (ExecutionPlan.amount execution_plan) signatures
            (ExecutionPlan.emergency_data execution_plan)])
  ∧ (∀ sc, signature_collector w = Some sc →
       signatures = get_collected_signatures (ExecutionPlan.execution_id execution_plan) sc
       ∧ ∀ collection,
           collections sc !! ExecutionPlan.execution_id execution_plan = Some collection →
           len signatures = SignatureCollection.collected_count collection).
Proof.
  cbn zeta. split.
  - unfold _execute_contract_phase, mbind, Async_bind, gets; simpl.
    destruct (len (retrieved_signatures execution_plan w)
                <? ExecutionPlan.required_signatures execution_plan); simpl; done.
  - intros sc Hsc. unfold retrieved_signatures. rewrite Hsc. split; [done|].
    intros collection. apply len_get_collected_signatures.
Qed.

(** *** Cancelling an execution *)

(** C7, as stated, fails: the second [cancel_execution] of the example plan
    returns [True] as the first did. *)
Lemma C7_counterexample :
  (cancel_execution "exec_1" "first" idle demo_world).1.1 = true
  ∧ (cancel_execution "exec_1" "second" idle
       (cancel_execution "exec_1" "first" idle demo_world).2).1.1 = true.
Proof. vm_compute. done. Qed.

Lemma alter_set_status_cancelled execution_id (m : gmap string ExecutionPlan.t) :
  alter (ExecutionPlan.set_status ExecutionStatus.CANCELLED) execution_id
    (alter (ExecutionPlan.set_status ExecutionStatus.CANCELLED) execution_id m)
  = alter (ExecutionPlan.set_status ExecutionStatus.CANCELLED) execution_id m.
Proof.
  apply map_eq; intros j. rewrite !lookup_alter.
  destruct (decide (execution_id = j)); [|done].
  rewrite decide_True by done. by destruct (m !! execution_id).
Qed.

Lemma cancel_collection_twice execution_id reason reason' (sc : SignatureCollector) :
  cancel_collection execution_id reason' (cancel_collection execution_id reason sc).2
  = ((cancel_collection execution_id reason sc).1, (cancel_collection execution_id reason sc).2).
Proof.
  unfold cancel_collection at 2 3 4.
  destruct (collections sc !! execution_id) as [c|] eqn:Hc; cbn [fst snd].
  - apply (cancel_collection_cancelled _ _ _
             (SignatureCollection.set_status SignatureStatus.CANCELLED c)); [|done].
    rewrite lookup_update_collection. case_decide; [|done]. by rewrite Hc.
  - unfold cancel_collection. by rewrite Hc.
Qed.

(** C7, amended: when a first [cancel_execution] of a plan succeeds, a
    second one returns [True] again, and leaves the world (the plan, its
    status Cancelled, and the signature collection) as the first left it. *)
Theorem C7_cancel_twice (sched : Scheduler) (w : World)
    (execution_id reason reason' : string) :
  (cancel_execution execution_id reason sched w).1.1 = true →
  cancel_execution execution_id reason' sched (cancel_execution execution_id reason sched w).2
  = (true, [], (cancel_execution execution_id reason sched w).2).
Proof.
  unfold cancel_execution, mbind, Async_bind, gets, update_plan, modify, collector_call, mret,
    Async_ret.
  destruct (executions w !! execution_id) as [plan|] eqn:Hplan; cbn [fst snd]; [|done].
  destruct (bool_decide (ExecutionPlan.status plan = ExecutionStatus.COMPLETED)
            || bool_decide (ExecutionPlan.status plan = ExecutionStatus.EXECUTING));
    cbn [fst snd]; [done|].
  intros _. destruct w as [clk k ex [sc|] gs]; cbn in *.
  - destruct (cancel_collection execution_id reason sc) as [r sc'] eqn:Hcancel. cbn.
    rewrite lookup_alter. case_decide; [|done]. rewrite Hplan. cbn.
    rewrite !bool_decide_eq_false_2 by done. cbn.
    pose proof (cancel_collection_twice execution_id reason reason' sc) as Htwice.
    rewrite Hcancel in Htwice. cbn in Htwice. rewrite Htwice. cbn.
    by rewrite alter_set_status_cancelled.
  - rewrite lookup_alter. case_decide; [|done]. rewrite Hplan. cbn.
    rewrite !bool_decide_eq_false_2 by done. cbn.
    by rewrite alter_set_status_cancelled.
Qed.

Lemma C7_cancel_twice_witness :
  cancel_execution "exec_1" "second" idle
    (cancel_execution "exec_1" "first" idle demo_world).2
  = (true, [], (cancel_execution "exec_1" "first" idle demo_world).2).
Proof.
  apply (C7_cancel_twice idle demo_world "exec_1" "first" "second").
  vm_compute. reflexivity.
Defined.

(** *** Running coroutines *)

Lemma bind_run {A B} (m : Async A) (f : A → Async B) sched w :
  (m ≫= f) sched w =
  (let '(a, ev1, w1) := m sched w in
   let '(b, ev2, w2) := f a sched w1 in (b, ev1 ++ ev2, w2)).
Proof. done. Qed.

Lemma preserves_ret {A} (a : A) : preserves_executions (mret a).
Proof. by intros sched w _. Qed.

Lemma preserves_bind {A B} (m : Async A) (f : A → Async B) :
  preserves_executions m → (∀ a, preserves_executions (f a)) →
  preserves_executions (m ≫= f).
Proof.
  intros Hm Hf sched w Hsched. rewrite bind_run.
  specialize (Hm sched w Hsched).
  destruct (m sched w) as [[a ev1] w1]. simpl in Hm.
  specialize (Hf a sched w1 Hsched).
  destruct (f a sched w1) as [[b ev2] w2]. simpl in *. congruence.
Qed.

Lemma preserves_sleep us : preserves_executions (asyncio_sleep us).
Proof. intros sched w Hsched. unfold asyncio_sleep; simpl. apply Hsched. Qed.

Lemma preserves_gets {A} (f : World → A) : preserves_executions (gets f).
Proof. by intros sched w _. Qed.

Lemma preserves_now : preserves_executions datetime_now.
Proof. by intros sched w _. Qed.

Lemma preserves_emit e : preserves_executions (emit e).
Proof. by intros sched w _. Qed.

Lemma preserves_collector_call {A} (default : A) f :
  preserves_executions (collector_call default f).
Proof.
  intros sched w _. unfold collector_call.
  destruct (signature_collector w) as [sc|]; [|done]. by destruct (f sc).
Qed.

Lemma preserves_simulate guardian_address execution_id :
  preserves_executions (_simulate_guardian_signature guardian_address execution_id).
Proof.
  unfold _simulate_guardian_signature.
  apply preserves_bind; [apply preserves_gets|intros collected].
  apply preserves_bind; [apply preserves_sleep|intros _].
  apply preserves_bind; [apply preserves_now|intros now].
  apply preserves_collector_call.
Qed.

Lemma preserves_send_requests execution_id emergency_data analysis :
  preserves_executions (_send_signature_requests execution_id emergency_data analysis).
Proof.
  unfold _send_signature_requests.
  apply preserves_bind; [apply preserves_gets|intros guardians].
  induction guardians as [|g guardians IH]; [apply preserves_ret|].
  simpl. apply preserves_bind; [|by intros _].
  unfold _send_signature_request_to_guardian.
  apply preserves_bind; [apply preserves_sleep|intros _]. apply preserves_simulate.
Qed.

Lemma preserves_start_collection execution_id emergency_data analysis :
  preserves_executions (start_collection execution_id emergency_data analysis).
Proof.
  unfold start_collection.
  apply preserves_bind; [apply preserves_collector_call|intros [|]]; [|apply preserves_ret].
  apply preserves_bind; [apply preserves_send_requests|intros _].
  apply preserves_bind; [apply preserves_emit|intros _]. apply preserves_ret.
Qed.

Lemma preserves_preparation `{Externals} execution_plan :
  preserves_executions (_execute_preparation_phase execution_plan).
Proof.
  unfold _execute_preparation_phase.
  case_bool_decide; [apply preserves_ret|].
  case_bool_decide; [apply preserves_ret|].
  destruct (PrimFloat.leb _ _); [apply preserves_ret|].
  apply preserves_bind; [apply preserves_now|intros now].
  apply preserves_bind; [apply preserves_collector_call|intros _]. apply preserves_ret.
Qed.

Lemma preserves_contract execution_plan :
  preserves_executions (_execute_contract_phase execution_plan).
Proof.
  unfold _execute_contract_phase.
  apply preserves_bind; [apply preserves_gets|intros signatures].
  destruct (_ <? _); [apply preserves_ret|].
  apply preserves_bind; [|intros; apply preserves_ret].
  unfold _execute_smart_contract_payment.
  apply preserves_bind; [apply preserves_emit|intros _].
  apply preserves_bind; [apply preserves_sleep|intros _]. apply preserves_ret.
Qed.

(** The signature wait writes the registry only when it succeeds. *)
Lemma wait_for_signatures_executions fuel execution_id start_time max_wait_time sched w :
  keeps_executions sched →
  let run := wait_for_signatures fuel execution_id start_time max_wait_time sched w in
  match run.1.1 with
  | Some true =>
      executions run.2
      = alter (ExecutionPlan.set_status ExecutionStatus.READY_TO_EXECUTE) execution_id
          (executions w)
  | Some false => executions run.2 = executions w
  | None => True
  end.
Proof.
  intros Hsched. revert w. induction fuel as [|fuel IH]; intros w; [done|].
  cbn zeta. cbn [wait_for_signatures]. rewrite bind_run. cbn [gets].
  destruct (signature_collector w) as [sc|] eqn:Hsc.
  - rewrite bind_run. cbn [mret Async_ret].
    case_bool_decide; [done|]. case_bool_decide; [done|].
    rewrite bind_run. cbn [datetime_now].
    destruct (_ <=? _); [done|].
    rewrite bind_run.
    pose proof (preserves_sleep 30000000 sched w Hsched) as Hsleep.
    destruct (asyncio_sleep 30000000 sched w) as [[[] ev] w1]. simpl in Hsleep.
    specialize (IH w1). cbn zeta in IH.
    destruct (wait_for_signatures fuel execution_id start_time max_wait_time sched w1)
      as [[[[|]|] ev2] w2]; simpl in *; congruence.
  - rewrite !bind_run.
    pose proof (preserves_sleep 2000000 sched w Hsched) as Hsleep.
    destruct (asyncio_sleep 2000000 sched w) as [[[] ev] w1]. simpl in Hsleep.
    cbn [mret Async_ret SignatureStatus.value].
    rewrite bool_decide_eq_true_2 by done.
    rewrite bind_run. unfold update_plan, modify. cbn. by rewrite Hsleep.
Qed.

Lemma signature_phase_executions fuel execution_plan sched w :
  keeps_executions sched →
  let run := _execute_signature_collection_phase fuel execution_plan sched w in
  match run.1.1 with
  | Some true =>
      executions run.2
      = alter (ExecutionPlan.set_status ExecutionStatus.READY_TO_EXECUTE)
          (ExecutionPlan.execution_id execution_plan) (executions w)
  | Some false => executions run.2 = executions w
  | None => True
  end.
Proof.
  intros Hsched. cbn zeta. unfold _execute_signature_collection_phase.
  rewrite bind_run. cbn [gets]. rewrite bind_run.
  destruct (signature_collector w) as [sc|];
    [ pose proof (preserves_start_collection (ExecutionPlan.execution_id execution_plan)
                    (ExecutionPlan.emergency_data execution_plan)
                    (ExecutionPlan.analysis execution_plan) sched w Hsched) as Hstart;
      destruct (start_collection (ExecutionPlan.execution_id execution_plan)
                  (ExecutionPlan.emergency_data execution_plan)
                  (ExecutionPlan.analysis execution_plan) sched w) as [[started ev] w1]
    | pose proof (preserves_ret true sched w Hsched) as Hstart;
      destruct ((mret true : Async bool) sched w) as [[started ev] w1] ].
  all: simpl in Hstart; destruct started; cbn [negb]; [|by simpl].
  all: rewrite bind_run; cbn [datetime_now].
  all: pose proof (wait_for_signatures_executions fuel
                (ExecutionPlan.execution_id execution_plan) (clock w1)
                (ExecutionPlan.timelock_hours execution_plan * 3600) sched w1 Hsched) as Hwait.
  all: cbn zeta in Hwait.
  all: destruct (wait_for_signatures fuel (ExecutionPlan.execution_id execution_plan) (clock w1)
              (ExecutionPlan.timelock_hours execution_plan * 3600) sched w1)
    as [[[[|]|] ev2] w2]; simpl in *; congruence.
Qed.

Lemma update_plan_run execution_id f sched w :
  update_plan execution_id f sched w
  = (tt, [], set_executions (alter f execution_id (executions w)) w).
Proof. done. Qed.

Lemma lookup_alter_plan execution_id f (m : gmap string ExecutionPlan.t) plan :
  m !! execution_id = Some plan → alter f execution_id m !! execution_id = Some (f plan).
Proof. intros Hm. rewrite lookup_alter, decide_True by done. by rewrite Hm. Qed.

(** The contract phase either fails without a transaction hash or succeeds
    with one. *)
Lemma contract_phase_shape (execution_plan : ExecutionPlan.t) (sched : Scheduler) (w : World) :
  let result := (_execute_contract_phase execution_plan sched w).1.1 in
  (ContractResult.success result = false ∧ ContractResult.tx_hash result = None)
  ∨ (ContractResult.success result = true ∧ ∃ tx, ContractResult.tx_hash result = Some tx).
Proof.
  cbn zeta. unfold _execute_contract_phase. rewrite bind_run. cbn [gets].
  destruct (_ <? _); [by left|]. right.
  rewrite bind_run.
  destruct (_execute_smart_contract_payment _ _ _ _ sched w) as [[tx ev] w1].
  simpl. eauto.
Qed.

(** *** A run of [execute_plan] to completion *)

(** The plan for the Critical assessment asks for one signature within one
    hour; the mock guardians sign, the payment is made once, with three
    signatures, and the plan ends Completed with its collection released. *)
Example execute_plan_completes :
  let run := @execute_plan mock_mode 121 "exec_emerg_002_0" idle critical_world in
  (ExecutionPlan.required_signatures <$> executions critical_world !! "exec_emerg_002_0"
     = Some 1
   ∧ ExecutionPlan.timelock_hours <$> executions critical_world !! "exec_emerg_002_0"
     = Some 1)
  ∧ run.1.1 = Some (ExecutionResult.success_result "exec_emerg_002_0"
                      (mock_hex "emerg_002")
                      ["preparation"; "signature_collection"; "contract_execution";
                       "verification"; "completion"])
  ∧ (match run.1.2 with
     | [CreateTask (MonitorCollection "exec_emerg_002_0");
        SmartContractPayment recipient amount signatures _] =>
         recipient = "0x1234567890123456789012345678901234567890"
         ∧ amount = 75%float ∧ length signatures = 3%nat
     | _ => False
     end)
  ∧ ExecutionPlan.status <$> executions run.2 !! "exec_emerg_002_0"
    = Some ExecutionStatus.COMPLETED
  ∧ (signature_collector run.2 ≫= get_collection_status "exec_emerg_002_0") = None.
Proof. vm_compute. done. Qed.

(** *** Failing phases of [execute_plan] *)

(** X13: whatever phase fails, and under any scheduler that leaves the
    registry to this coroutine, the plan is left in the status of the phase
    that was running ([IN_PROGRESS] after a failed preparation,
    [WAITING_SIGNATURES] after a failed signature collection, [EXECUTING]
    after a failed contract phase), never in [FAILED]. *)
Lemma execute_plan_failure_status `{Externals} fuel execution_id sched w plan result label :
  keeps_executions sched →
  executions w !! execution_id = Some plan →
  ExecutionPlan.execution_id plan = execution_id →
  (execute_plan fuel execution_id sched w).1.1 = Some result →
  ExecutionResult.failed_step result = Some label →
  ∃ plan',
    executions (execute_plan fuel execution_id sched w).2 !! execution_id = Some plan'
    ∧ ExecutionPlan.status plan' =
        (if bool_decide (label = "preparation") then ExecutionStatus.IN_PROGRESS
         else if bool_decide (label = "signature_collection")
              then ExecutionStatus.WAITING_SIGNATURES
              else ExecutionStatus.EXECUTING).
Proof.
  intros Hsched Hplan Hid. unfold execute_plan.
  rewrite bind_run. cbn [gets]. rewrite Hplan.
  rewrite bind_run, update_plan_run. rewrite bind_run, update_plan_run.
  set (w1 := set_executions _ (set_executions _ w)).
  assert (∃ p, executions w1 !! execution_id = Some p
               ∧ ExecutionPlan.status p = ExecutionStatus.IN_PROGRESS) as (p1 & Hp1 & Hs1).
  { eexists. split; [apply lookup_alter_plan, lookup_alter_plan, Hplan|done]. }
  clearbody w1. rewrite bind_run.
  pose proof (preserves_preparation plan sched w1 Hsched) as Hprep.
  destruct (_execute_preparation_phase plan sched w1) as [[prepared ev1] w2].
  simpl in Hprep. destruct prepared; cbn [negb].
  2:{ simpl. intros [= <-] [= <-]. exists p1. by rewrite Hprep. }
  rewrite bind_run, update_plan_run. rewrite bind_run, update_plan_run.
  set (w3 := set_executions _ (set_executions _ w2)).
  assert (∃ p, executions w3 !! execution_id = Some p
               ∧ ExecutionPlan.status p = ExecutionStatus.WAITING_SIGNATURES)
    as (p3 & Hp3 & Hs3).
  { eexists. split; [apply lookup_alter_plan, lookup_alter_plan; by rewrite Hprep|done]. }
  clearbody w3. rewrite bind_run.
  pose proof (signature_phase_executions fuel plan sched w3 Hsched) as Hsig.
  cbn zeta in Hsig. rewrite Hid in Hsig.
  destruct (_execute_signature_collection_phase fuel plan sched w3) as [[[[|]|] ev3] w4];
    simpl in Hsig.
  3:{ by simpl. }
  2:{ simpl. intros [= <-] [= <-]. exists p3. by rewrite Hsig. }
  rewrite bind_run, update_plan_run. rewrite bind_run, update_plan_run.
  set (w5 := set_executions _ (set_executions _ w4)).
  assert (∃ p, executions w5 !! execution_id = Some p
               ∧ ExecutionPlan.status p = ExecutionStatus.EXECUTING) as (p5 & Hp5 & Hs5).
  { eexists. split;
      [apply lookup_alter_plan, lookup_alter_plan; rewrite Hsig;
       apply lookup_alter_plan, Hp3|done]. }
  clearbody w5. rewrite bind_run.
  pose proof (preserves_contract plan sched w5 Hsched) as Hcontract.
  pose proof (contract_phase_shape plan sched w5) as Hshape.
  destruct (_execute_contract_phase plan sched w5) as [[contract ev5] w6].
  simpl in Hcontract, Hshape.
  destruct Hshape as [[Hfail Hnone]|[Hok [tx Htx]]].
  - rewrite Hfail. simpl. intros [= <-] [= <-]. exists p5. by rewrite Hcontract.
  - rewrite Hok, Htx. rewrite bind_run, update_plan_run. rewrite bind_run.
    unfold _execute_verification_phase, _verify_transaction_status, _verify_funds_received.
    rewrite !bind_run.
    destruct (asyncio_sleep 1000000 sched _) as [[[] ?] w7]. cbn [mret Async_ret negb].
    rewrite !bind_run.
    destruct (asyncio_sleep 1000000 sched w7) as [[[] ?] w8]. cbn [mret Async_ret negb].
    rewrite bind_run, update_plan_run. rewrite bind_run, update_plan_run. rewrite bind_run.
    destruct (_execute_completion_phase plan sched _) as [[? ?] ?].
    simpl. by intros [= <-].
Qed.

(** The signature wait of a plan that cannot reach its quorum ends at the
    time lock, with the plan left in [WAITING_SIGNATURES]. *)
Example execute_plan_signature_timeout :
  let run := @execute_plan mock_mode 200 "exec_2" idle demo_world_six in
  run.1.1 = Some (ExecutionResult.error_result "exec_2" "Signature collection failed"
                    (Some "signature_collection"))
  ∧ ExecutionPlan.status <$> executions run.2 !! "exec_2"
    = Some ExecutionStatus.WAITING_SIGNATURES
  ∧ run.1.2 = [CreateTask (MonitorCollection "exec_2")].
Proof. vm_compute. done. Qed.

(** The early return of the preparation phase: the plan created under the
    fallback assessment has amount 0, and the failed run leaves it in status
    [IN_PROGRESS]. *)
Example execute_plan_preparation_failure :
  let run := @execute_plan mock_mode 721 "exec_emerg_002_0" idle fallback_world in
  run.1.1 = Some (ExecutionResult.error_result "exec_emerg_002_0"
                    "Preparation phase failed" (Some "preparation"))
  ∧ ExecutionPlan.status <$> executions run.2 !! "exec_emerg_002_0"
    = Some ExecutionStatus.IN_PROGRESS.
Proof. vm_compute. done. Qed.

(** C6 fails on the code, in the settlement phase. The plan created for
    the Critical assessment is executed while another task releases its
    collection during the signature round. The signature wait finds no
    collection and lets the run proceed; the contract phase retrieves no
    signature and fails. The result records the failed step
    ["contract_execution"] and no payment is made, but the stored plan is
    left in status [EXECUTING], and that is what a later
    [get_execution_status] reports; [ExecutionStatus.FAILED] is assigned
    only in the exception handler of [execute_plan]. *)
Theorem C6_failed_phase_not_recorded :
  let run :=
    @execute_plan mock_mode 121 "exec_emerg_002_0"
      (cleanup_by_other_task "exec_emerg_002_0") critical_world in
  ExecutionPlan.status <$> executions critical_world !! "exec_emerg_002_0"
    = Some ExecutionStatus.PENDING
  ∧ run.1.1 = Some (ExecutionResult.error_result "exec_emerg_002_0"
                      "Insufficient signatures: 0/1" (Some "contract_execution"))
  ∧ run.1.2 = [CreateTask (MonitorCollection "exec_emerg_002_0")]
  ∧ ExecutionPlan.status <$> executions run.2 !! "exec_emerg_002_0"
    = Some ExecutionStatus.EXECUTING
  ∧ ((get_execution_status "exec_emerg_002_0" idle run.2).1.1 ≫= (λ d, d !! "status"))
    = Some (PyStr "executing").
Proof. vm_compute. done. Qed.

(** *** The guardian response monitor *)

(** On rosters of up to 120 guardians the binary64 test
    [responded >= total * 0.7] is the exact one, [10 * responded >= 7 * total]. *)
Lemma sufficient_responses_exact_small :
  forallb (λ total,
             forallb (λ responded,
                        bool_decide (sufficient_responses responded total
                                     = (7 * total <=? 10 * responded)))
                     (range (total + 1)))
          (range 121) = true.
Proof. vm_compute. reflexivity. Qed.

Lemma notify_events `{Externals} emergency_data analysis sched w :
  (_notify_guardians_of_emergency emergency_data analysis sched w).1.2 =
  if descriptions_are_strings (EmergencyData.documents emergency_data)
     && bool_decide (is_Some (send_emergency_notification
                                (EmergencyData.emergency_id emergency_data)
                                (notification_type_of
                                   (EmergencyData.emergency_type emergency_data))
                                (severity_level_int_of
                                   (EmergencyAnalysis.severity_level analysis))))
     && (80 <=? EmergencyAnalysis.urgency_score analysis)
  then [CreateTask (MonitorGuardianResponses (EmergencyData.emergency_id emergency_data))]
  else [].
Proof.
  unfold _notify_guardians_of_emergency.
  destruct (descriptions_are_strings _); cbn [negb andb]; [|done].
  rewrite bind_run.
  destruct (asyncio_sleep 0 sched w) as [[[] ev] w1] eqn:Hsleep.
  assert (ev = []) as -> by (by injection Hsleep).
  destruct (send_emergency_notification _ _ _) as [results|]; [|done].
  rewrite bool_decide_eq_true_2 by eauto. cbn [andb].
  by destruct (80 <=? _).
Qed.

Lemma response_loop_unfold fuel timeout_time sched w :
  response_loop (S fuel) timeout_time sched w =
  if clock w <? timeout_time then
    if threshold_reached w then (Some tt, [], w)
    else response_loop fuel timeout_time sched (asyncio_sleep 60000000 sched w).2
  else (Some tt, [], w).
Proof.
  cbn [response_loop]. rewrite bind_run. cbn [datetime_now].
  destruct (clock w <? timeout_time); [|done].
  rewrite bind_run. cbn [gets]. unfold threshold_reached.
  destruct (sufficient_responses _ _); [done|].
  rewrite bind_run. cbn [asyncio_sleep snd].
  by destruct (response_loop fuel timeout_time sched _) as [[r ev] w'].
Qed.

Lemma world_at_round_S sched w n :
  world_at_round sched w (S n)
  = world_at_round sched (asyncio_sleep 60000000 sched w).2 n.
Proof. induction n as [|n IH]; [done|]. cbn [world_at_round] in *. by rewrite IH. Qed.

Lemma clock_after_sleep us sched w : clock w + us ≤ clock (asyncio_sleep us sched w).2.
Proof. unfold asyncio_sleep; simpl. lia. Qed.

Lemma clock_at_round sched w n :
  clock w + Z.of_nat n * 60000000 ≤ clock (world_at_round sched w n).
Proof.
  induction n as [|n IH]; [simpl; lia|].
  cbn [world_at_round].
  pose proof (clock_after_sleep 60000000 sched (world_at_round sched w n)). lia.
Qed.

(** The loop runs round after round until the threshold is reached or the
    deadline has passed, and stops in the world of that round. *)
Lemma response_loop_rounds n : ∀ fuel timeout_time sched w,
  (n < fuel)%nat →
  (∀ k, (k < n)%nat →
        clock (world_at_round sched w k) < timeout_time
        ∧ threshold_reached (world_at_round sched w k) = false) →
  timeout_time ≤ clock (world_at_round sched w n)
  ∨ threshold_reached (world_at_round sched w n) = true →
  response_loop fuel timeout_time sched w = (Some tt, [], world_at_round sched w n).
Proof.
  induction n as [|n IH]; intros fuel T sched w Hfuel Hbefore Hstop.
  - destruct fuel as [|fuel]; [lia|]. rewrite response_loop_unfold. simpl in Hstop.
    destruct (Z.ltb_spec (clock w) T); [|done].
    destruct Hstop as [?|Hreached]; [lia|by rewrite Hreached].
  - destruct fuel as [|fuel]; [lia|]. rewrite response_loop_unfold.
    destruct (Hbefore 0%nat) as [Hclock Hnot]; [lia|]. simpl in Hclock, Hnot.
    destruct (Z.ltb_spec (clock w) T); [|lia]. rewrite Hnot.
    rewrite world_at_round_S. apply IH; [lia| |by rewrite <- world_at_round_S].
    intros k Hk. rewrite <- world_at_round_S. apply Hbefore. lia.
Qed.

(** With a turn of fuel for every minute up to the deadline, and one more,
    the loop ends: at a round that found the threshold reached before the
    deadline, or past the deadline. *)
Lemma response_loop_ends fuel : ∀ timeout_time sched w,
  timeout_time - clock w ≤ (Z.of_nat fuel - 1) * 60000000 →
  (0 < fuel)%nat →
  ∃ n, (n < fuel)%nat
       ∧ response_loop fuel timeout_time sched w = (Some tt, [], world_at_round sched w n)
       ∧ (∀ k, (k < n)%nat →
               clock (world_at_round sched w k) < timeout_time
               ∧ threshold_reached (world_at_round sched w k) = false)
       ∧ (timeout_time ≤ clock (world_at_round sched w n)
          ∨ (clock (world_at_round sched w n) < timeout_time
             ∧ threshold_reached (world_at_round sched w n) = true)).
Proof.
  induction fuel as [|fuel IH]; intros T sched w Hbound Hpos; [lia|].
  rewrite response_loop_unfold.
  destruct (Z.ltb_spec (clock w) T) as [Hlt|Hge].
  - destruct (threshold_reached w) eqn:Hreached.
    + exists 0%nat. repeat split; [lia|intros; lia|intros; lia|]. right. by split.
    + pose proof (clock_after_sleep 60000000 sched w) as Hclock.
      destruct (IH T sched (asyncio_sleep 60000000 sched w).2) as (n & Hn & Hrun & Hbefore & Hstop).
      { lia. }
      { destruct fuel; [lia|lia]. }
      exists (S n). rewrite world_at_round_S. split; [lia|]. split; [done|].
      split; [|done].
      intros [|k] Hk; [by split|]. rewrite world_at_round_S. apply Hbefore. lia.
  - exists 0%nat. repeat split; [lia|intros; lia|intros; lia|]. by left.
Qed.

Lemma monitor_run fuel emergency_id timeout_minutes timeout_time sched w w' :
  timedelta_minutes timeout_minutes ≫= datetime_add (clock w) = Some timeout_time →
  response_loop fuel timeout_time sched w = (Some tt, [], w') →
  _monitor_guardian_responses fuel emergency_id timeout_minutes sched w
  = (Some tt,
     if timeout_time <=? clock w' then [HandleResponseTimeout emergency_id] else [],
     w').
Proof.
  intros Htime Hloop. unfold _monitor_guardian_responses.
  rewrite bind_run. cbn [datetime_now]. rewrite Htime.
  rewrite bind_run, Hloop. rewrite bind_run. cbn [datetime_now].
  by destruct (timeout_time <=? clock w').
Qed.

Lemma timeout_time_eq timeout_minutes start timeout_time :
  timedelta_minutes timeout_minutes ≫= datetime_add start = Some timeout_time →
  timeout_time = start + timeout_minutes * 60000000.
Proof.
  unfold timedelta_minutes, timedelta, datetime_add, microseconds_per_second.
  destruct (_ && _); [|done]. simpl.
  destruct (_ && _); [|done]. intros [= <-]. lia.
Qed.

(** The monitor on the examples: three answers of four stop it at once;
    one answer of four lets it poll for thirty minutes and escalate once. *)
Example monitor_answered :
  _monitor_guardian_responses 31 "emerg_002" default_timeout_minutes idle demo_world_answered
  = (Some tt, [], demo_world_answered).
Proof. vm_compute. reflexivity. Qed.

Example monitor_silent :
  let run :=
    _monitor_guardian_responses 31 "emerg_002" default_timeout_minutes idle demo_world_silent in
  run.1 = (Some tt, [HandleResponseTimeout "emerg_002"])
  ∧ clock run.2 = 1800000000 ∧ suspensions run.2 = 30%nat.
Proof. vm_compute. done. Qed.

(** C9, as stated, fails: for an assessment of urgency 95 the monitor is
    not started when the notification raises, here on a document whose
    description is not a string. *)
Lemma C9_counterexample :
  (80 <=? EmergencyAnalysis.urgency_score demo_analysis) = true
  ∧ (@_notify_guardians_of_emergency mock_mode demo_emergency_numbered demo_analysis
       idle demo_world).1.2 = [].
Proof. vm_compute. done. Qed.

(** C9, amended: the monitor is started exactly when the urgency score is
    at least 80 and the notification of the guardians has not raised. Once
    started for [timeout_minutes] (30 by default) it polls, every round
    reading the aggregate guardian states, up to the first round [n] that
    finds the deadline passed or the count of acknowledged or responded
    guardians at 0.7 times the roster; there are at most [timeout_minutes]
    rounds before it. It stops in that round: with the escalation handler
    invoked exactly once when the deadline has passed, without it when the
    threshold was reached before the deadline. (A deadline beyond the
    datetime range ends the monitor at once.) *)
Theorem C9_guardian_response_monitor `{Externals} (sched : Scheduler) (w : World)
    (emergency_data : EmergencyData.t) (analysis : EmergencyAnalysis.t)
    (emergency_id : string) (timeout_minutes : Z) :
  (_notify_guardians_of_emergency emergency_data analysis sched w).1.2 =
    (if descriptions_are_strings (EmergencyData.documents emergency_data)
        && bool_decide (is_Some (send_emergency_notification
                                   (EmergencyData.emergency_id emergency_data)
                                   (notification_type_of
                                      (EmergencyData.emergency_type emergency_data))
                                   (severity_level_int_of
                                      (EmergencyAnalysis.severity_level analysis))))
        && (80 <=? EmergencyAnalysis.urgency_score analysis)
     then [CreateTask (MonitorGuardianResponses (EmergencyData.emergency_id emergency_data))]
     else [])
  ∧ match timedelta_minutes timeout_minutes ≫= datetime_add (clock w) with
    | None =>
        _monitor_guardian_responses (S (Z.to_nat timeout_minutes)) emergency_id
          timeout_minutes sched w = (Some tt, [], w)
    | Some timeout_time =>
        ∃ n : nat,
          (n ≤ Z.to_nat timeout_minutes)%nat
          ∧ (∀ k, (k < n)%nat →
                  clock (world_at_round sched w k) < timeout_time
                  ∧ threshold_reached (world_at_round sched w k) = false)
          ∧ (timeout_time ≤ clock (world_at_round sched w n)
             ∨ (clock (world_at_round sched w n) < timeout_time
                ∧ threshold_reached (world_at_round sched w n) = true))
          ∧ _monitor_guardian_responses (S (Z.to_nat timeout_minutes)) emergency_id
              timeout_minutes sched w
            = (Some tt,
               if timeout_time <=? clock (world_at_round sched w n)
               then [HandleResponseTimeout emergency_id] else [],
               world_at_round sched w n)
    end.
Proof.
  split; [apply notify_events|].
  destruct (timedelta_minutes timeout_minutes ≫= datetime_add (clock w))
    as [timeout_time|] eqn:Htime.
  - pose proof (timeout_time_eq _ _ _ Htime) as HT.
    destruct (response_loop_ends (S (Z.to_nat timeout_minutes)) timeout_time sched w)
      as (n & Hn & Hloop & Hbefore & Hstop); [lia|lia|].
    exists n. split; [lia|]. split; [done|]. split; [done|].
    by apply monitor_run.
  - unfold _monitor_guardian_responses. rewrite bind_run. cbn [datetime_now].
    by rewrite Htime.
Qed.

(** *** [execute_plan] returns *)

(** The signature wait ends within its time lock: a turn of fuel for every
    thirty seconds left, and one more, reach a [return]. *)
Lemma wait_for_signatures_ends fuel : ∀ execution_id start_time max_wait_time sched w,
  max_wait_time * microseconds_per_second - (clock w - start_time)
    ≤ (Z.of_nat fuel - 1) * 30000000 →
  (0 < fuel)%nat →
  is_Some (wait_for_signatures fuel execution_id start_time max_wait_time sched w).1.1.
Proof.
  induction fuel as [|fuel IH]; intros id start_time max_wait sched w Hbound Hpos; [lia|].
  cbn [wait_for_signatures]. rewrite bind_run. cbn [gets].
  destruct (signature_collector w) as [sc|].
  - rewrite bind_run. cbn [mret Async_ret].
    case_bool_decide; [by eexists|]. case_bool_decide; [by eexists|].
    rewrite bind_run. cbn [datetime_now].
    destruct (Z.leb_spec (max_wait * microseconds_per_second) (clock w - start_time));
      [by eexists|].
    rewrite bind_run.
    pose proof (clock_after_sleep 30000000 sched w) as Hclock.
    destruct (asyncio_sleep 30000000 sched w) as [[[] ev] w1]. simpl in Hclock.
    specialize (IH id start_time max_wait sched w1).
    destruct (wait_for_signatures fuel id start_time max_wait sched w1) as [[r ev2] w2].
    simpl in *. apply IH; [lia|]. destruct fuel; lia.
  - rewrite !bind_run.
    destruct (asyncio_sleep 2000000 sched w) as [[[] ev] w1].
    cbn [mret Async_ret SignatureStatus.value].
    rewrite bool_decide_eq_true_2 by done. by eexists.
Qed.

(** X12: [execute_plan] returns. Its signature wait polls every thirty
    seconds and gives up when the time lock has elapsed, so a run returns a
    result within [timelock_hours * 120 + 1] turns of the wait, whatever the
    scheduler and the other tasks do. *)
Lemma execute_plan_returns `{Externals} fuel execution_id sched w :
  (∀ plan, executions w !! execution_id = Some plan →
           Z.max 0 (ExecutionPlan.timelock_hours plan * 120) < Z.of_nat fuel) →
  is_Some (execute_plan fuel execution_id sched w).1.1.
Proof.
  intros Hfuel. unfold execute_plan. rewrite bind_run. cbn [gets].
  destruct (executions w !! execution_id) as [plan|] eqn:Hplan; [|by eexists].
  specialize (Hfuel plan eq_refl).
  rewrite bind_run, update_plan_run. rewrite bind_run, update_plan_run. rewrite bind_run.
  destruct (_execute_preparation_phase plan sched _) as [[[|] ev1] w2]; cbn [negb];
    [|by eexists].
  rewrite bind_run, update_plan_run. rewrite bind_run, update_plan_run. rewrite bind_run.
  assert (is_Some (_execute_signature_collection_phase fuel plan sched
                     (set_executions
                        (alter (ExecutionPlan.set_status ExecutionStatus.WAITING_SIGNATURES)
                           execution_id
                           (executions
                              (set_executions
                                 (alter
                                    (ExecutionPlan.set_current_phase
                                       ExecutionPhase.SIGNATURE_COLLECTION)
                                    execution_id (executions w2)) w2)))
                        (set_executions
                           (alter
                              (ExecutionPlan.set_current_phase
                                 ExecutionPhase.SIGNATURE_COLLECTION)
                              execution_id (executions w2)) w2))).1.1) as Hsig.
  { unfold _execute_signature_collection_phase.
    rewrite bind_run. cbn [gets]. rewrite bind_run.
    match goal with
    | |- context [match ?c with Some _ => ?a | None => ?b end ?s ?w0] =>
        destruct ((match c with Some _ => a | None => b end) s w0) as [[[|] ev] w3]
    end; cbn [negb]; [|by eexists].
    rewrite bind_run. cbn [datetime_now].
    pose proof (wait_for_signatures_ends fuel (ExecutionPlan.execution_id plan) (clock w3)
                  (ExecutionPlan.timelock_hours plan * 3600) sched w3) as Hwait.
    destruct (wait_for_signatures fuel (ExecutionPlan.execution_id plan) (clock w3)
                (ExecutionPlan.timelock_hours plan * 3600) sched w3) as [[r ev2] w4].
    simpl in *. apply Hwait; unfold microseconds_per_second; lia. }
  destruct (_execute_signature_collection_phase fuel plan sched _) as [[[[|]|] ev3] w4];
    [|by eexists|by destruct Hsig].
  rewrite bind_run, update_plan_run. rewrite bind_run, update_plan_run. rewrite bind_run.
  destruct (_execute_contract_phase plan sched _) as [[contract ev5] w6].
  destruct (ContractResult.success contract); [|by eexists].
  destruct (ContractResult.tx_hash contract) as [tx|]; [|by eexists].
  rewrite bind_run, update_plan_run. rewrite bind_run.
  destruct (_execute_verification_phase plan tx sched _) as [[[|] ev7] w8]; cbn [negb];
    [|by eexists].
  rewrite bind_run, update_plan_run. rewrite bind_run, update_plan_run. rewrite bind_run.
  destruct (_execute_completion_phase plan sched _) as [[? ?] ?]. by eexists.
Qed.

(** *** The statements on the examples *)

Lemma C1_payment_requires_quorum_witness :
  len (retrieved_signatures demo_plan demo_world_completed)
  = SignatureCollection.collected_count demo_completed_collection.
Proof.
  apply (proj2 (C1_payment_requires_quorum demo_plan idle demo_world_completed)
           demo_completed).
  - reflexivity.
  - exact demo_completed_lookup.
Defined.

Lemma C4_add_signature_witness :
  ∃ collection,
    collections demo_pending !! "exec_1" = Some collection
    ∧ mock_guardians demo_completed = mock_guardians demo_pending
    ∧ collections demo_completed =
        <["exec_1" :=
            with_signature
              (GuardianSignature.mk "0xA1" "0x01" SignatureType.ETHEREUM 10
                 (SignatureCollection.message_hash collection) true)
              collection]> (collections demo_pending).
Proof.
  apply (proj2 (proj2 (@C4_add_signature mock_mode 10 "exec_1" "0xA1" "0x01"
                         SignatureType.ETHEREUM demo_pending))).
  vm_compute. reflexivity.
Defined.

Lemma C8_timelock_hours_witness :
  _calculate_timelock_hours 85 = 3
  ∧ _calculate_required_signatures (OfSeverityLevel SeverityLevel.HIGH) 85
    = _calculate_required_signatures (OfSeverityLevel SeverityLevel.HIGH) 85.
Proof.
  split.
  - destruct (proj1 (C8_timelock_hours 85)) as [[? _]|[[_ ?]|[[? _]|[? _]]]];
      [lia|done|lia|lia].
  - apply (proj2 (proj2 (proj2 (C8_timelock_hours 85)))); reflexivity.
Defined.

(** ** Further properties of the signature collector *)

Lemma expiry_in_range_spec now h :
  expiry_in_range now h ↔
  timedelta_hours h ≫= datetime_add now = Some (now + h * 3600000000).
Proof.
  unfold expiry_in_range, timedelta_hours, timedelta, datetime_add, microseconds_per_second.
  replace (h * 3600 * 1000000) with (h * 3600000000) by lia.
  destruct (Z.leb_spec timedelta_min (h * 3600000000)),
           (Z.leb_spec (h * 3600000000) timedelta_max); simpl;
    try (split; [lia|done]).
  destruct (Z.leb_spec datetime_min (now + h * 3600000000)),
           (Z.leb_spec (now + h * 3600000000) datetime_max); simpl;
    try (split; [lia|done]).
  split; [done|lia].
Qed.

Lemma expiry_out_of_range now h :
  ¬ expiry_in_range now h → timedelta_hours h ≫= datetime_add now = None.
Proof.
  intros Hout.
  destruct (timedelta_hours h ≫= datetime_add now) as [e|] eqn:He; [|done].
  exfalso. apply Hout, expiry_in_range_spec. rewrite He. f_equal.
  unfold timedelta_hours, timedelta, datetime_add, microseconds_per_second in He.
  destruct (_ && _); [|done]. simpl in He. destruct (_ && _); [|done].
  injection He as <-. lia.
Qed.

(** X1: [initialize_collection] succeeds exactly when the expiry time
    [now + timelock_hours] hours is a datetime; a failing call changes
    nothing. A successful call registers, under the execution id, a Pending
    collection with the required count, created now, expiring
    [timelock_hours] hours later and holding no signature, whatever a
    collection of that id held before; the collections of other ids are
    untouched. *)
Theorem initialize_collection_fresh `{Externals} (now : Z) (execution_id : string)
    (required_signatures timelock_hours : Z) (self : SignatureCollector) :
  let result :=
    initialize_collection now execution_id required_signatures timelock_hours self in
  (result.1 = true ↔ expiry_in_range now timelock_hours)
  ∧ (result.1 = false → result.2 = self)
  ∧ (result.1 = true →
     (∃ collection,
        get_collection_status execution_id result.2 = Some collection
        ∧ SignatureCollection.status collection = SignatureStatus.PENDING
        ∧ SignatureCollection.collected_signatures collection = []
        ∧ SignatureCollection.required_signatures collection = required_signatures
        ∧ SignatureCollection.created_at collection = now
        ∧ SignatureCollection.expires_at collection = now + timelock_hours * 3600000000
        ∧ SignatureCollection.message_hash collection
          = _hash_message (_create_signature_message execution_id))
     ∧ get_collected_signatures execution_id result.2 = []
     ∧ ∀ other, other ≠ execution_id →
         get_collection_status other result.2 = get_collection_status other self).
Proof.
  cbn zeta. unfold initialize_collection.
  destruct (decide (expiry_in_range now timelock_hours)) as [Hin|Hout].
  - pose proof (proj1 (expiry_in_range_spec _ _) Hin) as ->. cbn [fst snd].
    split; [done|]. split; [done|]. intros _. split; [|split].
    + eexists. unfold get_collection_status; simpl. rewrite lookup_insert_eq.
      by repeat split.
    + unfold get_collected_signatures; simpl. by rewrite lookup_insert_eq.
    + intros other Hother. unfold get_collection_status; simpl.
      by rewrite lookup_insert_ne.
  - rewrite (expiry_out_of_range _ _ Hout). cbn [fst snd].
    split; [split; [done|by intros ?]|]. by split.
Qed.

Lemma initialize_collection_fresh_witness :
  get_collected_signatures "exec_1"
    (@initialize_collection mock_mode 30 "exec_1" 2 3 demo_completed).2 = [].
Proof.
  apply (proj2 (proj2 (@initialize_collection_fresh mock_mode 30 "exec_1" 2 3
                         demo_completed))).
  vm_compute. reflexivity.
Defined.



(** X3: [add_signature] keeps the guardian addresses of every collection
    pairwise distinct: when no collection stores two signatures under one
    address before the call, none does after it. *)
Theorem add_signature_keeps_distinct `{Externals} (now : Z)
    (execution_id guardian_address signature : string)
    (signature_type : SignatureType.t) (self : SignatureCollector) :
  (∀ id collection, collections self !! id = Some collection →
                    NoDup (guardians_of collection)) →
  ∀ id collection,
    collections
      (add_signature now execution_id guardian_address signature signature_type self).2
      !! id = Some collection →
    NoDup (guardians_of collection).
Proof.
  intros Hdistinct id c'.
  destruct (add_signature now execution_id guardian_address signature signature_type self).1
    eqn:Hadd.
  - apply add_signature_accepted in Hadd as (c & Hc & _ & Hdup & _ & _ & Hmap).
    rewrite Hmap, lookup_insert. case_decide; [|by apply Hdistinct].
    intros [= <-]. unfold guardians_of. simpl. rewrite fmap_app. simpl.
    apply NoDup_app. split; [by apply (Hdistinct execution_id)|]. split.
    + intros g Hg Hg'. apply list_elem_of_singleton in Hg' as ->.
      apply list_elem_of_fmap in Hg as (sig & Heq & Hin).
      assert (already_signed guardian_address c = true) as Htrue
        by (apply already_signed_spec; eauto).
      congruence.
    + apply NoDup_singleton.
  - apply add_signature_rejected in Hadd. rewrite Hadd. apply Hdistinct.
Qed.

Lemma add_signature_keeps_distinct_witness :
  NoDup (guardians_of demo_completed_collection).
Proof.
  apply (@add_signature_keeps_distinct mock_mode 10 "exec_1" "0xA1" "0x01"
           SignatureType.ETHEREUM demo_pending) with (id := "exec_1").
  - intros id c.
    assert (collections demo_pending
            = <["exec_1" :=
                  SignatureCollection.mk "sig_exec_1_0" "exec_1" 1 []
                    SignatureStatus.PENDING 0 3600000000
                    (_create_signature_message "exec_1")
                    (mock_hex (_create_signature_message "exec_1"))]> ∅) as ->
      by (vm_compute; reflexivity).
    rewrite lookup_insert. case_decide; [|by rewrite lookup_empty].
    intros [= <-]. apply NoDup_nil_2.
  - exact demo_completed_lookup.
Defined.

Lemma with_signature_keeps sig (c : SignatureCollection.t) :
  SignatureCollection.collected_signatures c
    `prefix_of` SignatureCollection.collected_signatures (with_signature sig c)
  ∧ SignatureCollection.required_signatures (with_signature sig c)
    = SignatureCollection.required_signatures c
  ∧ SignatureCollection.expires_at (with_signature sig c) = SignatureCollection.expires_at c
  ∧ SignatureCollection.message_hash (with_signature sig c)
    = SignatureCollection.message_hash c.
Proof. split; [by apply prefix_app_r|done]. Qed.

(** X4: the signatures of a collection are append-only. One step of the
    collector either deletes the collection (cleanup), or replaces it by a
    fresh Pending one without signatures (initialisation), or leaves it with
    the same required count, expiry time and digest and with its stored
    signatures as a prefix of the new ones: no step removes, reorders or
    rewrites a stored signature. *)
Theorem collector_step_append_only `{Externals} (now : Z) (sc sc' : SignatureCollector)
    (execution_id : string) (collection : SignatureCollection.t) :
  collector_step now sc sc' →
  collections sc !! execution_id = Some collection →
  collections sc' !! execution_id = None
  ∨ (∃ collection',
       collections sc' !! execution_id = Some collection'
       ∧ SignatureCollection.status collection' = SignatureStatus.PENDING
       ∧ SignatureCollection.collected_signatures collection' = []
       ∧ SignatureCollection.created_at collection' = now)
  ∨ (∃ collection',
       collections sc' !! execution_id = Some collection'
       ∧ SignatureCollection.collected_signatures collection
           `prefix_of` SignatureCollection.collected_signatures collection'
       ∧ SignatureCollection.required_signatures collection'
         = SignatureCollection.required_signatures collection
       ∧ SignatureCollection.expires_at collection'
         = SignatureCollection.expires_at collection
       ∧ SignatureCollection.message_hash collection'
         = SignatureCollection.message_hash collection).
Proof.
  intros Hstep Hc.
  assert (∀ f id,
            (∀ c, SignatureCollection.collected_signatures c
                    `prefix_of` SignatureCollection.collected_signatures (f c)
                  ∧ SignatureCollection.required_signatures (f c)
                    = SignatureCollection.required_signatures c
                  ∧ SignatureCollection.expires_at (f c) = SignatureCollection.expires_at c
                  ∧ SignatureCollection.message_hash (f c)
                    = SignatureCollection.message_hash c) →
            ∃ collection',
              collections (update_collection id f sc) !! execution_id = Some collection'
              ∧ SignatureCollection.collected_signatures collection
                  `prefix_of` SignatureCollection.collected_signatures collection'
              ∧ SignatureCollection.required_signatures collection'
                = SignatureCollection.required_signatures collection
              ∧ SignatureCollection.expires_at collection'
                = SignatureCollection.expires_at collection
              ∧ SignatureCollection.message_hash collection'
                = SignatureCollection.message_hash collection) as Hupdate.
  { intros f id Hf. rewrite lookup_update_collection.
    case_decide as Hid; [subst id; rewrite Hc; simpl; eauto|].
    exists collection. by repeat split. }
  assert (∃ collection',
            collections sc !! execution_id = Some collection'
            ∧ SignatureCollection.collected_signatures collection
                `prefix_of` SignatureCollection.collected_signatures collection'
            ∧ SignatureCollection.required_signatures collection'
              = SignatureCollection.required_signatures collection
            ∧ SignatureCollection.expires_at collection'
              = SignatureCollection.expires_at collection
            ∧ SignatureCollection.message_hash collection'
              = SignatureCollection.message_hash collection) as Hsame
    by (exists collection; by repeat split).
  destruct Hstep as [id required hours sc|id sc|guardian id sc|id sc
                    |id guardian signature signature_type sc|id reason sc|id sc].
  - unfold initialize_collection.
    destruct (timedelta_hours hours ≫= datetime_add now); [|by right; right].
    simpl. rewrite lookup_insert. case_decide; [|by right; right].
    right; left. eexists. by repeat split.
  - right; right. unfold mark_in_progress.
    destruct (collections sc !! id); [|done]. by apply Hupdate.
  - right; right. apply Hupdate. intros c. rewrite append_mock_signature_eq.
    apply with_signature_keeps.
  - right; right. apply Hupdate. intros c. unfold monitor_turn.
    case_bool_decide; [|done].
    destruct (SignatureCollection.is_expired now c); [done|].
    by destruct (SignatureCollection.is_complete c).
  - right; right.
    destruct (add_signature now id guardian signature signature_type sc).1 eqn:Hadd.
    + apply add_signature_accepted in Hadd as (c & Hc' & _ & _ & _ & _ & Hmap).
      rewrite Hmap, lookup_insert. case_decide as Hid; [subst id|done].
      assert (c = collection) as -> by congruence.
      eexists. split; [done|]. apply with_signature_keeps.
    + apply add_signature_rejected in Hadd. by rewrite Hadd.
  - right; right. unfold cancel_collection.
    destruct (collections sc !! id); [|done]. by apply Hupdate.
  - unfold cleanup_collection; simpl. rewrite lookup_delete.
    case_decide; [by left|by right; right].
Qed.

Lemma collector_step_append_only_witness :
  collections demo_completed !! "exec_1" = None
  ∨ (∃ collection',
       collections demo_completed !! "exec_1" = Some collection'
       ∧ SignatureCollection.status collection' = SignatureStatus.PENDING
       ∧ SignatureCollection.collected_signatures collection' = []
       ∧ SignatureCollection.created_at collection' = 10)
  ∨ (∃ collection',
       collections demo_completed !! "exec_1" = Some collection'
       ∧ [] `prefix_of` SignatureCollection.collected_signatures collection'
       ∧ SignatureCollection.required_signatures collection' = 1
       ∧ SignatureCollection.expires_at collection' = 3600000000
       ∧ SignatureCollection.message_hash collection'
         = mock_hex (_create_signature_message "exec_1")).
Proof.
  apply (@collector_step_append_only mock_mode 10 demo_pending demo_completed "exec_1"
           (SignatureCollection.mk "sig_exec_1_0" "exec_1" 1 []
              SignatureStatus.PENDING 0 3600000000
              (_create_signature_message "exec_1")
              (mock_hex (_create_signature_message "exec_1")))).
  - apply (@step_add_signature mock_mode 10 "exec_1" "0xA1" "0x01" SignatureType.ETHEREUM).
  - vm_compute. reflexivity.
Defined.

(** X5: no collection is ever Failed: in every collector a run can reach,
    the status of a collection is not [SignatureStatus.FAILED] (which the
    signature wait of [execute_plan] tests for). *)
Theorem collection_never_failed `{Externals} (now : Z) (sc : SignatureCollector)
    (execution_id : string) (collection : SignatureCollection.t) :
  reachable_at now sc →
  collections sc !! execution_id = Some collection →
  SignatureCollection.status collection ≠ SignatureStatus.FAILED.
Proof.
  intros Hreach Hlookup.
  refine (reachable_at_holds
            (λ _ c, SignatureCollection.status c ≠ SignatureStatus.FAILED)
            _ _ _ _ _ _ _ now sc Hreach execution_id collection Hlookup); try done.
  - intros t g c IH. rewrite append_mock_signature_eq. simpl. by destruct (_ <=? _).
  - intros t c IH. unfold monitor_turn. case_bool_decide; [|done].
    destruct (SignatureCollection.is_expired t c); [done|].
    by destruct (SignatureCollection.is_complete c).
  - intros t g sg ty c _ IH. simpl. by destruct (_ <=? _).
Qed.

Lemma collection_never_failed_witness :
  SignatureCollection.status demo_expired_collection ≠ SignatureStatus.FAILED.
Proof.
  apply (@collection_never_failed mock_mode 3600000001 demo_expired "exec_1").
  - exact demo_expired_reachable.
  - exact demo_expired_lookup.
Defined.

(** *** The mock digest and the verifier *)

(** X6: without [web3] the digest does not depend on the execution: the
    mock hash reads the first 32 characters of the message, all of which
    lie in the fixed heading of the message to sign, so every collection
    gets the digest of ["Emergency Guardian Execution Aut"]. *)
Theorem mock_digest_ignores_execution `{Externals} (execution_id : string) :
  WEB3_AVAILABLE = false →
  _hash_message (_create_signature_message execution_id)
  = mock_hex "Emergency Guardian Execution Aut"
  ∧ ∀ execution_id',
      _hash_message (_create_signature_message execution_id')
      = _hash_message (_create_signature_message execution_id).
Proof.
  intros Hmock. unfold _hash_message. rewrite Hmock. split; [reflexivity|].
  intros execution_id'. reflexivity.
Qed.

Lemma mock_digest_ignores_execution_witness :
  @_hash_message mock_mode (_create_signature_message "exec_1")
  = mock_hex "Emergency Guardian Execution Aut"
  ∧ ∀ execution_id',
      @_hash_message mock_mode (_create_signature_message execution_id')
      = @_hash_message mock_mode (_create_signature_message "exec_1").
Proof. apply (@mock_digest_ignores_execution mock_mode "exec_1"). reflexivity. Defined.

Lemma length_zero_pad_byte (c : ascii) :
  String.length (zero_pad 2 (format_x (N_of_ascii c))) = 2%nat.
Proof. destruct c as [[] [] [] [] [] [] [] []]; reflexivity. Qed.

Lemma string_length_app (s t : string) :
  String.length (s +:+ t) = (String.length s + String.length t)%nat.
Proof. induction s as [|c s IH]; simpl; [done|by rewrite IH]. Qed.

Lemma length_hex_of_chars (s : string) :
  String.length (hex_of_chars s) = (2 * String.length s)%nat.
Proof.
  induction s as [|c s IH]; [done|].
  cbn [hex_of_chars]. rewrite string_length_app, length_zero_pad_byte, IH. simpl. lia.
Qed.

Lemma length_str_prefix (n : nat) (s : string) :
  String.length (str_prefix n s) = (n `min` String.length s)%nat.
Proof.
  unfold str_prefix. revert s. induction n as [|n IH]; intros [|c s]; simpl; try done.
  by rewrite IH.
Qed.

(** X7: the stand-in hash of the mock mode (message digest, guardian
    signature, transaction hash) is ["0x"] followed by two hexadecimal
    digits for each of the first 32 characters of its argument: its length
    is [2 + 2 * min(32, len(s))], at most 66, and it reads nothing beyond
    the 32nd character. *)
Theorem mock_hex_format (s t : string) :
  String.length (mock_hex s) = (2 + 2 * (32 `min` String.length s))%nat
  ∧ str_prefix 2 (mock_hex s) = "0x"
  ∧ (str_prefix 32 s = str_prefix 32 t → mock_hex s = mock_hex t).
Proof.
  split; [|split].
  - unfold mock_hex. rewrite string_length_app, length_hex_of_chars, length_str_prefix.
    simpl. lia.
  - unfold mock_hex, str_prefix. simpl. by destruct (hex_of_chars _).
  - unfold mock_hex. by intros ->.
Qed.

Lemma mock_hex_format_witness :
  mock_hex "0x742d35Cc6634C0532925a3b8D4C9db96590c6C87"
  = mock_hex "0x742d35Cc6634C0532925a3b8D4C9db00000000".
Proof.
  apply (proj2 (proj2 (mock_hex_format "0x742d35Cc6634C0532925a3b8D4C9db96590c6C87"
                         "0x742d35Cc6634C0532925a3b8D4C9db00000000"))).
  reflexivity.
Defined.

(** X8: where the verifier does not look at the signature. Without [web3],
    or for a signature of type EIP712, [add_signature] accepts any string
    as the signature: it succeeds exactly when the collection exists, is not
    past its expiry time and stores no signature of the guardian yet. With
    [web3], a signature of type MULTISIG or THRESHOLD is always refused. *)
Theorem add_signature_unverified `{Externals} (now : Z)
    (execution_id guardian_address signature : string)
    (signature_type : SignatureType.t) (self : SignatureCollector) :
  (WEB3_AVAILABLE = false ∨ signature_type = SignatureType.EIP712 →
   ((add_signature now execution_id guardian_address signature signature_type self).1 = true
    ↔ ∃ collection,
        collections self !! execution_id = Some collection
        ∧ now ≤ SignatureCollection.expires_at collection
        ∧ guardian_address ∉ guardians_of collection))
  ∧ (WEB3_AVAILABLE = true →
     signature_type = SignatureType.MULTISIG ∨ signature_type = SignatureType.THRESHOLD →
     add_signature now execution_id guardian_address signature signature_type self
     = (false, self)).
Proof.
  assert (∀ c, already_signed guardian_address c = false ↔ guardian_address ∉ guardians_of c)
    as Hdup.
  { intros c. rewrite <- not_true_iff_false, already_signed_spec. unfold guardians_of.
    rewrite list_elem_of_fmap. split; intros Hn (sig & ? & ?); apply Hn; eauto. }
  split.
  - intros Hcase.
    assert (∀ h, _verify_signature guardian_address signature h signature_type = true)
      as Hverify.
    { intros h. unfold _verify_signature.
      destruct Hcase as [->| ->]; [done|]. by destruct WEB3_AVAILABLE. }
    unfold add_signature.
    destruct (collections self !! execution_id) as [c|];
      [|split; [done|by intros (? & ? & _)]].
    unfold SignatureCollection.is_expired.
    destruct (Z.ltb_spec (SignatureCollection.expires_at c) now).
    { split; [done|]. intros (c' & [= <-] & ? & _). lia. }
    destruct (already_signed guardian_address c) eqn:Hsigned.
    { split; [done|]. intros (c' & [= <-] & _ & Hnot). apply Hdup in Hnot. congruence. }
    rewrite Hverify. cbn [negb fst]. split; [|done].
    intros _. exists c. split; [done|]. split; [lia|]. by apply Hdup.
  - intros Hweb3 Htype. unfold add_signature.
    destruct (collections self !! execution_id) as [c|]; [|done].
    destruct (SignatureCollection.is_expired now c); [done|].
    destruct (already_signed guardian_address c); [done|].
    unfold _verify_signature. rewrite Hweb3. by destruct Htype as [-> | ->].
Qed.

Lemma add_signature_unverified_witness :
  (@add_signature mock_mode 10 "exec_1" "0xA1" "not a signature" SignatureType.THRESHOLD
     demo_pending).1 = true.
Proof.
  apply (proj1 (@add_signature_unverified mock_mode 10 "exec_1" "0xA1" "not a signature"
                  SignatureType.THRESHOLD demo_pending)).
  - left. reflexivity.
  - exists (SignatureCollection.mk "sig_exec_1_0" "exec_1" 1 []
              SignatureStatus.PENDING 0 3600000000
              (_create_signature_message "exec_1")
              (mock_hex (_create_signature_message "exec_1"))).
    split; [vm_compute; reflexivity|]. split; [vm_compute; discriminate|].
    unfold guardians_of. simpl. apply not_elem_of_nil.
Defined.

Lemma add_signature_accepts `{Externals} now execution_id guardian_address signature
    signature_type (self : SignatureCollector) collection :
  collections self !! execution_id = Some collection →
  now ≤ SignatureCollection.expires_at collection →
  guardian_address ∉ guardians_of collection →
  _verify_signature guardian_address signature
    (SignatureCollection.message_hash collection) signature_type = true →
  (add_signature now execution_id guardian_address signature signature_type self).1 = true
  ∧ collections
      (add_signature now execution_id guardian_address signature signature_type self).2
    = <[execution_id :=
          with_signature
            (GuardianSignature.mk guardian_address signature signature_type now
               (SignatureCollection.message_hash collection) true)
            collection]> (collections self).
Proof.
  intros Hc Hnow Hnew Hverify.
  assert ((add_signature now execution_id guardian_address signature signature_type
             self).1 = true) as Hok.
  { unfold add_signature, SignatureCollection.is_expired. rewrite Hc.
    destruct (Z.ltb_spec (SignatureCollection.expires_at collection) now); [lia|].
    destruct (already_signed guardian_address collection) eqn:Hsigned.
    - apply already_signed_spec in Hsigned as (sig & Hin & Heq).
      exfalso. apply Hnew. unfold guardians_of. apply list_elem_of_fmap. eauto.
    - by rewrite Hverify. }
  split; [done|].
  apply add_signature_accepted in Hok as (c & Hc' & _ & _ & _ & _ & Hmap).
  by assert (c = collection) as -> by congruence.
Qed.



(** X9: one key can fill two places of a quorum. The Ethereum verifier
    compares the recovered address with the guardian address in lower case,
    while the duplicate check compares guardian addresses as they are
    written. So when a signature verifies for a guardian address, it also
    verifies for any other spelling of that address in upper and lower case
    letters, and both submissions are stored and counted. *)
Theorem add_signature_case_variants `{Externals} (now now' : Z)
    (execution_id guardian_address guardian_address' signature recovered : string)
    (self : SignatureCollector) (collection : SignatureCollection.t) :
  WEB3_AVAILABLE = true →
  collections self !! execution_id = Some collection →
  recover_message (SignatureCollection.message_hash collection) signature = Some recovered →
  lower recovered = lower guardian_address →
  lower guardian_address' = lower guardian_address →
  guardian_address' ≠ guardian_address →
  guardian_address ∉ guardians_of collection →
  guardian_address' ∉ guardians_of collection →
  now ≤ SignatureCollection.expires_at collection →
  now' ≤ SignatureCollection.expires_at collection →
  let first :=
    add_signature now execution_id guardian_address signature SignatureType.ETHEREUM self in
  let second :=
    add_signature now' execution_id guardian_address' signature SignatureType.ETHEREUM
      first.2 in
  first.1 = true ∧ second.1 = true
  ∧ ∃ collection'',
      collections second.2 !! execution_id = Some collection''
      ∧ SignatureCollection.collected_count collection''
        = SignatureCollection.collected_count collection + 2.
Proof.
  intros Hweb3 Hc Hrec Hlow Hlow' Hne Hnew Hnew' Hnow Hnow'. cbn zeta.
  assert (∀ g, lower g = lower guardian_address →
               _verify_signature g signature (SignatureCollection.message_hash collection)
                 SignatureType.ETHEREUM = true) as Hverify.
  { intros g Hg. unfold _verify_signature. rewrite Hweb3, Hrec. cbn [negb].
    apply bool_decide_eq_true. congruence. }
  destruct (add_signature_accepts now execution_id guardian_address signature
              SignatureType.ETHEREUM self collection) as [Hfirst Hmap]; try done.
  { by apply Hverify. }
  split; [done|].
  set (c1 := with_signature
               (GuardianSignature.mk guardian_address signature SignatureType.ETHEREUM now
                  (SignatureCollection.message_hash collection) true) collection) in *.
  destruct (add_signature_accepts now' execution_id guardian_address' signature
              SignatureType.ETHEREUM
              (add_signature now execution_id guardian_address signature
                 SignatureType.ETHEREUM self).2 c1) as [Hsecond Hmap'].
  { by rewrite Hmap, lookup_insert_eq. }
  { done. }
  { unfold guardians_of, c1. simpl. rewrite fmap_app. simpl.
    intros [Hin|Hin%list_elem_of_singleton]%elem_of_app; [by apply Hnew'|done]. }
  { by apply Hverify. }
  split; [done|]. eexists. split; [by rewrite Hmap', lookup_insert_eq|].
  subst c1. rewrite !collected_count_with_signature.
  cbn [GuardianSignature.verified]. lia.
Qed.

Lemma add_signature_case_variants_witness :
  (@add_signature one_key_mode 10 "exec_1" "0xabcdef" "0x01" SignatureType.ETHEREUM
     demo_pending).1 = true
  ∧ (@add_signature one_key_mode 11 "exec_1" "0xABCDEF" "0x01" SignatureType.ETHEREUM
       (@add_signature one_key_mode 10 "exec_1" "0xabcdef" "0x01" SignatureType.ETHEREUM
          demo_pending).2).1 = true
  ∧ ∃ collection'',
      collections
        (@add_signature one_key_mode 11 "exec_1" "0xABCDEF" "0x01" SignatureType.ETHEREUM
           (@add_signature one_key_mode 10 "exec_1" "0xabcdef" "0x01"
              SignatureType.ETHEREUM demo_pending).2).2 !! "exec_1" = Some collection''
      ∧ SignatureCollection.collected_count collection'' = 0 + 2.
Proof.
  apply (@add_signature_case_variants one_key_mode 10 11 "exec_1" "0xabcdef" "0xABCDEF"
           "0x01" "0xAbCdEf" demo_pending
           (SignatureCollection.mk "sig_exec_1_0" "exec_1" 1 []
              SignatureStatus.PENDING 0 3600000000
              (_create_signature_message "exec_1")
              (mock_hex (_create_signature_message "exec_1")))).
  - reflexivity.
  - vm_compute. reflexivity.
  - reflexivity.
  - reflexivity.
  - reflexivity.
  - discriminate.
  - apply not_elem_of_nil.
  - apply not_elem_of_nil.
  - vm_compute. discriminate.
  - vm_compute. discriminate.
Defined.

(** X10: after [cleanup_collection] the execution has no collection: its
    status is [None], no signature is returned for it, and submissions and
    cancellations for it fail without effect. Cleaning up again, or
    cleaning up an unknown execution, changes nothing, and the collections
    of other executions are untouched. *)
Theorem cleanup_collection_forgets `{Externals} (now : Z)
    (execution_id guardian_address signature reason : string)
    (signature_type : SignatureType.t) (self : SignatureCollector) :
  let cleaned := cleanup_collection execution_id self in
  get_collection_status execution_id cleaned = None
  ∧ get_collected_signatures execution_id cleaned = []
  ∧ add_signature now execution_id guardian_address signature signature_type cleaned
    = (false, cleaned)
  ∧ cancel_collection execution_id reason cleaned = (false, cleaned)
  ∧ cleanup_collection execution_id cleaned = cleaned
  ∧ (collections self !! execution_id = None → cleaned = self)
  ∧ ∀ other, other ≠ execution_id →
      get_collection_status other cleaned = get_collection_status other self.
Proof.
  cbn zeta.
  assert (collections (cleanup_collection execution_id self) !! execution_id = None) as Hnone
    by apply lookup_delete_eq.
  unfold get_collection_status, get_collected_signatures, add_signature, cancel_collection.
  rewrite Hnone. repeat split.
  - unfold cleanup_collection, set_collections; simpl. by rewrite delete_delete_eq.
  - intros Hself. destruct self as [m g]. unfold cleanup_collection, set_collections.
    simpl in *. by rewrite delete_id.
  - intros other Hother. simpl. by rewrite lookup_delete_ne.
Qed.

Lemma cleanup_collection_forgets_witness :
  cleanup_collection "exec_9" demo_completed = demo_completed.
Proof.
  apply (proj1 (proj2 (proj2 (proj2 (proj2 (proj2
           (@cleanup_collection_forgets mock_mode 0 "exec_9" "0xA1" "0x01" "none"
              SignatureType.ETHEREUM demo_completed))))))).
  vm_compute. reflexivity.
Defined.

(** ** Further properties of the execution coordinator *)

Lemma payments_app (ev1 ev2 : list Event) :
  payments (ev1 ++ ev2) = payments ev1 ++ payments ev2.
Proof. apply filter_app. Qed.

Lemma pays_nothing_ret {A} (a : A) : pays_nothing (mret a).
Proof. by intros sched w. Qed.

Lemma pays_nothing_bind {A B} (m : Async A) (f : A → Async B) :
  pays_nothing m → (∀ a, pays_nothing (f a)) → pays_nothing (m ≫= f).
Proof.
  intros Hm Hf sched w. rewrite bind_run.
  specialize (Hm sched w). destruct (m sched w) as [[a ev1] w1]. simpl in Hm.
  specialize (Hf a sched w1). destruct (f a sched w1) as [[b ev2] w2]. simpl in *.
  by rewrite payments_app, Hm, Hf.
Qed.

Lemma pays_nothing_sleep us : pays_nothing (asyncio_sleep us).
Proof. by intros sched w. Qed.

Lemma pays_nothing_gets {A} (f : World → A) : pays_nothing (gets f).
Proof. by intros sched w. Qed.

Lemma pays_nothing_now : pays_nothing datetime_now.
Proof. by intros sched w. Qed.

Lemma pays_nothing_update_plan execution_id f : pays_nothing (update_plan execution_id f).
Proof. by intros sched w. Qed.

Lemma pays_nothing_collector_call {A} (default : A) f :
  pays_nothing (collector_call default f).
Proof.
  intros sched w. unfold collector_call.
  destruct (signature_collector w) as [sc|]; [|done]. by destruct (f sc).
Qed.

Lemma pays_nothing_start_collection execution_id emergency_data analysis :
  pays_nothing (start_collection execution_id emergency_data analysis).
Proof.
  unfold start_collection.
  apply pays_nothing_bind; [apply pays_nothing_collector_call|intros [|]];
    [|apply pays_nothing_ret].
  apply pays_nothing_bind.
  - unfold _send_signature_requests.
    apply pays_nothing_bind; [apply pays_nothing_gets|intros guardians].
    induction guardians as [|g guardians IH]; [apply pays_nothing_ret|].
    simpl. apply pays_nothing_bind; [|by intros _].
    unfold _send_signature_request_to_guardian, _simulate_guardian_signature.
    apply pays_nothing_bind; [apply pays_nothing_sleep|intros _].
    apply pays_nothing_bind; [apply pays_nothing_gets|intros collected].
    apply pays_nothing_bind; [apply pays_nothing_sleep|intros _].
    apply pays_nothing_bind; [apply pays_nothing_now|intros now].
    apply pays_nothing_collector_call.
  - intros _. apply pays_nothing_bind; [by intros sched w|intros _].
    apply pays_nothing_ret.
Qed.

Lemma pays_nothing_preparation `{Externals} execution_plan :
  pays_nothing (_execute_preparation_phase execution_plan).
Proof.
  unfold _execute_preparation_phase.
  case_bool_decide; [apply pays_nothing_ret|].
  case_bool_decide; [apply pays_nothing_ret|].
  destruct (PrimFloat.leb _ _); [apply pays_nothing_ret|].
  apply pays_nothing_bind; [apply pays_nothing_now|intros now].
  apply pays_nothing_bind; [apply pays_nothing_collector_call|intros _].
  apply pays_nothing_ret.
Qed.

Lemma pays_nothing_wait fuel : ∀ execution_id start_time max_wait_time,
  pays_nothing (wait_for_signatures fuel execution_id start_time max_wait_time).
Proof.
  induction fuel as [|fuel IH]; intros id start_time max_wait; [apply pays_nothing_ret|].
  cbn [wait_for_signatures].
  apply pays_nothing_bind; [apply pays_nothing_gets|intros collector].
  apply pays_nothing_bind.
  - destruct collector; [apply pays_nothing_ret|].
    apply pays_nothing_bind; [apply pays_nothing_sleep|intros _]. apply pays_nothing_ret.
  - intros status_value. case_bool_decide.
    { apply pays_nothing_bind; [apply pays_nothing_update_plan|intros _].
      apply pays_nothing_ret. }
    case_bool_decide; [apply pays_nothing_ret|].
    apply pays_nothing_bind; [apply pays_nothing_now|intros now].
    destruct (_ <=? _); [apply pays_nothing_ret|].
    apply pays_nothing_bind; [apply pays_nothing_sleep|intros _]. apply IH.
Qed.

Lemma pays_nothing_signature_phase fuel execution_plan :
  pays_nothing (_execute_signature_collection_phase fuel execution_plan).
Proof.
  unfold _execute_signature_collection_phase.
  apply pays_nothing_bind; [apply pays_nothing_gets|intros collector].
  apply pays_nothing_bind.
  - destruct collector; [apply pays_nothing_start_collection|apply pays_nothing_ret].
  - intros [|]; cbn [negb]; [|apply pays_nothing_ret].
    apply pays_nothing_bind; [apply pays_nothing_now|intros now]. apply pays_nothing_wait.
Qed.

Lemma pays_nothing_verification execution_plan tx_hash :
  pays_nothing (_execute_verification_phase execution_plan tx_hash).
Proof.
  unfold _execute_verification_phase, _verify_transaction_status, _verify_funds_received.
  apply pays_nothing_bind.
  { apply pays_nothing_bind; [apply pays_nothing_sleep|intros _]. apply pays_nothing_ret. }
  intros [|]; cbn [negb]; [|apply pays_nothing_ret].
  apply pays_nothing_bind.
  { apply pays_nothing_bind; [apply pays_nothing_sleep|intros _]. apply pays_nothing_ret. }
  intros [|]; apply pays_nothing_ret.
Qed.

(** The payment calls of the contract phase: one, with a quorum of
    signatures, when it succeeds; none when it fails. *)
Lemma contract_phase_payments execution_plan sched w :
  let run := _execute_contract_phase execution_plan sched w in
  (ContractResult.success run.1.1 = false ∧ ContractResult.tx_hash run.1.1 = None
   ∧ payments run.1.2 = [])
  ∨ (ContractResult.success run.1.1 = true
     ∧ (∃ tx, ContractResult.tx_hash run.1.1 = Some tx)
     ∧ ∃ signatures,
         ExecutionPlan.required_signatures execution_plan ≤ len signatures
         ∧ payments run.1.2
           = [SmartContractPayment (ExecutionPlan.recipient_address execution_plan)
                (ExecutionPlan.amount execution_plan) signatures
                (ExecutionPlan.emergency_data execution_plan)]).
Proof.
  cbn zeta. unfold _execute_contract_phase. rewrite bind_run. cbn [gets].
  destruct (Z.ltb_spec (len (retrieved_signatures execution_plan w))
              (ExecutionPlan.required_signatures execution_plan)); [by left|].
  right. split; [done|]. split; [by eexists|]. eexists. split; [done|]. done.
Qed.

(** The verification phase cannot fail: both of its checks sleep and
    return [True]. *)
Lemma verification_phase_true execution_plan tx_hash sched w :
  (_execute_verification_phase execution_plan tx_hash sched w).1.1 = true.
Proof.
  unfold _execute_verification_phase, _verify_transaction_status, _verify_funds_received.
  rewrite !bind_run.
  destruct (asyncio_sleep 1000000 sched w) as [[[] ?] w1]. cbn [mret Async_ret negb].
  rewrite !bind_run.
  by destruct (asyncio_sleep 1000000 sched w1) as [[[] ?] w2].
Qed.

(** X11: [execute_plan] pays at most once, and only with a quorum. A run
    that returns success has made exactly one payment call, to the
    recipient and for the amount of the plan, with at least
    [required_signatures] signatures; a run that returns a failure has made
    none. *)
Theorem execute_plan_pays_once `{Externals} (fuel : nat) (execution_id : string)
    (sched : Scheduler) (w : World) :
  let run := execute_plan fuel execution_id sched w in
  match run.1.1 with
  | Some result =>
      if ExecutionResult.success result then
        ∃ plan signatures,
          executions w !! execution_id = Some plan
          ∧ ExecutionPlan.required_signatures plan ≤ len signatures
          ∧ payments run.1.2
            = [SmartContractPayment (ExecutionPlan.recipient_address plan)
                 (ExecutionPlan.amount plan) signatures
                 (ExecutionPlan.emergency_data plan)]
      else payments run.1.2 = []
  | None => payments run.1.2 = []
  end.
Proof.
  cbn zeta. unfold execute_plan. rewrite bind_run. cbn [gets].
  destruct (executions w !! execution_id) as [plan|] eqn:Hplan; [|done].
  rewrite bind_run, update_plan_run. rewrite bind_run, update_plan_run. rewrite bind_run.
  match goal with |- context [_execute_preparation_phase plan sched ?w0] =>
    pose proof (pays_nothing_preparation plan sched w0) as Hprep;
    destruct (_execute_preparation_phase plan sched w0) as [[prepared ev1] w2] end.
  simpl in Hprep. destruct prepared; cbn [negb]; [|by simpl; rewrite app_nil_r].
  rewrite bind_run, update_plan_run. rewrite bind_run, update_plan_run. rewrite bind_run.
  match goal with |- context [_execute_signature_collection_phase fuel plan sched ?w0] =>
    pose proof (pays_nothing_signature_phase fuel plan sched w0) as Hsig;
    destruct (_execute_signature_collection_phase fuel plan sched w0)
      as [[signed ev3] w4] end.
  simpl in Hsig.
  destruct signed as [[|]|];
    [|by simpl; rewrite !payments_app, Hprep, Hsig
     |by simpl; rewrite !payments_app, Hprep, Hsig].
  rewrite bind_run, update_plan_run. rewrite bind_run, update_plan_run. rewrite bind_run.
  match goal with |- context [_execute_contract_phase plan sched ?w0] =>
    pose proof (contract_phase_payments plan sched w0) as Hcontract;
    destruct (_execute_contract_phase plan sched w0) as [[contract ev5] w6] end.
  simpl in Hcontract.
  destruct Hcontract as [(Hfail & Hnone & Hpay)|(Hok & [tx Htx] & sigs & Hquorum & Hpay)].
  - rewrite Hfail. simpl. by rewrite !payments_app, Hprep, Hsig, Hpay.
  - rewrite Hok, Htx. rewrite bind_run, update_plan_run. rewrite bind_run.
    match goal with |- context [_execute_verification_phase plan tx sched ?w0] =>
      pose proof (pays_nothing_verification plan tx sched w0) as Hver;
      pose proof (verification_phase_true plan tx sched w0) as Htrue;
      destruct (_execute_verification_phase plan tx sched w0) as [[verified ev7] w8] end.
    simpl in Hver, Htrue. destruct verified; cbn [negb].
    + rewrite bind_run, update_plan_run. rewrite bind_run, update_plan_run.
      rewrite bind_run.
      match goal with |- context [_execute_completion_phase plan sched ?w0] =>
        pose proof (pays_nothing_collector_call false
                      (λ sc, (true, cleanup_collection (ExecutionPlan.execution_id plan) sc))
                      sched w0) as Hdone;
        destruct (_execute_completion_phase plan sched w0) as [[completed ev9] w10] eqn:Hrun
      end.
      unfold _execute_completion_phase in Hrun. rewrite Hrun in Hdone. simpl in Hdone.
      simpl. exists plan, sigs. split; [done|]. split; [done|].
      rewrite !payments_app, Hprep, Hsig, Hpay, Hver, Hdone. done.
    + done.
Qed.

(** X14: a successful run leaves the plan Completed. When [execute_plan]
    returns success for a registered plan, under a scheduler that leaves
    the registry to it, the stored plan has status [COMPLETED] and phase
    [COMPLETION], and the result lists the five phases in order with the
    transaction hash of the payment. *)
Theorem execute_plan_success_status `{Externals} (fuel : nat) (execution_id : string)
    (sched : Scheduler) (w : World) (plan : ExecutionPlan.t) (result : ExecutionResult.t) :
  keeps_executions sched →
  executions w !! execution_id = Some plan →
  ExecutionPlan.execution_id plan = execution_id →
  (execute_plan fuel execution_id sched w).1.1 = Some result →
  ExecutionResult.success result = true →
  (∃ plan',
     executions (execute_plan fuel execution_id sched w).2 !! execution_id = Some plan'
     ∧ ExecutionPlan.status plan' = ExecutionStatus.COMPLETED
     ∧ ExecutionPlan.current_phase plan' = ExecutionPhase.COMPLETION)
  ∧ ExecutionResult.completed_steps result
    = ["preparation"; "signature_collection"; "contract_execution"; "verification";
       "completion"]
  ∧ ExecutionResult.transaction_hash result
    = Some (mock_hex (EmergencyData.emergency_id (ExecutionPlan.emergency_data plan)))
  ∧ ExecutionResult.failed_step result = None.
Proof.
  intros Hsched Hplan Hid. unfold execute_plan.
  rewrite bind_run. cbn [gets]. rewrite Hplan.
  rewrite bind_run, update_plan_run. rewrite bind_run, update_plan_run.
  set (w1 := set_executions _ (set_executions _ w)).
  assert (is_Some (executions w1 !! execution_id)) as [p1 Hp1].
  { eexists. apply lookup_alter_plan, lookup_alter_plan, Hplan. }
  clearbody w1. rewrite bind_run.
  pose proof (preserves_preparation plan sched w1 Hsched) as Hprep.
  destruct (_execute_preparation_phase plan sched w1) as [[prepared ev1] w2].
  simpl in Hprep. destruct prepared; cbn [negb]; [|by simpl; intros [= <-]].
  rewrite bind_run, update_plan_run. rewrite bind_run, update_plan_run.
  set (w3 := set_executions _ (set_executions _ w2)).
  assert (is_Some (executions w3 !! execution_id)) as [p3 Hp3].
  { eexists. apply lookup_alter_plan, lookup_alter_plan. by rewrite Hprep. }
  clearbody w3. rewrite bind_run.
  pose proof (signature_phase_executions fuel plan sched w3 Hsched) as Hsig.
  cbn zeta in Hsig. rewrite Hid in Hsig.
  destruct (_execute_signature_collection_phase fuel plan sched w3) as [[[[|]|] ev3] w4];
    simpl in Hsig; [|by simpl; intros [= <-]|by simpl].
  rewrite bind_run, update_plan_run. rewrite bind_run, update_plan_run.
  set (w5 := set_executions _ (set_executions _ w4)).
  assert (is_Some (executions w5 !! execution_id)) as [p5 Hp5].
  { eexists. apply lookup_alter_plan, lookup_alter_plan. rewrite Hsig.
    apply lookup_alter_plan, Hp3. }
  clearbody w5. rewrite bind_run.
  pose proof (preserves_contract plan sched w5 Hsched) as Hcontract.
  assert (∀ tx, ContractResult.tx_hash (_execute_contract_phase plan sched w5).1.1 = Some tx →
                tx = mock_hex (EmergencyData.emergency_id (ExecutionPlan.emergency_data plan)))
    as Htx.
  { intros tx. unfold _execute_contract_phase. rewrite bind_run. cbn [gets].
    destruct (_ <? _); [done|]. rewrite bind_run.
    unfold _execute_smart_contract_payment. rewrite !bind_run. cbn [emit].
    destruct (asyncio_sleep 2000000 sched w5) as [[[] ?] ?]. simpl. by intros [= <-]. }
  destruct (_execute_contract_phase plan sched w5) as [[contract ev5] w6].
  simpl in Hcontract, Htx.
  destruct (ContractResult.success contract); [|by simpl; intros [= <-]].
  destruct (ContractResult.tx_hash contract) as [tx|]; [|by simpl; intros [= <-]].
  specialize (Htx tx eq_refl). subst tx.
  rewrite bind_run, update_plan_run. rewrite bind_run.
  set (w7 := set_executions _ w6).
  assert (is_Some (executions w7 !! execution_id)) as [p7 Hp7].
  { eexists. apply lookup_alter_plan. by rewrite Hcontract. }
  clearbody w7.
  assert (preserves_executions
            (_execute_verification_phase plan
               (mock_hex (EmergencyData.emergency_id (ExecutionPlan.emergency_data plan)))))
    as Hver.
  { unfold _execute_verification_phase, _verify_transaction_status, _verify_funds_received.
    apply preserves_bind.
    { apply preserves_bind; [apply preserves_sleep|intros _; apply preserves_ret]. }
    intros [|]; cbn [negb]; [|apply preserves_ret].
    apply preserves_bind.
    { apply preserves_bind; [apply preserves_sleep|intros _; apply preserves_ret]. }
    intros [|]; apply preserves_ret. }
  specialize (Hver sched w7 Hsched).
  destruct (_execute_verification_phase plan _ sched w7) as [[verified ev7] w8].
  simpl in Hver. destruct verified; cbn [negb]; [|by simpl; intros [= <-]].
  rewrite bind_run, update_plan_run. rewrite bind_run, update_plan_run. rewrite bind_run.
  set (w9 := set_executions _ (set_executions _ w8)).
  assert (∃ p, executions w9 !! execution_id = Some p
               ∧ ExecutionPlan.status p = ExecutionStatus.COMPLETED
               ∧ ExecutionPlan.current_phase p = ExecutionPhase.COMPLETION)
    as (p9 & Hp9 & Hs9 & Hph9).
  { eexists. split; [apply lookup_alter_plan, lookup_alter_plan; by rewrite Hver|done]. }
  clearbody w9.
  pose proof (preserves_collector_call false
                (λ sc, (true, cleanup_collection (ExecutionPlan.execution_id plan) sc))
                sched w9 Hsched) as Hdone.
  unfold _execute_completion_phase.
  destruct (collector_call false _ sched w9) as [[completed ev9] w10].
  simpl in Hdone. simpl. intros [= <-] _.
  split; [|done]. exists p9. by rewrite Hdone.
Qed.

Lemma idle_keeps_executions : keeps_executions idle.
Proof. by intros k us w. Qed.

Lemma execute_plan_returns_witness :
  is_Some (@execute_plan mock_mode 121 "exec_emerg_002_0" idle critical_world).1.1.
Proof.
  apply (@execute_plan_returns mock_mode 121 "exec_emerg_002_0" idle critical_world).
  intros plan Hplan.
  assert (plan = critical_plan) as ->.
  { assert (executions critical_world !! "exec_emerg_002_0" = Some critical_plan) as Hc
      by (vm_compute; reflexivity).
    congruence. }
  vm_compute. reflexivity.
Defined.

Lemma execute_plan_failure_status_witness :
  ∃ plan',
    executions (@execute_plan mock_mode 721 "exec_emerg_002_0" idle fallback_world).2
      !! "exec_emerg_002_0" = Some plan'
    ∧ ExecutionPlan.status plan' =
        (if bool_decide ("preparation" = "preparation") then ExecutionStatus.IN_PROGRESS
         else if bool_decide ("preparation" = "signature_collection")
              then ExecutionStatus.WAITING_SIGNATURES
              else ExecutionStatus.EXECUTING).
Proof.
  apply (@execute_plan_failure_status mock_mode 721 "exec_emerg_002_0" idle fallback_world
           fallback_plan
           (ExecutionResult.error_result "exec_emerg_002_0" "Preparation phase failed"
              (Some "preparation"))).
  - exact idle_keeps_executions.
  - vm_compute. reflexivity.
  - vm_compute. reflexivity.
  - vm_compute. reflexivity.
  - reflexivity.
Defined.

Lemma execute_plan_success_status_witness :
  (∃ plan',
     executions (@execute_plan mock_mode 121 "exec_emerg_002_0" idle critical_world).2
       !! "exec_emerg_002_0" = Some plan'
     ∧ ExecutionPlan.status plan' = ExecutionStatus.COMPLETED
     ∧ ExecutionPlan.current_phase plan' = ExecutionPhase.COMPLETION)
  ∧ ExecutionResult.completed_steps
      (ExecutionResult.success_result "exec_emerg_002_0" (mock_hex "emerg_002")
         ["preparation"; "signature_collection"; "contract_execution"; "verification";
          "completion"])
    = ["preparation"; "signature_collection"; "contract_execution"; "verification";
       "completion"]
  ∧ ExecutionResult.transaction_hash
      (ExecutionResult.success_result "exec_emerg_002_0" (mock_hex "emerg_002")
         ["preparation"; "signature_collection"; "contract_execution"; "verification";
          "completion"])
    = Some (mock_hex (EmergencyData.emergency_id (ExecutionPlan.emergency_data critical_plan)))
  ∧ ExecutionResult.failed_step
      (ExecutionResult.success_result "exec_emerg_002_0" (mock_hex "emerg_002")
         ["preparation"; "signature_collection"; "contract_execution"; "verification";
          "completion"])
    = None.
Proof.
  apply (@execute_plan_success_status mock_mode 121 "exec_emerg_002_0" idle critical_world
           critical_plan).
  - exact idle_keeps_executions.
  - vm_compute. reflexivity.
  - vm_compute. reflexivity.
  - vm_compute. reflexivity.
  - reflexivity.
Defined.

(** X15: a collection that is gone counts as complete. When the signature
    wait polls and the collector has no collection for the execution (it was
    cleaned up, or never initialised), the wait returns success at once and
    marks the plan [READY_TO_EXECUTE]; the contract phase then retrieves no
    signature, and for a plan that requires at least one it fails with
    "Insufficient signatures: 0/n" and makes no payment call. *)
Theorem missing_collection_counts_as_complete (fuel : nat) (execution_plan : ExecutionPlan.t)
    (start_time max_wait_time : Z) (sched : Scheduler) (w : World) (sc : SignatureCollector) :
  signature_collector w = Some sc →
  collections sc !! ExecutionPlan.execution_id execution_plan = None →
  0 < ExecutionPlan.required_signatures execution_plan →
  let waited :=
    wait_for_signatures (S fuel) (ExecutionPlan.execution_id execution_plan)
      start_time max_wait_time sched w in
  waited
  = (Some true, [],
     set_executions
       (alter (ExecutionPlan.set_status ExecutionStatus.READY_TO_EXECUTE)
          (ExecutionPlan.execution_id execution_plan) (executions w)) w)
  ∧ _execute_contract_phase execution_plan sched waited.2
    = (ContractResult.mk false None
         ("Insufficient signatures: 0/" +:+
          str_of_int (ExecutionPlan.required_signatures execution_plan)),
       [], waited.2).
Proof.
  intros Hsc Hnone Hrequired. cbn zeta.
  assert (wait_for_signatures (S fuel) (ExecutionPlan.execution_id execution_plan)
            start_time max_wait_time sched w
          = (Some true, [],
             set_executions
               (alter (ExecutionPlan.set_status ExecutionStatus.READY_TO_EXECUTE)
                  (ExecutionPlan.execution_id execution_plan) (executions w)) w)) as ->.
  { cbn [wait_for_signatures]. rewrite bind_run. cbn [gets]. rewrite Hsc.
    rewrite bind_run. cbn [mret Async_ret]. unfold get_collection_status. rewrite Hnone.
    cbn [from_option]. by rewrite bool_decide_eq_true_2. }
  split; [done|]. cbn [snd].
  unfold _execute_contract_phase. rewrite bind_run. cbn [gets].
  unfold retrieved_signatures, get_collected_signatures. cbn. rewrite Hsc, Hnone.
  assert (len (@nil (gmap string PyValue)) = 0) as -> by done.
  destruct (Z.ltb_spec 0 (ExecutionPlan.required_signatures execution_plan)); [|lia].
  done.
Qed.

Lemma missing_collection_counts_as_complete_witness :
  _execute_contract_phase demo_plan idle
    (wait_for_signatures 1 "exec_1" 0 3600 idle
       (mkWorld 0 0 {[ "exec_1" := demo_plan ]} (Some SignatureCollector_init) ∅)).2
  = (ContractResult.mk false None "Insufficient signatures: 0/1", [],
     (wait_for_signatures 1 "exec_1" 0 3600 idle
        (mkWorld 0 0 {[ "exec_1" := demo_plan ]} (Some SignatureCollector_init) ∅)).2).
Proof.
  apply (proj2 (missing_collection_counts_as_complete 0 demo_plan 0 3600 idle
                  (mkWorld 0 0 {[ "exec_1" := demo_plan ]} (Some SignatureCollector_init) ∅)
                  SignatureCollector_init eq_refl eq_refl eq_refl)).
Defined.

Lemma create_execution_plan_run (operation_steps : list (gmap string PyValue))
    (emergency_data : EmergencyData.t) (analysis : EmergencyAnalysis.t)
    (sched : Scheduler) (w : World) :
  let execution_id :=
    "exec_" +:+ EmergencyData.emergency_id emergency_data +:+ "_" +:+
    str_of_int (timestamp_int (clock w)) in
  let execution_plan :=
    ExecutionPlan.mk execution_id emergency_data analysis
      (_map_emergency_to_operation_type
         (EmergencyType.value (EmergencyData.emergency_type emergency_data)))
      operation_steps
      (_calculate_required_signatures
         (OfSeverityLevel (EmergencyAnalysis.severity_level analysis))
         (EmergencyAnalysis.urgency_score analysis))
      (_calculate_timelock_hours (EmergencyAnalysis.urgency_score analysis))
      (EmergencyData.institution_address emergency_data)
      (EmergencyAnalysis.recommended_amount analysis)
      (clock w) ExecutionStatus.PENDING ExecutionPhase.PREPARATION in
  create_execution_plan operation_steps emergency_data analysis sched w
  = (execution_plan, [],
     set_executions (<[execution_id := execution_plan]> (executions w)) w).
Proof. done. Qed.

(** The integer timestamp is the whole second of the clock for readings
    of the present day, but the float it is taken from is rounded: in the
    last microsecond of the second 20000000000 it is the next second. *)
Example timestamp_int_rounds_up :
  timestamp_int 1700000000999999 = 1700000000
  ∧ timestamp_int 20000000000999998 = 20000000000
  ∧ timestamp_int 20000000000999999 = 20000000001.
Proof. vm_compute. done. Qed.

(** X16: [create_execution_plan] registers the plan it returns under the
    plan's own id, Pending and in the preparation phase, for the
    institution's address and the recommended amount, asking for 1 to 3
    signatures within 1, 3, 6 or 12 hours; other plans are untouched. The id
    is made of the emergency id and [int(datetime.now().timestamp())], so a
    second plan created for the same emergency at a clock reading with the
    same integer timestamp gets the same id and takes the place of the
    first. *)
Theorem create_execution_plan_registers (operation_steps : list (gmap string PyValue))
    (emergency_data : EmergencyData.t) (analysis : EmergencyAnalysis.t)
    (sched : Scheduler) (w : World) :
  let run := create_execution_plan operation_steps emergency_data analysis sched w in
  let plan := run.1.1 in
  executions run.2 !! ExecutionPlan.execution_id plan = Some plan
  ∧ ExecutionPlan.execution_id plan
    = "exec_" +:+ EmergencyData.emergency_id emergency_data +:+ "_" +:+
      str_of_int (timestamp_int (clock w))
  ∧ ExecutionPlan.status plan = ExecutionStatus.PENDING
  ∧ ExecutionPlan.current_phase plan = ExecutionPhase.PREPARATION
  ∧ ExecutionPlan.recipient_address plan = EmergencyData.institution_address emergency_data
  ∧ ExecutionPlan.amount plan = EmergencyAnalysis.recommended_amount analysis
  ∧ ExecutionPlan.required_signatures plan ∈ [1; 2; 3]
  ∧ ExecutionPlan.timelock_hours plan ∈ [1; 3; 6; 12]
  ∧ (∀ other, other ≠ ExecutionPlan.execution_id plan →
              executions run.2 !! other = executions w !! other)
  ∧ (∀ operation_steps' emergency_data' analysis' sched' clock',
       EmergencyData.emergency_id emergency_data'
         = EmergencyData.emergency_id emergency_data →
       timestamp_int clock' = timestamp_int (clock w) →
       let again :=
         create_execution_plan operation_steps' emergency_data' analysis' sched'
           (set_clock clock' run.2) in
       ExecutionPlan.execution_id again.1.1 = ExecutionPlan.execution_id plan
       ∧ executions again.2 !! ExecutionPlan.execution_id plan = Some again.1.1).
Proof.
  cbn zeta. rewrite create_execution_plan_run. cbn.
  split; [by rewrite lookup_insert_eq|]. repeat split.
  - rewrite required_signatures_of_level.
    destruct (90 <=? _); [set_solver|]. destruct (75 <=? _); set_solver.
  - unfold _calculate_timelock_hours.
    destruct (90 <=? _); [set_solver|]. destruct (75 <=? _); [set_solver|].
    destruct (50 <=? _); set_solver.
  - intros other Hother. by rewrite lookup_insert_ne.
  - rewrite create_execution_plan_run. cbn. by rewrite H, H0.
  - rewrite create_execution_plan_run. cbn. rewrite H, H0. by rewrite lookup_insert_eq.
Qed.

Lemma create_execution_plan_registers_witness :
  let again :=
    create_execution_plan [] demo_emergency demo_analysis idle
      (set_clock 999999 fallback_world) in
  ExecutionPlan.execution_id again.1.1 = ExecutionPlan.execution_id fallback_plan
  ∧ executions again.2 !! ExecutionPlan.execution_id fallback_plan = Some again.1.1.
Proof.
  apply (proj2 (proj2 (proj2 (proj2 (proj2 (proj2 (proj2 (proj2 (proj2
           (create_execution_plan_registers
              [list_to_map [("step_id", PyStr "verify_identity")]]
              demo_emergency fallback_analysis idle fresh_world))))))))) [] demo_emergency
           demo_analysis idle 999999).
  - reflexivity.
  - reflexivity.
Defined.

(** X17: the required signature count is 1, 2 or 3 for every input; it
    never grows with the urgency score; and it is the same for all four
    members of [SeverityLevel], whose lower-case values never match the
    upper-case names the function compares with. *)
Theorem required_signatures_range (severity_level : SeverityArg) (urgency_score : Z) :
  _calculate_required_signatures severity_level urgency_score ∈ [1; 2; 3]
  ∧ (∀ higher, urgency_score ≤ higher →
       _calculate_required_signatures severity_level higher
         ≤ _calculate_required_signatures severity_level urgency_score)
  ∧ (∀ level level' : SeverityLevel.t,
       _calculate_required_signatures (OfSeverityLevel level) urgency_score
       = _calculate_required_signatures (OfSeverityLevel level') urgency_score).
Proof.
  split; [|split].
  - unfold _calculate_required_signatures.
    destruct (_ || _); [set_solver|]. destruct (_ || _); set_solver.
  - intros higher Hle. unfold _calculate_required_signatures.
    destruct (bool_decide (_ = "CRITICAL")); [done|].
    destruct (bool_decide (_ = "HIGH")); cbn [orb];
      destruct (Z.leb_spec 90 higher), (Z.leb_spec 90 urgency_score),
               (Z.leb_spec 75 higher), (Z.leb_spec 75 urgency_score); simpl; lia.
  - intros level level'. by rewrite !required_signatures_of_level.
Qed.

Lemma required_signatures_range_witness :
  _calculate_required_signatures (OfStr "HIGH") 95
    ≤ _calculate_required_signatures (OfStr "HIGH") 10.
Proof.
  apply (proj1 (proj2 (required_signatures_range (OfStr "HIGH") 10))). lia.
Defined.

(** *** What the plan's status does not decide *)

Lemma alter_set_status_twice s s' execution_id (m : gmap string ExecutionPlan.t) :
  alter (ExecutionPlan.set_status s') execution_id
    (alter (ExecutionPlan.set_status s) execution_id m)
  = alter (ExecutionPlan.set_status s') execution_id m.
Proof.
  apply map_eq; intros j. rewrite !lookup_alter.
  destruct (decide (execution_id = j)); [|done].
  rewrite decide_True by done. by destruct (m !! execution_id).
Qed.

(** X18: [execute_plan] does not look at the status of the plan it is given.
    Whatever status the registered plan carries, Cancelled, Completed or
    Failed included, the run makes the same calls, returns the same result
    and leaves the same state as for a Pending plan: a cancelled plan can
    still be executed, and a completed one executed again. *)
Theorem execute_plan_ignores_status `{Externals} (fuel : nat) (execution_id : string)
    (status : ExecutionStatus.t) (sched : Scheduler) (w : World) :
  execute_plan fuel execution_id sched
    (set_executions
       (alter (ExecutionPlan.set_status status) execution_id (executions w)) w)
  = execute_plan fuel execution_id sched w.
Proof.
  unfold execute_plan. rewrite !(bind_run (gets _)). cbn [gets executions set_executions].
  rewrite lookup_alter, decide_True by done.
  destruct (executions w !! execution_id) as [plan|] eqn:Hplan; cbn [fmap option_fmap option_map].
  - rewrite !(bind_run (update_plan _ _)), !update_plan_run.
    cbn [executions set_executions]. rewrite alter_set_status_twice.
    by destruct plan.
  - cbn [mret Async_ret]. do 2 f_equal. destruct w as [c n m sc gs]; cbn in *.
    unfold set_executions; cbn. f_equal.
    apply map_eq; intros j. rewrite lookup_alter.
    destruct (decide (execution_id = j)) as [<-|]; [|done]. by rewrite Hplan.
Qed.

(** X19: what [cancel_execution] changes. A refused cancellation (unknown
    id, or a plan that is Completed or Executing) changes nothing. An
    accepted one leaves the plan Cancelled and every other plan as it was,
    keeps the clock, and keeps the signatures the collector holds for the
    execution: the collection is marked Cancelled, not emptied. *)
Theorem cancel_execution_effect (execution_id reason : string) (sched : Scheduler) (w : World) :
  let run := cancel_execution execution_id reason sched w in
  run.1.2 = []
  ∧ (run.1.1 = false → run.2 = w)
  ∧ (run.1.1 = true →
       (∃ plan, executions w !! execution_id = Some plan
                ∧ ExecutionPlan.status plan ≠ ExecutionStatus.COMPLETED
                ∧ ExecutionPlan.status plan ≠ ExecutionStatus.EXECUTING
                ∧ executions run.2 !! execution_id
                  = Some (ExecutionPlan.set_status ExecutionStatus.CANCELLED plan))
       ∧ (∀ other, other ≠ execution_id →
                   executions run.2 !! other = executions w !! other)
       ∧ clock run.2 = clock w
       ∧ (∀ sc, signature_collector w = Some sc →
            ∃ sc', signature_collector run.2 = Some sc'
                   ∧ get_collected_signatures execution_id sc'
                     = get_collected_signatures execution_id sc
                   ∧ (∀ collection, collections sc !! execution_id = Some collection →
                        collections sc' !! execution_id
                        = Some (SignatureCollection.set_status SignatureStatus.CANCELLED
                                  collection)))).
Proof.
  cbn zeta. unfold cancel_execution. rewrite bind_run. cbn [gets].
  destruct (executions w !! execution_id) as [plan|] eqn:Hplan; [|done].
  destruct (bool_decide (ExecutionPlan.status plan = ExecutionStatus.COMPLETED)) eqn:Hc;
    [done|].
  destruct (bool_decide (ExecutionPlan.status plan = ExecutionStatus.EXECUTING)) eqn:He;
    [done|].
  apply bool_decide_eq_false in Hc, He. cbn [orb].
  rewrite bind_run, update_plan_run. rewrite bind_run.
  unfold collector_call. cbn [signature_collector set_executions].
  destruct (signature_collector w) as [sc|] eqn:Hsc.
  - destruct (cancel_collection execution_id reason sc) as [r sc'] eqn:Hcancel.
    cbn. split; [done|]. split; [done|]. intros _. split; [|split; [|split]].
    + exists plan. by rewrite lookup_alter, decide_True, Hplan.
    + intros other Hother. by rewrite lookup_alter_ne.
    + done.
    + intros sc0 [= <-]. exists sc'. split; [done|].
      unfold cancel_collection in Hcancel.
      destruct (collections sc !! execution_id) as [c|] eqn:Hlookup.
      * injection Hcancel as <- <-.
        unfold get_collected_signatures. rewrite lookup_update_collection.
        rewrite decide_True, Hlookup by done. split; [by destruct c|].
        by intros collection [= <-].
      * injection Hcancel as <- <-. by rewrite Hlookup.
  - cbn. split; [done|]. split; [done|]. intros _. split; [|split; [|split]].
    + exists plan. by rewrite lookup_alter, decide_True, Hplan.
    + intros other Hother. by rewrite lookup_alter_ne.
    + done.
    + done.
Qed.

Lemma cancel_execution_effect_witness :
  ∃ plan,
    executions demo_world !! "exec_1" = Some plan
    ∧ ExecutionPlan.status plan ≠ ExecutionStatus.COMPLETED
    ∧ ExecutionPlan.status plan ≠ ExecutionStatus.EXECUTING
    ∧ executions (cancel_execution "exec_1" "user request" idle demo_world).2 !! "exec_1"
      = Some (ExecutionPlan.set_status ExecutionStatus.CANCELLED plan).
Proof.
  apply (proj1 (proj2 (proj2 (cancel_execution_effect "exec_1" "user request" idle demo_world))
                  eq_refl)).
Defined.

(** *** Edge cases of the response monitor *)

Lemma elem_of_range (i n : Z) : 0 ≤ i < n → i ∈ range n.
Proof.
  intros Hi. unfold range. apply list_elem_of_fmap. exists (Z.to_nat i).
  split; [lia|]. apply elem_of_seq. lia.
Qed.

(** X20: with no guardian registered the monitor is satisfied at once. For
    an empty roster [0 >= 0 * 0.7] holds, so the first poll reports
    sufficient responses: with a positive timeout the monitor ends without
    sleeping and without calling the timeout handler, although nobody has
    answered. *)
Theorem monitor_empty_roster (fuel : nat) (emergency_id : string) (timeout_minutes : Z)
    (sched : Scheduler) (w : World) :
  guardian_status w = ∅ →
  0 < timeout_minutes →
  is_Some (timedelta_minutes timeout_minutes ≫= datetime_add (clock w)) →
  _monitor_guardian_responses (S fuel) emergency_id timeout_minutes sched w
  = (Some tt, [], w).
Proof.
  intros Hempty Hpos [timeout_time Htime].
  pose proof (timeout_time_eq _ _ _ Htime) as HT.
  rewrite (monitor_run (S fuel) emergency_id timeout_minutes timeout_time sched w w Htime).
  - destruct (Z.leb_spec timeout_time (clock w)); [lia|done].
  - rewrite response_loop_unfold.
    destruct (Z.ltb_spec (clock w) timeout_time); [|lia].
    unfold threshold_reached. by rewrite Hempty.
Qed.

Lemma monitor_empty_roster_witness :
  _monitor_guardian_responses 1 "emerg_002" default_timeout_minutes idle
    (mkWorld 0 0 ∅ None ∅)
  = (Some tt, [], mkWorld 0 0 ∅ None ∅).
Proof.
  apply (monitor_empty_roster 0 "emerg_002" default_timeout_minutes idle
           (mkWorld 0 0 ∅ None ∅) eq_refl).
  - unfold default_timeout_minutes. lia.
  - by eexists.
Defined.

(** X21: a timeout of zero or fewer minutes escalates at once. The deadline
    is then not after the start, the loop body never runs, no guardian
    status is read, and the timeout handler is called immediately, even
    when every guardian has already answered. *)
Theorem monitor_nonpositive_timeout (fuel : nat) (emergency_id : string) (timeout_minutes : Z)
    (sched : Scheduler) (w : World) :
  timeout_minutes ≤ 0 →
  is_Some (timedelta_minutes timeout_minutes ≫= datetime_add (clock w)) →
  _monitor_guardian_responses (S fuel) emergency_id timeout_minutes sched w
  = (Some tt, [HandleResponseTimeout emergency_id], w).
Proof.
  intros Hle [timeout_time Htime].
  pose proof (timeout_time_eq _ _ _ Htime) as HT.
  rewrite (monitor_run (S fuel) emergency_id timeout_minutes timeout_time sched w w Htime).
  - destruct (Z.leb_spec timeout_time (clock w)); [done|lia].
  - rewrite response_loop_unfold.
    destruct (Z.ltb_spec (clock w) timeout_time); [lia|done].
Qed.

Lemma monitor_nonpositive_timeout_witness :
  _monitor_guardian_responses 1 "emerg_002" 0 idle demo_world_answered
  = (Some tt, [HandleResponseTimeout "emerg_002"], demo_world_answered).
Proof.
  apply (monitor_nonpositive_timeout 0 "emerg_002" 0 idle demo_world_answered).
  - lia.
  - by eexists.
Defined.

(** X22: the 70 % test is exact for rosters of up to 120 guardians. The
    source compares in binary64, [responded_count >= total_count * 0.7],
    where 0.7 is not representable; for every roster of at most 120
    guardians and every count of answers the outcome is that of the exact
    comparison [10 * responded >= 7 * total]. *)
Theorem sufficient_responses_exact (responded total : Z) :
  0 ≤ responded ≤ total →
  total ≤ 120 →
  sufficient_responses responded total = (7 * total <=? 10 * responded).
Proof.
  intros Hresponded Htotal.
  pose proof sufficient_responses_exact_small as Hall.
  rewrite forallb_forall in Hall.
  assert (In total (range 121)) as Htotal_in
    by (apply list_elem_of_In, elem_of_range; lia).
  specialize (Hall total Htotal_in). rewrite forallb_forall in Hall.
  assert (In responded (range (total + 1))) as Hresponded_in
    by (apply list_elem_of_In, elem_of_range; lia).
  specialize (Hall responded Hresponded_in).
  by apply bool_decide_eq_true_1 in Hall.
Qed.

Lemma sufficient_responses_exact_witness :
  sufficient_responses 7 10 = (7 * 10 <=? 10 * 7).
Proof. apply sufficient_responses_exact; lia. Defined.

(** *** Guardian status and notifications *)

Lemma responded_count_insert_fresh guardian_id status (m : gmap string GuardianStatus.t) :
  m !! guardian_id = None →
  responded_count (<[guardian_id := status]> m) = responded_count m + answered status.
Proof.
  intros Hfresh. unfold responded_count, answered, len.
  rewrite map_to_list_insert by done. rewrite filter_cons. cbn [snd].
  destruct (bool_decide (GuardianStatus.value status = "acknowledged")
            || bool_decide (GuardianStatus.value status = "responded")) eqn:Hcounted.
  - rewrite decide_True by done. cbn [length]. lia.
  - rewrite decide_False by (by intros ?). lia.
Qed.

Lemma responded_count_insert guardian_id status old (m : gmap string GuardianStatus.t) :
  m !! guardian_id = Some old →
  responded_count (<[guardian_id := status]> m)
  = responded_count m - answered old + answered status.
Proof.
  intros Hold.
  pose proof (responded_count_insert_fresh guardian_id old (delete guardian_id m)
                (lookup_delete_eq m guardian_id)) as Hbefore.
  pose proof (responded_count_insert_fresh guardian_id status (delete guardian_id m)
                (lookup_delete_eq m guardian_id)) as Hafter.
  rewrite insert_delete_id in Hbefore by done.
  rewrite insert_delete_eq in Hafter. lia.
Qed.

(** X23: what a status update changes. [update_guardian_status] of the
    emergency coordinator accepts the four names acknowledged, responded,
    offline and notified, and only for a guardian the notification
    coordinator has a status for; any other call changes nothing. An accepted
    update never changes the size of the roster, never sets a guardian back
    to unknown, and changes the number of answers the monitor counts by
    exactly the difference between the new and the old status: the count
    goes down when an answered guardian is set to offline or notified. *)
Theorem update_guardian_status_count (guardian_id status : string)
    (notification_coordinator : NotificationCoordinator.t) :
  let updated := update_guardian_status guardian_id status notification_coordinator in
  let before := NotificationCoordinator.guardian_status notification_coordinator in
  let after := NotificationCoordinator.guardian_status updated in
  total_count after = total_count before
  ∧ match status_map status, before !! guardian_id with
    | Some new, Some old =>
        after = <[guardian_id := new]> before
        ∧ new ≠ GuardianStatus.UNKNOWN
        ∧ GuardianStatus.value new = status
        ∧ responded_count after = responded_count before - answered old + answered new
    | _, _ => updated = notification_coordinator
    end.
Proof.
  cbn zeta. unfold update_guardian_status.
  destruct (status_map status) as [new|] eqn:Hnew; [|done].
  unfold NotificationCoordinator.update_guardian_status.
  destruct (NotificationCoordinator.guardian_status notification_coordinator !! guardian_id)
    as [old|] eqn:Hold.
  - rewrite bool_decide_eq_true_2 by by eexists. cbn. split.
    + unfold total_count. by rewrite map_size_insert_Some by by eexists.
    + split; [done|]. split; [|split].
      * unfold status_map in Hnew. repeat case_bool_decide; by simplify_eq.
      * unfold status_map in Hnew. repeat case_bool_decide; by simplify_eq.
      * by apply responded_count_insert.
  - rewrite bool_decide_eq_false_2; [done|]. by intros [? ?].
Qed.

(** X24: which emergencies quiet hours hold back. For a guardian whose
    priority threshold is the default one or lower, no notification of the
    emergency coordinator is below the threshold, and the notification is
    held for quiet hours exactly when the guardian's quiet hours apply at
    that time of day and the assessed severity is low or medium: a high or
    critical emergency always goes out to the channels. *)
Theorem quiet_hours_hold_lesser_emergencies `{Gateways} (now : Z)
    (emergency_type : EmergencyType.t) (severity_level : SeverityLevel.t)
    (guardian_id : string) (content : gmap string string) (emergency_id : string)
    (self : NotificationCoordinator.t) (contact_info : ContactInfo.t) :
  dict_get guardian_id (NotificationCoordinator.guardian_contacts self) = Some contact_info →
  let preferences := default Preferences.empty (ContactInfo.preferences contact_info) in
  default (NotificationPriority.value NotificationPriority.NORMAL)
          (Preferences.priority_threshold preferences)
    ≤ NotificationPriority.value NotificationPriority.NORMAL →
  let result :=
    (notify_guardian now emergency_type severity_level guardian_id content emergency_id
       self).1 in
  result ≠ GuardianResult.Held "Below priority threshold"
  ∧ (result = GuardianResult.Held "Quiet hours"
     ↔ NotificationCoordinator._is_quiet_hours now preferences = true
       ∧ (severity_level = SeverityLevel.LOW ∨ severity_level = SeverityLevel.MEDIUM)).
Proof.
  intros Hcontact preferences Hthreshold. cbn zeta.
  unfold notify_guardian, NotificationCoordinator._send_to_guardian.
  rewrite Hcontact. fold preferences.
  set (priority := NotificationCoordinator._determine_priority _ _).
  assert (NotificationPriority.value NotificationPriority.NORMAL
            ≤ NotificationPriority.value priority
          ∧ (priority = NotificationPriority.CRITICAL
             ↔ ¬ (severity_level = SeverityLevel.LOW ∨ severity_level = SeverityLevel.MEDIUM)))
    as [Hpriority Hcritical].
  { subst priority.
    destruct severity_level, emergency_type;
      vm_compute (NotificationCoordinator._determine_priority _ _);
      (split; [by vm_compute|]);
      (split; [intros Hc [Hs|Hs]; congruence
              |intros Hn; first [reflexivity | exfalso; apply Hn; auto]]). }
  destruct (Z.ltb_spec (NotificationPriority.value priority)
              (default (NotificationPriority.value NotificationPriority.NORMAL)
                       (Preferences.priority_threshold preferences))); [lia|].
  destruct (NotificationCoordinator._is_quiet_hours now preferences) eqn:Hquiet; cbn [andb].
  - case_bool_decide as Hc; cbn [negb fst].
    + destruct (NotificationCoordinator.send_on_channels _ _ _ _ _ _ _). cbn [fst].
      split; [done|]. split; [done|]. intros [_ Hlesser]. by apply Hcritical in Hc.
    + split; [done|]. split; [|done]. intros _. split; [done|].
      destruct severity_level; [by left|by right|..];
        exfalso; apply Hc, Hcritical; by intros [|].
  - destruct (NotificationCoordinator.send_on_channels _ _ _ _ _ _ _). cbn [fst].
    split; [done|]. split; [done|]. by intros [? _].
Qed.

(** X25: what a notification does to the guardian's status. A notification
    that reached no channel (held back, no contacts, or every channel failed)
    changes nothing. One that reached a channel sets the guardian's status to
    notified whatever it was before, so a guardian who had acknowledged or
    responded counts as unanswered again; the contacts and the status of
    every other guardian are untouched. *)
Theorem send_to_guardian_status `{Gateways} (now : Z) (guardian_id : string)
    (content : gmap string string) (priority : NotificationPriority.t)
    (emergency_id : string) (self : NotificationCoordinator.t) :
  let run :=
    NotificationCoordinator._send_to_guardian now guardian_id content priority emergency_id
      self in
  NotificationCoordinator.guardian_contacts run.2 = NotificationCoordinator.guardian_contacts self
  ∧ (GuardianResult.success run.1 = false → run.2 = self)
  ∧ (GuardianResult.success run.1 = true →
       NotificationCoordinator.guardian_status run.2
       = <[guardian_id := GuardianStatus.NOTIFIED]>
           (NotificationCoordinator.guardian_status self)
       ∧ ∀ old, NotificationCoordinator.guardian_status self !! guardian_id = Some old →
                responded_count (NotificationCoordinator.guardian_status run.2)
                = responded_count (NotificationCoordinator.guardian_status self)
                  - answered old).
Proof.
  cbn zeta. unfold NotificationCoordinator._send_to_guardian.
  destruct (dict_get guardian_id _) as [contact_info|]; [|done].
  destruct (_ <? _); [done|]. destruct (_ && _); [done|].
  destruct (NotificationCoordinator.send_on_channels _ _ _ _ _ _ _) as [successful failed].
  cbn [fst snd GuardianResult.success].
  destruct (0 <? len successful); cbn; [|done].
  split; [done|]. split; [done|]. intros _. split; [done|].
  intros old Hold. rewrite (responded_count_insert _ _ old) by done.
  change (answered GuardianStatus.NOTIFIED) with 0. lia.
Qed.

Lemma send_to_guardian_status_witness :
  let gateways := Build_Gateways true false false (λ _ _ _ _, true) (λ _ _, false)
                    (λ _ _ _ _, false) in
  let self :=
    NotificationCoordinator.mk {[ "guardian_1" := GuardianStatus.RESPONDED ]}
      [("guardian_1",
        ContactInfo.mk (Some "guardian@example.org") None None (Some Preferences.default))] in
  let run :=
    NotificationCoordinator._send_to_guardian 43200000000 "guardian_1" ∅
      NotificationPriority.HIGH "emerg_002" self in
  NotificationCoordinator.guardian_status run.2
  = <[ "guardian_1" := GuardianStatus.NOTIFIED ]> (NotificationCoordinator.guardian_status self)
  ∧ ∀ old, NotificationCoordinator.guardian_status self !! "guardian_1" = Some old →
           responded_count (NotificationCoordinator.guardian_status run.2)
           = responded_count (NotificationCoordinator.guardian_status self) - answered old.
Proof.
  intros gateways self run.
  apply (proj2 (proj2 (@send_to_guardian_status gateways 43200000000 "guardian_1" ∅
                         NotificationPriority.HIGH "emerg_002" self))).
  reflexivity.
Defined.

Lemma quiet_hours_hold_lesser_emergencies_witness :
  let gateways := Build_Gateways true false false (λ _ _ _ _, true) (λ _ _, false)
                    (λ _ _ _ _, false) in
  let contact_info :=
    ContactInfo.mk (Some "guardian@example.org") None None (Some Preferences.default) in
  let self :=
    NotificationCoordinator.mk {[ "guardian_1" := GuardianStatus.UNKNOWN ]}
      [("guardian_1", contact_info)] in
  (@notify_guardian gateways (time_hm 23 30) EmergencyType.MEDICAL_EMERGENCY
     SeverityLevel.MEDIUM "guardian_1" ∅ "emerg_002" self).1
  = GuardianResult.Held "Quiet hours".
Proof.
  intros gateways contact_info self.
  apply (proj2 (@quiet_hours_hold_lesser_emergencies gateways (time_hm 23 30)
                  EmergencyType.MEDICAL_EMERGENCY SeverityLevel.MEDIUM "guardian_1" ∅
                  "emerg_002" self contact_info eq_refl ltac:(vm_compute; discriminate))).
  split; [reflexivity|]. by right.
Defined.

(** X26: the notification history stays bounded. Recording an entry puts
    it last; a history of up to 1000 entries never grows beyond 1000, and the
    entry that would be the 1001st cuts the history to its newest 500
    entries, dropping the 501 oldest at once. *)
Theorem record_notification_history_bounded {R} (now : Z) (emergency_id : string)
    (results : R) (notification_history : list (Z * string * R)) :
  len notification_history ≤ 1000 →
  let recorded :=
    NotificationCoordinator._record_notification_history now emergency_id results
      notification_history in
  len recorded ≤ 1000
  ∧ last recorded = Some (now, emergency_id, results)
  ∧ (len notification_history < 1000 →
       recorded = notification_history ++ [(now, emergency_id, results)])
  ∧ (len notification_history = 1000 →
       recorded = drop 501 notification_history ++ [(now, emergency_id, results)]
       ∧ len recorded = 500).
Proof.
  intros Hbound. cbn zeta. unfold NotificationCoordinator._record_notification_history.
  unfold len in *. rewrite length_app. cbn [length].
  destruct (Z.ltb_spec 1000 (Z.of_nat (length notification_history + 1))) as [Hover|Hunder].
  - assert (length notification_history = 1000%nat) as Hlen by lia.
    unfold NotificationCoordinator.last_items. rewrite length_app. cbn [length].
    rewrite Hlen. change (1000 + 1 - 500)%nat with 501%nat.
    rewrite drop_app_le by lia.
    split; [|split; [|split]].
    + rewrite length_app, length_drop. cbn [length]. lia.
    + by rewrite last_snoc.
    + lia.
    + intros _. split; [done|]. rewrite length_app, length_drop. cbn [length]. lia.
  - split; [|split; [|split]].
    + rewrite length_app. cbn [length]. lia.
    + by rewrite last_snoc.
    + done.
    + lia.
Qed.

Lemma record_notification_history_bounded_witness :
  NotificationCoordinator._record_notification_history 0 "emerg_002" tt
    (replicate 1000 (0, "emerg_001", tt))
  = drop 501 (replicate 1000 (0, "emerg_001", tt)) ++ [(0, "emerg_002", tt)]
  ∧ len (NotificationCoordinator._record_notification_history 0 "emerg_002" tt
           (replicate 1000 (0, "emerg_001", tt))) = 500.
Proof.
  apply (proj2 (proj2 (proj2
           (record_notification_history_bounded 0 "emerg_002" tt
              (replicate 1000 (0, "emerg_001", tt))
              ltac:(unfold len; rewrite length_replicate; lia))))).
  unfold len. rewrite length_replicate. lia.
Defined.

(** *** [send_emergency_notification] *)

Lemma send_to_guardian_effect `{Gateways} now guardian_id content priority emergency_id
    (self : NotificationCoordinator.t) :
  let run :=
    NotificationCoordinator._send_to_guardian now guardian_id content priority emergency_id
      self in
  NotificationCoordinator.guardian_contacts run.2 = NotificationCoordinator.guardian_contacts self
  ∧ (GuardianResult.success run.1 = false → run.2 = self)
  ∧ (GuardianResult.success run.1 = true →
       is_Some (dict_get guardian_id (NotificationCoordinator.guardian_contacts self))
       ∧ NotificationCoordinator.guardian_status run.2
         = <[guardian_id := GuardianStatus.NOTIFIED]>
             (NotificationCoordinator.guardian_status self)).
Proof.
  cbn zeta. unfold NotificationCoordinator._send_to_guardian.
  destruct (dict_get guardian_id _) as [contact_info|]; [|done].
  destruct (_ <? _); [done|]. destruct (_ && _); [done|].
  destruct (NotificationCoordinator.send_on_channels _ _ _ _ _ _ _) as [successful failed].
  cbn [fst snd GuardianResult.success].
  destruct (0 <? len successful); [|done].
  split; [done|]. split; [done|]. intros _. split; [by eexists|done].
Qed.

Lemma send_to_guardians_effect `{Gateways} now content priority emergency_id tasks :
  ∀ self : NotificationCoordinator.t,
  let run :=
    NotificationCoordinator.send_to_guardians now content priority emergency_id tasks self in
  length run.1 = length tasks
  ∧ NotificationCoordinator.guardian_contacts run.2
    = NotificationCoordinator.guardian_contacts self
  ∧ (∀ g, NotificationCoordinator.guardian_status run.2 !! g
          ≠ NotificationCoordinator.guardian_status self !! g →
          g ∈ tasks
          ∧ NotificationCoordinator.guardian_status run.2 !! g = Some GuardianStatus.NOTIFIED)
  ∧ (Forall (λ r, GuardianResult.success r = false) run.1 → run.2 = self).
Proof.
  induction tasks as [|guardian_id rest IH]; intros self; cbn zeta.
  - cbn. split; [done|]. split; [done|]. split; [|done]. by intros g Hg.
  - cbn [NotificationCoordinator.send_to_guardians].
    pose proof (send_to_guardian_effect now guardian_id content priority emergency_id self)
      as (Hcontacts & Hfailed & Hsent).
    destruct (NotificationCoordinator._send_to_guardian now guardian_id content priority
                emergency_id self) as [result self1].
    cbn [fst snd] in Hcontacts, Hfailed, Hsent.
    specialize (IH self1). cbn zeta in IH.
    destruct (NotificationCoordinator.send_to_guardians now content priority emergency_id
                rest self1) as [results self2].
    cbn [fst snd] in IH |- *. destruct IH as (Hlength & Hcontacts' & Hchanged & Hnone).
    split; [by rewrite length_cons, Hlength|]. split; [congruence|]. split.
    + intros g Hg.
      destruct (decide (NotificationCoordinator.guardian_status self2 !! g
                        = NotificationCoordinator.guardian_status self1 !! g)) as [Hsame|Hdiff].
      * rewrite Hsame in Hg |- *.
        destruct (GuardianResult.success result).
        -- destruct Hsent as [_ Hstatus]; [done|]. rewrite Hstatus in Hg |- *.
           destruct (decide (guardian_id = g)) as [->|Hne].
           ++ split; [left|]. by rewrite lookup_insert_eq.
           ++ by rewrite lookup_insert_ne in Hg.
        -- rewrite Hfailed in Hg by done. done.
      * destruct (Hchanged g Hdiff) as [Hin Hnotified]. split; [by right|done].
    + intros Hall. apply Forall_cons in Hall as [Hresult Hrest].
      rewrite Hnone by done. by apply Hfailed.
Qed.

Lemma collect_results_counts guardian_results :
  ∀ target_guardians results,
  (length guardian_results ≤ length target_guardians)%nat →
  let collected :=
    NotificationCoordinator.collect_results guardian_results target_guardians results in
  NotificationResults.emergency_id collected = NotificationResults.emergency_id results
  ∧ NotificationResults.total_guardians collected = NotificationResults.total_guardians results
  ∧ NotificationResults.notifications_sent collected
    = NotificationResults.notifications_sent results
      + len (filter (λ r, GuardianResult.success r = true) guardian_results).
Proof.
  induction guardian_results as [|result rest IH]; intros targets results Hlength; cbn zeta.
  - cbn. split; [done|]. split; [done|]. unfold len. cbn. lia.
  - destruct targets as [|guardian_id targets]; [cbn in Hlength; lia|].
    cbn [NotificationCoordinator.collect_results].
    match goal with
    | |- context [NotificationCoordinator.collect_results rest targets ?acc] =>
        destruct (IH targets acc) as (Hid & Htotal & Hsent); [cbn in Hlength; lia|]
    end.
    rewrite Hid, Htotal, Hsent.
    cbn [NotificationResults.emergency_id NotificationResults.total_guardians
         NotificationResults.notifications_sent].
    split; [done|]. split; [done|].
    rewrite filter_cons. unfold len.
    destruct (GuardianResult.success result).
    + rewrite decide_True by done. cbn [length]. lia.
    + rewrite decide_False by done. lia.
Qed.

Lemma dict_set_fresh {A} k (v : A) d : k ∉ d.*1 → dict_set k v d = d ++ [(k, v)].
Proof.
  induction d as [|[k' v'] d IH]; intros Hfresh; [done|].
  cbn in *. apply not_elem_of_cons in Hfresh as [Hne Hfresh].
  rewrite bool_decide_eq_false_2 by done. by rewrite IH.
Qed.

Lemma collect_results_own guardian_results :
  ∀ target_guardians results,
  length guardian_results = length target_guardians →
  NoDup ((NotificationResults.guardian_results results).*1 ++ target_guardians) →
  NotificationResults.guardian_results
    (NotificationCoordinator.collect_results guardian_results target_guardians results)
  = NotificationResults.guardian_results results ++ zip target_guardians guardian_results.
Proof.
  induction guardian_results as [|result rest IH]; intros targets results Hlength Hnodup.
  - destruct targets; [|done]. cbn. by rewrite app_nil_r.
  - destruct targets as [|guardian_id targets]; [done|].
    cbn [NotificationCoordinator.collect_results]. rewrite IH.
    + cbn [NotificationResults.guardian_results zip zip_with].
      rewrite dict_set_fresh.
      * by rewrite <-app_assoc.
      * apply NoDup_app in Hnodup as (_ & Hdisjoint & _).
        intros Hin. apply (Hdisjoint _ Hin). by left.
    + cbn in Hlength. lia.
    + cbn [NotificationResults.guardian_results].
      rewrite dict_set_fresh.
      * rewrite fmap_app. cbn. rewrite <-app_assoc. done.
      * apply NoDup_app in Hnodup as (_ & Hdisjoint & _).
        intros Hin. apply (Hdisjoint _ Hin). by left.
Qed.

Lemma filter_registered_all {A} (contacts : list (string * A)) targets :
  Forall (λ g, is_Some (dict_get g contacts)) targets →
  filter (λ g, is_Some (dict_get g contacts)) targets = targets.
Proof.
  induction 1 as [|g targets Hg _ IH]; [done|].
  rewrite filter_cons, decide_True by done. by rewrite IH.
Qed.

(** X27: the accounts of [send_emergency_notification]. A severity level
    other than 1, 2 or 3 raises before anything is sent. Otherwise the
    results report as [total_guardians] the number of targets, registered or
    not, and as [notifications_sent] a number between 0 and the number of
    targets that have contacts. The contacts are never changed; a guardian
    whose status changed is a target with contacts and is now notified; and
    when no notification was sent, no status changed at all. *)
Theorem send_emergency_notification_accounts `{Gateways} (now : Z)
    (emergency_id emergency_type : string) (severity_level : Z)
    (content : gmap string string) (target_guardians : option (list string))
    (self : NotificationCoordinator.t) :
  let run :=
    NotificationCoordinator.send_emergency_notification now emergency_id emergency_type
      severity_level content target_guardians self in
  let targets :=
    default (dict_keys (NotificationCoordinator.guardian_contacts self)) target_guardians in
  let registered :=
    filter (λ g, is_Some (dict_get g (NotificationCoordinator.guardian_contacts self)))
           targets in
  NotificationCoordinator.guardian_contacts run.2 = NotificationCoordinator.guardian_contacts self
  ∧ (∀ g, NotificationCoordinator.guardian_status run.2 !! g
          ≠ NotificationCoordinator.guardian_status self !! g →
          g ∈ registered
          ∧ NotificationCoordinator.guardian_status run.2 !! g = Some GuardianStatus.NOTIFIED)
  ∧ match run.1 with
    | None => (severity_level ∉ [1; 2; 3]) ∧ run.2 = self
    | Some results =>
        severity_level ∈ [1; 2; 3]
        ∧ NotificationResults.emergency_id results = emergency_id
        ∧ NotificationResults.total_guardians results = len targets
        ∧ 0 ≤ NotificationResults.notifications_sent results ≤ len registered
        ∧ len registered ≤ len targets
        ∧ (NotificationResults.notifications_sent results = 0 → run.2 = self)
    end.
Proof.
  cbn zeta. unfold NotificationCoordinator.send_emergency_notification.
  set (targets := default _ target_guardians).
  set (registered := filter _ targets).
  case_bool_decide as Hlevel; cbn [negb]; [|by cbn].
  pose proof (send_to_guardians_effect now content
                (NotificationCoordinator._determine_priority severity_level emergency_type)
                emergency_id registered self) as (Hlength & Hcontacts & Hchanged & Hnone).
  destruct (NotificationCoordinator.send_to_guardians now content _ emergency_id registered
              self) as [guardian_results self'].
  cbn [fst snd] in *.
  split; [done|]. split; [done|].
  assert (length registered ≤ length targets)%nat as Hregistered by apply length_filter.
  match goal with
  | |- context [NotificationCoordinator.collect_results guardian_results targets ?acc] =>
      destruct (collect_results_counts guardian_results targets acc)
        as (Hid & Htotal & Hsent); [lia|]
  end.
  rewrite Hid, Htotal, Hsent. cbn [NotificationResults.emergency_id
    NotificationResults.total_guardians NotificationResults.notifications_sent].
  pose proof (length_filter (λ r, GuardianResult.success r = true) guardian_results) as Hle.
  unfold len in *.
  split; [done|]. split; [done|]. split; [done|]. split; [lia|]. split; [lia|].
  intros Hzero. apply Hnone.
  assert (filter (λ r, GuardianResult.success r = true) guardian_results = []) as Hempty
    by (apply nil_length_inv; lia).
  apply Forall_forall. intros r Hr.
  destruct (GuardianResult.success r) eqn:Hsuccess; [|done].
  assert (r ∈ filter (λ r, GuardianResult.success r = true) guardian_results) as Hin
    by by apply list_elem_of_filter.
  rewrite Hempty in Hin. by apply elem_of_nil in Hin.
Qed.

(** X28: whose result is filed under whose name. The results are filed by
    position in the list of targets, while notifications go only to the
    targets that have contacts. When every target has contacts and none is
    named twice, each is filed with its own result. When a target without
    contacts precedes one with contacts, the result of the second is filed
    under the name of the first, which was never contacted, and the second
    has no entry. *)
Theorem results_filed_by_position `{Gateways} (now : Z) (emergency_id emergency_type : string)
    (severity_level : Z) (content : gmap string string) (self : NotificationCoordinator.t) :
  severity_level ∈ [1; 2; 3] →
  let priority := NotificationCoordinator._determine_priority severity_level emergency_type in
  let filed target_guardians :=
    NotificationResults.guardian_results <$>
      (NotificationCoordinator.send_emergency_notification now emergency_id emergency_type
         severity_level content (Some target_guardians) self).1 in
  (∀ target_guardians,
     NoDup target_guardians →
     Forall (λ g, is_Some (dict_get g (NotificationCoordinator.guardian_contacts self)))
            target_guardians →
     filed target_guardians
     = Some (zip target_guardians
               (NotificationCoordinator.send_to_guardians now content priority emergency_id
                  target_guardians self).1))
  ∧ (∀ unregistered guardian_id,
       dict_get unregistered (NotificationCoordinator.guardian_contacts self) = None →
       is_Some (dict_get guardian_id (NotificationCoordinator.guardian_contacts self)) →
       filed [unregistered; guardian_id]
       = Some [(unregistered,
                (NotificationCoordinator._send_to_guardian now guardian_id content priority
                   emergency_id self).1)]).
Proof.
  intros Hlevel. cbn zeta. split.
  - intros targets Hnodup Hall.
    unfold NotificationCoordinator.send_emergency_notification.
    cbn [default from_option id].
    rewrite bool_decide_eq_true_2 by done. cbn [negb].
    rewrite filter_registered_all by done.
    pose proof (send_to_guardians_effect now content
                  (NotificationCoordinator._determine_priority severity_level emergency_type)
                  emergency_id targets self) as (Hlength & _).
    destruct (NotificationCoordinator.send_to_guardians now content _ emergency_id targets
                self) as [guardian_results self'].
    cbn [fst snd] in *. cbn [fmap option_fmap option_map]. f_equal.
    by rewrite collect_results_own.
  - intros unregistered guardian_id Hunregistered Hregistered.
    unfold NotificationCoordinator.send_emergency_notification.
    cbn [default from_option id].
    rewrite bool_decide_eq_true_2 by done. cbn [negb].
    rewrite filter_cons, decide_False by (rewrite Hunregistered; by intros [? ?]).
    rewrite filter_cons, decide_True by done. rewrite filter_nil.
    cbn [NotificationCoordinator.send_to_guardians].
    destruct (NotificationCoordinator._send_to_guardian now guardian_id content _
                emergency_id self) as [result self1].
    done.
Qed.

Lemma results_filed_by_position_witness :
  let gateways := Build_Gateways true false false (λ _ _ _ _, true) (λ _ _, false)
                    (λ _ _ _ _, false) in
  let self :=
    NotificationCoordinator.mk {[ "guardian_1" := GuardianStatus.UNKNOWN ]}
      [("guardian_1",
        ContactInfo.mk (Some "guardian@example.org") None None (Some Preferences.default))] in
  NotificationResults.guardian_results <$>
    (@NotificationCoordinator.send_emergency_notification gateways 43200000000 "emerg_002"
       "medical" 3 ∅ (Some ["guardian_9"; "guardian_1"]) self).1
  = Some [("guardian_9",
           (@NotificationCoordinator._send_to_guardian gateways 43200000000 "guardian_1" ∅
              (NotificationCoordinator._determine_priority 3 "medical") "emerg_002" self).1)].
Proof.
  intros gateways self.
  apply (proj2 (@results_filed_by_position gateways 43200000000 "emerg_002" "medical" 3 ∅
                  self ltac:(set_solver)) "guardian_9" "guardian_1").
  - reflexivity.
  - by eexists.
Defined.

(** *** The mock signature round of [start_collection] *)

Lemma sleep_keeps_collector us sched w :
  keeps_collector sched →
  ∃ w1, asyncio_sleep us sched w = (tt, [], w1)
        ∧ signature_collector w1 = signature_collector w.
Proof.
  intros Hkeeps. eexists. split; [done|]. cbn. apply Hkeeps.
Qed.

Lemma send_request_run guardian_address execution_id emergency_data analysis sched w sc :
  keeps_collector sched →
  signature_collector w = Some sc →
  ∃ now w1,
    _send_signature_request_to_guardian guardian_address execution_id emergency_data analysis
      sched w = (tt, [], w1)
    ∧ signature_collector w1
      = Some (update_collection execution_id (append_mock_signature now guardian_address) sc).
Proof.
  intros Hkeeps Hsc. unfold _send_signature_request_to_guardian. rewrite bind_run.
  destruct (sleep_keeps_collector 1000000 sched w Hkeeps) as (w1 & -> & Hsc1).
  rewrite Hsc in Hsc1.
  unfold _simulate_guardian_signature. rewrite bind_run. cbn [gets].
  rewrite bind_run.
  match goal with
  | |- context [asyncio_sleep ?us sched w1] =>
      destruct (sleep_keeps_collector us sched w1 Hkeeps) as (w2 & -> & Hsc2)
  end.
  rewrite Hsc1 in Hsc2. rewrite bind_run. cbn [datetime_now].
  unfold collector_call. rewrite Hsc2.
  exists (clock w2), (set_signature_collector
                        (Some (update_collection execution_id
                                 (append_mock_signature (clock w2) guardian_address) sc)) w2).
  done.
Qed.

Lemma signed_by_step now guardian_address guardians (before after : SignatureCollection.t) :
  signed_by guardians (append_mock_signature now guardian_address before) after →
  signed_by (guardian_address :: guardians) before after.
Proof.
  rewrite append_mock_signature_eq. unfold signed_by, signers.
  rewrite collected_count_with_signature. cbn [GuardianSignature.verified].
  unfold len. cbn [with_signature SignatureCollection.collected_signatures
    SignatureCollection.required_signatures SignatureCollection.status length
    GuardianSignature.verified].
  intros (Hsigners & Hcount & Hrequired & Hstatus).
  split; [|split; [|split]].
  - rewrite Hsigners, fmap_app. cbn. by rewrite <-app_assoc.
  - lia.
  - done.
  - rewrite Hstatus. rewrite (bool_decide_eq_true_2 (guardian_address :: guardians ≠ []))
      by done. cbn [andb].
    replace (SignatureCollection.collected_count before + 1 + Z.of_nat (length guardians))
      with (SignatureCollection.collected_count before + Z.of_nat (S (length guardians)))
      by lia.
    destruct guardians as [|g guardians].
    + rewrite bool_decide_eq_false_2 by (by intros ?). cbn [andb length].
      by replace (SignatureCollection.collected_count before + Z.of_nat 1)
        with (SignatureCollection.collected_count before + 1) by lia.
    + rewrite bool_decide_eq_true_2 by done. cbn [andb].
      destruct (Z.leb_spec (SignatureCollection.required_signatures before)
                  (SignatureCollection.collected_count before
                   + Z.of_nat (S (length (g :: guardians))))); [done|].
      destruct (Z.leb_spec (SignatureCollection.required_signatures before)
                  (SignatureCollection.collected_count before + 1)); [|done].
      cbn [length] in *. lia.
Qed.

Lemma send_requests_fold sched execution_id emergency_data analysis guardians :
  keeps_collector sched →
  ∀ w sc collection,
    signature_collector w = Some sc →
    collections sc !! execution_id = Some collection →
    ∃ w' sc' collection',
      foldr (λ guardian_address rest,
               _send_signature_request_to_guardian guardian_address execution_id
                 emergency_data analysis;;
               rest)
            (mret tt) guardians sched w = (tt, [], w')
      ∧ signature_collector w' = Some sc'
      ∧ mock_guardians sc' = mock_guardians sc
      ∧ collections sc' !! execution_id = Some collection'
      ∧ signed_by guardians collection collection'.
Proof.
  intros Hkeeps. induction guardians as [|guardian_address guardians IH];
    intros w sc collection Hsc Hcollection.
  - exists w, sc, collection. cbn. split; [done|]. split; [done|]. split; [done|].
    split; [done|]. unfold signed_by, len. cbn.
    rewrite app_nil_r. split; [done|]. split; [lia|]. by split.
  - cbn [foldr]. rewrite bind_run.
    destruct (send_request_run guardian_address execution_id emergency_data analysis
                sched w sc Hkeeps Hsc) as (now & w1 & -> & Hsc1).
    destruct (IH w1 _ (append_mock_signature now guardian_address collection) Hsc1)
      as (w' & sc' & collection' & -> & Hsc' & Hmock & Hcollection' & Hsigned).
    { rewrite lookup_update_collection, decide_True by done. by rewrite Hcollection. }
    exists w', sc', collection'. split; [done|]. split; [done|]. split; [done|].
    split; [done|]. by apply (signed_by_step now).
Qed.

(** X29: the mock signature round signs before [start_collection] returns,
    and signs two more than asked. When no other task touches the collector,
    [start_collection] of a known execution returns success only after each
    of the first [required_signatures + 2] mock guardians has signed, in that
    order; all these signatures count, whatever the collection held before;
    and the collection is then Completed if it has reached its quorum and In
    progress otherwise. The only task it creates is the monitor. *)
Theorem start_collection_signs (sched : Scheduler) (w : World) (sc : SignatureCollector)
    (collection : SignatureCollection.t) (execution_id : string)
    (emergency_data : EmergencyData.t) (analysis : EmergencyAnalysis.t) :
  keeps_collector sched →
  signature_collector w = Some sc →
  collections sc !! execution_id = Some collection →
  let run := start_collection execution_id emergency_data analysis sched w in
  let guardians :=
    slice_to (SignatureCollection.required_signatures collection + 2) (mock_guardians sc) in
  run.1 = (true, [CreateTask (MonitorCollection execution_id)])
  ∧ ∃ sc' collection',
      signature_collector run.2 = Some sc'
      ∧ collections sc' !! execution_id = Some collection'
      ∧ signed_by guardians
          (SignatureCollection.set_status SignatureStatus.IN_PROGRESS collection) collection'.
Proof.
  intros Hkeeps Hsc Hcollection. cbn zeta.
  assert (∃ w' sc' collection',
            start_collection execution_id emergency_data analysis sched w
            = (true, [CreateTask (MonitorCollection execution_id)], w')
            ∧ signature_collector w' = Some sc'
            ∧ collections sc' !! execution_id = Some collection'
            ∧ signed_by
                (slice_to (SignatureCollection.required_signatures collection + 2)
                          (mock_guardians sc))
                (SignatureCollection.set_status SignatureStatus.IN_PROGRESS collection)
                collection')
    as (w' & sc' & collection' & -> & Hsc' & Hcollection' & Hsigned);
    [|split; [done|by exists sc', collection']].
  unfold start_collection.
  rewrite bind_run. unfold collector_call. rewrite Hsc.
  unfold mark_in_progress. rewrite Hcollection.
  set (sc1 := update_collection execution_id _ sc).
  set (w1 := set_signature_collector (Some sc1) w).
  assert (collections sc1 !! execution_id
          = Some (SignatureCollection.set_status SignatureStatus.IN_PROGRESS collection))
    as Hcollection1.
  { subst sc1. rewrite lookup_update_collection, decide_True by done.
    by rewrite Hcollection. }
  rewrite bind_run. unfold _send_signature_requests. rewrite bind_run. cbn [gets].
  change (signature_collector w1) with (Some sc1). cbn match. rewrite Hcollection1.
  destruct (send_requests_fold sched execution_id emergency_data analysis
              (slice_to (SignatureCollection.required_signatures
                           (SignatureCollection.set_status SignatureStatus.IN_PROGRESS
                              collection) + 2) (mock_guardians sc1))
              Hkeeps w1 sc1 _ eq_refl Hcollection1)
    as (w' & sc' & collection' & -> & Hsc' & Hmock & Hcollection' & Hsigned).
  rewrite bind_run. cbn. by exists w', sc', collection'.
Qed.

Lemma start_collection_signs_witness :
  ∃ sc' collection',
    signature_collector
      (start_collection "exec_1" demo_emergency demo_analysis idle demo_world).2 = Some sc'
    ∧ collections sc' !! "exec_1" = Some collection'
    ∧ signed_by
        (slice_to (SignatureCollection.required_signatures demo_pending_collection + 2)
                  (mock_guardians demo_pending))
        (SignatureCollection.set_status SignatureStatus.IN_PROGRESS demo_pending_collection)
        collection'.
Proof.
  apply (proj2 (start_collection_signs idle demo_world demo_pending demo_pending_collection
                  "exec_1" demo_emergency demo_analysis
                  (λ _ _ _, eq_refl) eq_refl ltac:(vm_compute; reflexivity))).
Defined.
